(** * aws-ebs-csi-driver: parameter E2E suite, release script, Makefile
      target [e2e/parameters] and the generated Kubernetes client mock.

    The development follows the four source artefacts:
    - [tests/e2e] parameter tests (Ginkgo/Gomega) as programs of a free
      monad over the Kubernetes and AWS API calls they issue;
    - [hack/release-scripts/get-latest-sidecar-images] as a shell program
      in a state monad with bash's [errexit], [ERR] and [EXIT] traps;
    - the [e2e/parameters] Makefile target as a function of [PARAM_SET];
    - [pkg/driver/mock_k8s_client.go] as delegation to a gomock
      controller followed by a two-valued type assertion. *)

From Stdlib Require Import String Ascii List ZArith Lia Bool DecimalString Sorted.
From stdpp Require Import base option list gmap strings.

Local Open Scope string_scope.
Local Open Scope list_scope.

(** ** Go values shared by the models *)

(** A Go [error]: [None] is [nil]. *)
Definition error := option string.

Definition HaveOccurred (err : error) : bool :=
  match err with Some _ => true | None => false end.

(** [strings.Contains] / Gomega's [ContainSubstring]. *)
Fixpoint has_prefix (p s : string) : bool :=
  match p, s with
  | EmptyString, _ => true
  | String a p', String b s' => Ascii.eqb a b && has_prefix p' s'
  | String _ _, EmptyString => false
  end.

Fixpoint ContainSubstring (sub s : string) : bool :=
  has_prefix sub s ||
  match s with
  | EmptyString => false
  | String _ s' => ContainSubstring sub s'
  end.

(** A Go [map[string]string] read at [k]: the zero value when absent. *)
Definition map_index (m : gmap string string) (k : string) : string :=
  default "" (m !! k).

(** Gomega's [HaveKeyWithValue]. *)
Definition HaveKeyWithValue (m : gmap string string) (k v : string) : bool :=
  match m !! k with
  | Some v' => String.eqb v' v
  | None => false
  end.

Definition ContainElement (l : list string) (x : string) : bool :=
  existsb (String.eqb x) l.

Definition is_nil {A} (p : option A) : bool :=
  match p with None => true | Some _ => false end.

Definition BeEmpty {A} (l : list A) : bool :=
  match l with [] => true | _ => false end.

(** ** Kubernetes and EC2 objects, restricted to the fields the tests read *)

Module ObjectMeta.
Record t := { Name : string;
                Labels : gmap string string;
                Annotations : gmap string string }.
End ObjectMeta.

Module ContainerPort.
Record t := { Name : string; ContainerPort : Z }.
End ContainerPort.

Module VolumeMount.
Record t := { Name : string; MountPath : string }.
End VolumeMount.

Module EnvVar.
Record t := { Name : string; Value : string }.
End EnvVar.

(** A [ResourceList] maps a resource name to a quantity; a quantity is kept
    as its canonical [String()] form, and a missing entry reads as the zero
    quantity, which prints as 0. *)
Module ResourceList.
Definition t := gmap string string.
Definition Cpu (rl : gmap string string) : string := default "0" (rl !! "cpu").
Definition Memory (rl : gmap string string) : string := default "0" (rl !! "memory").
End ResourceList.

Module ResourceRequirements.
Record t := { Limits : gmap string string; Requests : gmap string string }.
End ResourceRequirements.

Module SecurityContext.
Record t := { ReadOnlyRootFilesystem : option bool }.
End SecurityContext.

Module Container.
Record t := { Name : string;
                Image : string;
                Args : list string;
                Ports : list ContainerPort.t;
                Env : list EnvVar.t;
                Resources : ResourceRequirements.t;
                VolumeMounts : list VolumeMount.t;
                ImagePullPolicy : string;
                SecurityContext : option SecurityContext.t }.
End Container.

Module Toleration.
Record t := { Key : string; Operator : string; Value : string; Effect : string }.
End Toleration.

Module SELinuxOptions.
Record t := { Level : string }.
End SELinuxOptions.

Module PodSecurityContext.
Record t := { SELinuxOptions : option SELinuxOptions.t;
                RunAsNonRoot : option bool }.
End PodSecurityContext.

Module NodeAffinity.
Record t := { RequiredTerms : list string }.
End NodeAffinity.

Module Affinity.
Record t := { NodeAffinity : option NodeAffinity.t }.
End Affinity.

Module TopologySpreadConstraint.
Record t := { TopologyKey : string }.
End TopologySpreadConstraint.

Module Volume.
Record t := { Name : string }.
End Volume.

Module LocalObjectReference.
Record t := { Name : string }.
End LocalObjectReference.

Module PodDNSConfig.
Record t := { Nameservers : list string }.
End PodDNSConfig.

Module PodSpec.
Record t := { Volumes : list Volume.t;
                InitContainers : list Container.t;
                Containers : list Container.t;
                TerminationGracePeriodSeconds : option Z;
                NodeSelector : gmap string string;
                ServiceAccountName : string;
                HostNetwork : bool;
                SecurityContext : option PodSecurityContext.t;
                ImagePullSecrets : list LocalObjectReference.t;
                Affinity : option Affinity.t;
                Tolerations : list Toleration.t;
                PriorityClassName : string;
                DNSConfig : option PodDNSConfig.t;
                TopologySpreadConstraints : list TopologySpreadConstraint.t }.
End PodSpec.

Module Pod.
Record t := { Meta : ObjectMeta.t; Spec : PodSpec.t }.
End Pod.

Module PodTemplateSpec.
Record t := { Meta : ObjectMeta.t; Spec : PodSpec.t }.
End PodTemplateSpec.

Module DeploymentSpec.
Record t := { Replicas : option Z;
                Template : PodTemplateSpec.t;
                StrategyType : string;
                RevisionHistoryLimit : option Z }.
End DeploymentSpec.

Module Deployment.
Record t := { Meta : ObjectMeta.t; Spec : DeploymentSpec.t }.
End Deployment.

Module DaemonSetSpec.
Record t := { Template : PodTemplateSpec.t;
                UpdateStrategyType : string;
                RevisionHistoryLimit : option Z }.
End DaemonSetSpec.

Module DaemonSet.
Record t := { Meta : ObjectMeta.t; Spec : DaemonSetSpec.t }.
End DaemonSet.

Module Node.
Record t := { Meta : ObjectMeta.t }.
End Node.

Module Service.
Record t := { Meta : ObjectMeta.t }.
End Service.

Module ServiceAccount.
Record t := { Meta : ObjectMeta.t }.
End ServiceAccount.

Module PodDisruptionBudget.
Record t := { Meta : ObjectMeta.t }.
End PodDisruptionBudget.

Module PolicyRule.
Record t := { Verbs : list string; Resources : list string }.
End PolicyRule.

Module ClusterRole.
Record t := { Meta : ObjectMeta.t; Rules : list PolicyRule.t }.
End ClusterRole.

Module StorageClass.
Record t := { Meta : ObjectMeta.t; Parameters : gmap string string }.
End StorageClass.

Module CSIDriver.
Record t := { Meta : ObjectMeta.t; FSGroupPolicy : option string }.
End CSIDriver.

Module Namespace.
Record t := { Name : string }.
End Namespace.

(** [unstructured.Unstructured]: only the top level of [Object] is read. *)
Module Unstructured.
Inductive field := FString (s : string) | FOther.
Record t := { Name : string; Object : gmap string field }.
Definition GetName (u : t) : string := Name u.
  (** [unstructured.NestedString(obj, key)]: value, found, error. *)
Definition NestedString (obj : gmap string field) (key : string)
    : string * bool * error :=
    match obj !! key with
    | None => ("", false, None)
    | Some (FString s) => (s, true, None)
    | Some FOther => ("", false, Some "accessor error: not a string")
    end.
End Unstructured.

Module GroupVersionResource.
Record t := { Group : string; Version : string; Resource : string }.
End GroupVersionResource.

Module ListOptions.
Record t := { LabelSelector : string }.
End ListOptions.

Module Filter.
Record t := { Name : string; Values : list string }.
End Filter.

Module DescribeVolumesInput.
Record t := { Filters : list Filter.t }.
End DescribeVolumesInput.

Module EC2Volume.
Record t := { VolumeId : string; Tags : list (string * string) }.
End EC2Volume.

Module DescribeVolumesOutput.
Record t := { Volumes : list EC2Volume.t }.
End DescribeVolumesOutput.

(** ** The test monads

    A Ginkgo spec body either runs to its end, or is unwound by a failed
    Gomega assertion ([Expect], [Fail]), by [Skip], or by a Go run-time
    panic.  Each unwinding records the source line that caused it. *)

Inductive verdict :=
| Failed (line : nat) (msg : string)
| Skipped (line : nat) (msg : string)
| Panicked (line : nat).

(** Assertions and loops over data already fetched: no API access. *)
Inductive Check (A : Type) : Type :=
| Ok (a : A)
| Stop (v : verdict).
Arguments Ok {A} a.
Arguments Stop {A} v.

#[global] Instance Check_ret : MRet Check := fun A a => Ok a.
#[global] Instance Check_bind : MBind Check := fun A B f m =>
  match m with
  | Ok a => f a
  | Stop v => Stop v
  end.

Definition Expect (line : nat) (ok : bool) (msg : string) : Check unit :=
  if ok then Ok tt else Stop (Failed line msg).

Definition Fail {A} (line : nat) (msg : string) : Check A := Stop (Failed line msg).

Definition Skip {A} (line : nat) (msg : string) : Check A := Stop (Skipped line msg).

(** Dereference of a Go pointer: a nil pointer panics. *)
Definition deref {A} (line : nat) (p : option A) : Check A :=
  match p with
  | Some a => Ok a
  | None => Stop (Panicked line)
  end.

(** [for _, x := range l { body }] without [break] or [return]. *)
Fixpoint range {A} (l : list A) (body : A -> Check unit) : Check unit :=
  match l with
  | [] => Ok tt
  | x :: l' => body x ;; range l' body
  end.

(** A [range] loop whose body may [return] from the enclosing function. *)
Inductive flow := Next | Return.

Fixpoint range_return {A} (l : list A) (body : A -> Check flow) : Check flow :=
  match l with
  | [] => Ok Next
  | x :: l' =>
      fl ← body x;
      match fl with
      | Return => Ok Return
      | Next => range_return l' body
      end
  end.

(** The Kubernetes resources a clientset (typed or dynamic) gives access to,
    indexed by the Go type of the object. *)
Inductive resource : Type -> Type :=
| Pods : resource Pod.t
| Nodes : resource Node.t
| Services : resource Service.t
| ServiceAccounts : resource ServiceAccount.t
| Deployments : resource Deployment.t
| DaemonSets : resource DaemonSet.t
| PodDisruptionBudgets : resource PodDisruptionBudget.t
| ClusterRoles : resource ClusterRole.t
| StorageClasses : resource StorageClass.t
| CSIDrivers : resource CSIDriver.t
| Dynamic (gvr : GroupVersionResource.t) : resource Unstructured.t.

Inductive verb :=
| Create | Update | UpdateStatus | Delete | DeleteCollection
| Get | List | Watch | Patch | Apply.

Inductive write_verb := WCreate | WUpdate | WUpdateStatus | WPatch | WApply.

Inductive ec2_operation :=
| DescribeVolumes | CreateVolume | DeleteVolume | AttachVolume | DetachVolume
| ModifyVolume | CreateTags | DeleteTags | CreateSnapshot | DescribeSnapshots
| DescribeInstances.

(** What [testsuites.DynamicallyProvisionedCmdVolumeTest.Run] receives besides
    the validation closure. *)
Module VolumeDetails.
Record t := { CreateVolumeParameters : list (string * string);
              ClaimSize : string;
              VolumeMount : string }.
End VolumeDetails.

Module PodDetails.
Record t := { Cmd : string; Volumes : list VolumeDetails.t }.
End PodDetails.

(** The requests a spec body can issue; the index is the Go result. *)
Inductive apiE : Type -> Type :=
| K8sGet {O} (r : resource O) (ns : option string) (name : string)
    : apiE (O * error)
| K8sList {O} (r : resource O) (ns : option string) (opts : ListOptions.t)
    : apiE (list O * error)
| K8sWrite {O} (v : write_verb) (r : resource O) (ns : option string) (obj : O)
    : apiE (O * error)
| K8sDelete {O} (r : resource O) (ns : option string) (name : string)
    : apiE error
| EC2DescribeVolumes (input : DescribeVolumesInput.t)
    : apiE (DescribeVolumesOutput.t * error)
| EC2Other (op : ec2_operation) (arg : string)
    : apiE error
| LoadDefaultConfig
    : apiE error
| TestsuiteRun (pods : list PodDetails.t) (ns : Namespace.t)
    : apiE (option verdict).

Inductive Test (A : Type) : Type :=
| Ret (a : A)
| Halt (v : verdict)
| Vis {R : Type} (line : nat) (e : apiE R) (k : R -> Test A).
Arguments Ret {A} a.
Arguments Halt {A} v.
Arguments Vis {A R} line e k.

Fixpoint Test_bind_fix {A B} (f : A -> Test B) (m : Test A) : Test B :=
  match m with
  | Ret a => f a
  | Halt v => Halt v
  | Vis line e k => Vis line e (fun r => Test_bind_fix f (k r))
  end.

#[global] Instance Test_ret : MRet Test := fun A a => Ret a.
#[global] Instance Test_bind : MBind Test := fun A B f m => Test_bind_fix f m.

Definition call {R} (line : nat) (e : apiE R) : Test R := Vis line e Ret.

(** Assertions run inside a spec body. *)
Definition pure {A} (c : Check A) : Test A :=
  match c with
  | Ok a => Ret a
  | Stop v => Halt v
  end.

(** *** Running a spec body against a cluster

    The cluster and the cloud are an oracle answering each request; [run]
    returns the requests issued, in order, and how the body ended. *)

Definition handler := forall R : Type, nat -> apiE R -> R.

Record event := Event { ev_line : nat; ev_type : Type; ev_call : apiE ev_type }.
Arguments Event _ {_} _.

Fixpoint run {A} (h : handler) (t : Test A) : list event * (A + verdict) :=
  match t with
  | Ret a => ([], inl a)
  | Halt v => ([], inr v)
  | Vis line e k =>
      let '(tr, out) := run h (k (h _ line e)) in
      (Event line e :: tr, out)
  end.

Definition trace {A} (h : handler) (t : Test A) : list event := fst (run h t).
Definition outcome {A} (h : handler) (t : Test A) : A + verdict := snd (run h t).

Definition passes (h : handler) (t : Test unit) : Prop := outcome h t = inl tt.

(** Classification of a request, as the claims speak about it. *)
Definition k8s_verb {R} (e : apiE R) : option verb :=
  match e with
  | K8sGet _ _ _ => Some Get
  | K8sList _ _ _ => Some List
  | K8sWrite WCreate _ _ _ => Some Create
  | K8sWrite WUpdate _ _ _ => Some Update
  | K8sWrite WUpdateStatus _ _ _ => Some UpdateStatus
  | K8sWrite WPatch _ _ _ => Some Patch
  | K8sWrite WApply _ _ _ => Some Apply
  | K8sDelete _ _ _ => Some Delete
  | _ => None
  end.

Definition k8s_namespace {R} (e : apiE R) : option string :=
  match e with
  | K8sGet _ ns _ | K8sList _ ns _ | K8sWrite _ _ ns _ | K8sDelete _ ns _ => ns
  | _ => None
  end.

Definition ec2_op {R} (e : apiE R) : option ec2_operation :=
  match e with
  | EC2DescribeVolumes _ => Some DescribeVolumes
  | EC2Other op _ => Some op
  | _ => None
  end.

Definition ec2_filters {R} (e : apiE R) : list Filter.t :=
  match e with
  | EC2DescribeVolumes input => DescribeVolumesInput.Filters input
  | _ => []
  end.

Definition is_api_call {R} (e : apiE R) : bool :=
  match k8s_verb e, ec2_op e with
  | None, None => false
  | _, _ => true
  end.

(** ** The parameter tests, in source order

    One definition per [It] body, named after the [param:] label of its
    [Describe]; the numbers are the source lines of the request or of the
    assertion.  [cs], [f.ClientSet] and [f.DynamicClient] are the request
    constructors [K8sGet]/[K8sList]; [ec2Client] is [EC2DescribeVolumes].
    [framework.NewDefaultFramework], [driver.InitEbsCSIDriver] and
    [ec2.NewFromConfig] belong to imported packages; what they do is not
    part of this file and is not modelled. *)

Module ParameterTests.

(** Constants and helpers of the packages [pkg/driver], [pkg/cloud],
    [tests/e2e/driver] and [tests/e2e/testsuites], which the test file
    imports; only their use as arguments of [test.Run] is modelled. *)
Record externals := {
  VolumeTypeKey : string;
  FSTypeKey : string;
  VolumeTypeGP3 : string;
  FSTypeExt4 : string;
  MinimumSizeForVolumeType : string -> string;
  DefaultGeneratedVolumeMount : string;
  PodCmdWriteToVolume : string -> string }.

Module DynamicallyProvisionedCmdVolumeTest.
Record t := {
  Pods : list PodDetails.t;
  ValidateFunc : option (Test unit) }.
End DynamicallyProvisionedCmdVolumeTest.

(** [test.Run(cs, ns)]: the body of [Run] belongs to the testsuites package;
    here it is one opaque request that may unwind the spec. *)
Definition Run (line : nat) (t : DynamicallyProvisionedCmdVolumeTest.t)
    (ns : Namespace.t) : Test unit :=
  r ← call line (TestsuiteRun (DynamicallyProvisionedCmdVolumeTest.Pods t) ns);
  match r with
  | None => Ret tt
  | Some v => Halt v
  end.

Section Specs.
Context (ext : externals) (ns : Namespace.t).

Definition kube_pods (selector : string) : apiE (list Pod.t * error) :=
  K8sList Pods (Some "kube-system") {| ListOptions.LabelSelector := selector |}.

(* [param:extraCreateMetadata] *)
Definition BeforeEach_extraCreateMetadata : Test unit :=
  err ← call 60 LoadDefaultConfig;
  pure (Expect 61 (negb (HaveOccurred err)) "Failed to load AWS config").

Definition ValidateFunc_extraCreateMetadata : Test unit :=
  '(result, err) ← call 87 (EC2DescribeVolumes {| DescribeVolumesInput.Filters := [
      {| Filter.Name := "tag:kubernetes.io/created-for/pvc/namespace";
         Filter.Values := [Namespace.Name ns] |} ] |});
  pure (Expect 95 (negb (HaveOccurred err)) "") ;;
  pure (Expect 96 (1 <=? length (DescribeVolumesOutput.Volumes result))%nat
          "Should find volume with PVC namespace tag").

Definition It_extraCreateMetadata : Test unit :=
  let pods := [ {| PodDetails.Cmd := PodCmdWriteToVolume ext "/mnt/test-1";
                   PodDetails.Volumes := [
                     {| VolumeDetails.CreateVolumeParameters :=
                          [ (VolumeTypeKey ext, VolumeTypeGP3 ext);
                            (FSTypeKey ext, FSTypeExt4 ext) ];
                        VolumeDetails.ClaimSize := MinimumSizeForVolumeType ext (VolumeTypeGP3 ext);
                        VolumeDetails.VolumeMount := DefaultGeneratedVolumeMount ext |} ] |} ] in
  let test := {| DynamicallyProvisionedCmdVolumeTest.Pods := pods;
                DynamicallyProvisionedCmdVolumeTest.ValidateFunc := Some ValidateFunc_extraCreateMetadata |} in
  Run 99 test ns.

(* [param:k8sTagClusterId] *)
Definition BeforeEach_k8sTagClusterId : Test unit :=
  err ← call 119 LoadDefaultConfig;
  pure (Expect 120 (negb (HaveOccurred err)) "").

Definition ValidateFunc_k8sTagClusterId : Test unit :=
  '(result, err) ← call 145 (EC2DescribeVolumes {| DescribeVolumesInput.Filters := [
      {| Filter.Name := "tag:kubernetes.io/cluster/e2e-param-test";
         Filter.Values := ["owned"] |} ] |});
  pure (Expect 153 (negb (HaveOccurred err)) "") ;;
  pure (Expect 154 (1 <=? length (DescribeVolumesOutput.Volumes result))%nat
          "Should find volume with cluster ID tag").

Definition cmd_volume_gp3 (cmd : string) : list PodDetails.t :=
  [ {| PodDetails.Cmd := cmd;
       PodDetails.Volumes := [
         {| VolumeDetails.CreateVolumeParameters := [ (VolumeTypeKey ext, VolumeTypeGP3 ext) ];
            VolumeDetails.ClaimSize := MinimumSizeForVolumeType ext (VolumeTypeGP3 ext);
            VolumeDetails.VolumeMount := DefaultGeneratedVolumeMount ext |} ] |} ].

Definition It_k8sTagClusterId : Test unit :=
  let pods := cmd_volume_gp3 (PodCmdWriteToVolume ext "/mnt/test-1") in
  let test := {| DynamicallyProvisionedCmdVolumeTest.Pods := pods;
                DynamicallyProvisionedCmdVolumeTest.ValidateFunc := Some ValidateFunc_k8sTagClusterId |} in
  Run 157 test ns.

(* [param:extraVolumeTags] *)
Definition BeforeEach_extraVolumeTags : Test unit :=
  err ← call 177 LoadDefaultConfig;
  pure (Expect 178 (negb (HaveOccurred err)) "").

Definition ValidateFunc_extraVolumeTags : Test unit :=
  '(result, err) ← call 203 (EC2DescribeVolumes {| DescribeVolumesInput.Filters := [
      {| Filter.Name := "tag:TestKey";
         Filter.Values := ["TestValue"] |} ] |});
  pure (Expect 211 (negb (HaveOccurred err)) "") ;;
  pure (Expect 212 (1 <=? length (DescribeVolumesOutput.Volumes result))%nat
          "Should find volume with extra tag TestKey=TestValue").

Definition It_extraVolumeTags : Test unit :=
  let pods := cmd_volume_gp3 (PodCmdWriteToVolume ext "/mnt/test-1") in
  let test := {| DynamicallyProvisionedCmdVolumeTest.Pods := pods;
                DynamicallyProvisionedCmdVolumeTest.ValidateFunc := Some ValidateFunc_extraVolumeTags |} in
  Run 215 test ns.

(** The loop of the two metrics tests: [break] leaves the port loop only, and
    the flag is declared per pod. *)
Definition hasMetricsPort (pod : Pod.t) : bool :=
  existsb (fun container =>
    existsb (fun port =>
      (ContainerPort.Name port =? "metrics") || (ContainerPort.ContainerPort port =? 3301)%Z)
      (Container.Ports container))
    (PodSpec.Containers (Pod.Spec pod)).

(* [param:controllerMetrics] *)
Definition It_controllerMetrics : Test unit :=
  '(pods, err) ← call 231 (kube_pods "app=ebs-csi-controller");
  pure (Expect 234 (negb (HaveOccurred err)) "") ;;
  pure (Expect 235 (negb (BeEmpty pods)) "Controller pods should exist") ;;
  pure (range pods (fun pod =>
    Expect 248 (hasMetricsPort pod) "Controller pod should have metrics port")).

(* [param:nodeMetrics] *)
Definition It_nodeMetrics : Test unit :=
  '(pods, err) ← call 265 (kube_pods "app=ebs-csi-node");
  pure (Expect 268 (negb (HaveOccurred err)) "") ;;
  pure (Expect 269 (negb (BeEmpty pods)) "Node pods should exist") ;;
  pure (range pods (fun pod =>
    Expect 282 (hasMetricsPort pod) "Node pod should have metrics port")).

(* [param:defaultFsType] *)
Definition It_defaultFsType : Test unit :=
  let pods := cmd_volume_gp3 "mount | grep /mnt/test-1 | grep xfs" in
  let test := {| DynamicallyProvisionedCmdVolumeTest.Pods := pods;
                DynamicallyProvisionedCmdVolumeTest.ValidateFunc := None |} in
  Run 359 test ns.

(** The block the argument tests repeat: in every pod, every container
    called [name] must carry an argument accepted by [p]; the inner loop
    sets a flag and [break]s, which is [existsb]. *)
Definition expect_container_args (pods : list Pod.t) (name : string)
    (p : string -> bool) (line : nat) (msg : string) : Check unit :=
  range pods (fun pod =>
    range (PodSpec.Containers (Pod.Spec pod)) (fun container =>
      if Container.Name container =? name then
        let hasArg := existsb p (Container.Args container) in
        Expect line hasArg msg
      else Ok tt)).

(** A spec that lists pods by label, requires the list to succeed and to be
    non-empty (the two assertions follow the request at +3 and +4 lines),
    and then checks the pods. *)
Definition pods_spec (line : nat) (selector : string) (empty_msg : string)
    (checks : list Pod.t -> Check unit) : Test unit :=
  '(pods, err) ← call line (kube_pods selector);
  pure (Expect (line + 3) (negb (HaveOccurred err)) "") ;;
  pure (Expect (line + 4) (negb (BeEmpty pods)) empty_msg) ;;
  pure (checks pods).

Definition is_v4 (arg : string) : bool := (arg =? "-v=4") || (arg =? "--v=4").

(* [param:batching] *)
Definition It_batching : Test unit :=
  pods_spec 298 "app=ebs-csi-controller" "" (fun pods =>
    expect_container_args pods "ebs-plugin" (fun arg => arg =? "--batching=true")
      315 "Controller should have --batching=true arg").

(* [param:controllerLoggingFormat] *)
Definition It_controllerLoggingFormat : Test unit :=
  pods_spec 374 "app=ebs-csi-controller" "" (fun pods =>
    expect_container_args pods "ebs-plugin" (fun arg => arg =? "--logging-format=json")
      390 "Controller should have --logging-format=json arg").

(* [param:nodeLoggingFormat] *)
Definition It_nodeLoggingFormat : Test unit :=
  pods_spec 408 "app=ebs-csi-node" "" (fun pods =>
    expect_container_args pods "ebs-plugin" (fun arg => arg =? "--logging-format=json")
      424 "Node should have --logging-format=json arg").

(* [param:volumeModification] *)
Definition It_volumeModification : Test unit :=
  pods_spec 442 "app=ebs-csi-controller" "" (fun pods =>
    range pods (fun pod =>
      let hasVolumeModifier :=
        existsb (fun container => Container.Name container =? "volumemodifier")
          (PodSpec.Containers (Pod.Spec pod)) in
      Expect 456 hasVolumeModifier "Controller should have volumemodifier sidecar")).

(* [param:metadataLabeler] *)
Definition It_metadataLabeler : Test unit :=
  '(nodes, err) ← call 472 (K8sList Nodes None {| ListOptions.LabelSelector := "" |});
  pure (Expect 473 (negb (HaveOccurred err)) "") ;;
  pure (Expect 474 (negb (BeEmpty nodes)) "") ;;
  let volumeLabelKey := "ebs.csi.aws.com/non-csi-ebs-volumes-count" in
  let eniLabelKey := "ebs.csi.aws.com/enis-count" in
  let has key node :=
    negb (is_nil (ObjectMeta.Labels (Node.Meta node) !! key)) in
  let foundVolumeLabel := existsb (has volumeLabelKey) nodes in
  let foundENILabel := existsb (has eniLabelKey) nodes in
  pure (Expect 490 foundVolumeLabel
          ("At least one node should have " ++ volumeLabelKey ++ " label")) ;;
  pure (Expect 491 foundENILabel
          ("At least one node should have " ++ eniLabelKey ++ " label")).

(* [param:controllerLogLevel] *)
Definition It_controllerLogLevel : Test unit :=
  pods_spec 506 "app=ebs-csi-controller" "" (fun pods =>
    expect_container_args pods "ebs-plugin" is_v4 522 "Controller should have -v=4 arg").

(* [param:nodeLogLevel] *)
Definition It_nodeLogLevel : Test unit :=
  pods_spec 540 "app=ebs-csi-node" "" (fun pods =>
    expect_container_args pods "ebs-plugin" is_v4 556 "Node should have -v=4 arg").

(* [param:provisionerLogLevel] *)
Definition It_provisionerLogLevel : Test unit :=
  pods_spec 574 "app=ebs-csi-controller" "" (fun pods =>
    expect_container_args pods "csi-provisioner" is_v4 590 "Provisioner should have -v=4 arg").

(* [param:attacherLogLevel] *)
Definition It_attacherLogLevel : Test unit :=
  pods_spec 608 "app=ebs-csi-controller" "" (fun pods =>
    expect_container_args pods "csi-attacher" is_v4 624 "Attacher should have -v=4 arg").

(* [param:snapshotterLogLevel] *)
Definition It_snapshotterLogLevel : Test unit :=
  pods_spec 642 "app=ebs-csi-controller" "" (fun pods =>
    expect_container_args pods "csi-snapshotter" is_v4 658 "Snapshotter should have -v=4 arg").

(* [param:resizerLogLevel] *)
Definition It_resizerLogLevel : Test unit :=
  pods_spec 676 "app=ebs-csi-controller" "" (fun pods =>
    expect_container_args pods "csi-resizer" is_v4 692 "Resizer should have -v=4 arg").

(* [param:nodeDriverRegistrarLogLevel] *)
Definition It_nodeDriverRegistrarLogLevel : Test unit :=
  pods_spec 710 "app=ebs-csi-node" "" (fun pods =>
    expect_container_args pods "node-driver-registrar" is_v4
      726 "Node-driver-registrar should have -v=4 arg").

(* [param:volumemodifierLogLevel] *)
Definition It_volumemodifierLogLevel : Test unit :=
  pods_spec 744 "app=ebs-csi-controller" "" (fun pods =>
    expect_container_args pods "volumemodifier" is_v4 760 "Volumemodifier should have -v=4 arg").

(* [param:metadataLabelerLogLevel] *)
Definition It_metadataLabelerLogLevel : Test unit :=
  pods_spec 778 "app=ebs-csi-node" "" (fun pods =>
    expect_container_args pods "metadata-labeler" is_v4
      794 "Metadata-labeler should have -v=4 arg").

(* [param:storageClasses] *)
Definition It_storageClasses : Test unit :=
  '(sc, err) ← call 812 (K8sGet StorageClasses None "test-sc");
  pure (Expect 813 (negb (HaveOccurred err)) "") ;;
  pure (Expect 814 (map_index (StorageClass.Parameters sc) "type" =? "gp3") "").

(* [param:volumeSnapshotClasses] *)
Definition volumesnapshotclasses : GroupVersionResource.t :=
  {| GroupVersionResource.Group := "snapshot.storage.k8s.io";
     GroupVersionResource.Version := "v1";
     GroupVersionResource.Resource := "volumesnapshotclasses" |}.

Definition It_volumeSnapshotClasses : Test unit :=
  '(_, err) ← call 824 (K8sList (Dynamic volumesnapshotclasses) None
                           {| ListOptions.LabelSelector := "" |});
  (if HaveOccurred err
   then pure (Skip 831 "VolumeSnapshotClass CRD not installed")
   else Ret tt) ;;
  '(vsc, err) ← call 835 (K8sGet (Dynamic volumesnapshotclasses) None "test-vsc");
  pure (Expect 841 (negb (HaveOccurred err)) "") ;;
  pure (Expect 842 (Unstructured.GetName vsc =? "test-vsc") "") ;;
  let '(deletionPolicy, found, err) :=
    Unstructured.NestedString (Unstructured.Object vsc) "deletionPolicy" in
  pure (Expect 846 (negb (HaveOccurred err)) "") ;;
  pure (Expect 847 found "") ;;
  pure (Expect 848 (deletionPolicy =? "Delete") "").

(* [param:defaultStorageClass] *)
Definition It_defaultStorageClass : Test unit :=
  '(sc, err) ← call 863 (K8sGet StorageClasses None "ebs-csi-default-sc");
  pure (Expect 864 (negb (HaveOccurred err)) "") ;;
  pure (Expect 865
          (map_index (ObjectMeta.Annotations (StorageClass.Meta sc))
             "storageclass.kubernetes.io/is-default-class" =? "true") "").

(* [param:reservedVolumeAttachments] *)
Definition It_reservedVolumeAttachments : Test unit :=
  pods_spec 880 "app=ebs-csi-node" "" (fun pods =>
    expect_container_args pods "ebs-plugin"
      (fun arg => arg =? "--reserved-volume-attachments=2")
      896 "Node should have --reserved-volume-attachments=2 arg").

(* [param:volumeAttachLimit] *)
Definition It_volumeAttachLimit : Test unit :=
  pods_spec 914 "app=ebs-csi-node" "" (fun pods =>
    expect_container_args pods "ebs-plugin" (fun arg => arg =? "--volume-attach-limit=25")
      930 "Node should have --volume-attach-limit=25 arg").

(* [param:hostNetwork] *)
Definition It_hostNetwork : Test unit :=
  pods_spec 948 "app=ebs-csi-node" "" (fun pods =>
    range pods (fun pod =>
      Expect 955 (PodSpec.HostNetwork (Pod.Spec pod)) "Node pod should use host network")).

(* [param:debugLogs], "should have maximum verbosity in all containers" *)
Definition It_debugLogs : Test unit :=
  '(pods, err) ← call 971 (K8sList Pods (Some "kube-system")
                             {| ListOptions.LabelSelector := "app=ebs-csi-controller" |});
  pure (Expect 974 (negb (HaveOccurred err)) "") ;;
  pure (Expect 975 (negb (BeEmpty pods)) "") ;;
  pure (range pods (fun pod =>
    range (PodSpec.Containers (Pod.Spec pod)) (fun container =>
      if Container.Name container =? "ebs-plugin" then
        let hasDebugLevel :=
          existsb (fun arg => (arg =? "-v=7") || (arg =? "--v=7"))
            (Container.Args container) in
        Expect 987 hasDebugLevel
          "Controller ebs-plugin should have -v=7 arg when debugLogs=true"
      else Ok tt))).

(* [param:sdkDebugLog] *)
Definition It_sdkDebugLog : Test unit :=
  pods_spec 1005 "app=ebs-csi-controller" "" (fun pods =>
    expect_container_args pods "ebs-plugin" (fun arg => arg =? "--aws-sdk-debug-log=true")
      1021 "Controller should have --aws-sdk-debug-log=true arg").

(* [param:useOldCSIDriver] *)
Definition It_useOldCSIDriver : Test unit :=
  '(csiDriver, err) ← call 1039 (K8sGet CSIDrivers None "ebs.csi.aws.com");
  pure (Expect 1040 (negb (HaveOccurred err)) "") ;;
  pure (Expect 1041 (is_nil (CSIDriver.FSGroupPolicy csiDriver))
          "Old CSIDriver should not have fsGroupPolicy set").

(* [param:legacyXFS] *)
Definition It_legacyXFS : Test unit :=
  pods_spec 1056 "app=ebs-csi-node" "" (fun pods =>
    expect_container_args pods "ebs-plugin" (fun arg => arg =? "--legacy-xfs=true")
      1072 "Node should have --legacy-xfs=true arg").

(* [param:selinux]: the flag computed from the arguments is discarded. *)
Definition It_selinux : Test unit :=
  pods_spec 1090 "app=ebs-csi-node" "" (fun pods =>
    range pods (fun pod =>
      range (PodSpec.Containers (Pod.Spec pod)) (fun container =>
        if Container.Name container =? "ebs-plugin" then
          let hasSelinux :=
            existsb (fun arg => arg =? "--warn-on-invalid-tag=false")
              (Container.Args container) in
          let _ := hasSelinux in Ok tt
        else Ok tt) ;;
      match PodSpec.SecurityContext (Pod.Spec pod) with
      | Some sc =>
          if negb (is_nil (PodSecurityContext.SELinuxOptions sc))
          then Expect 1113 (negb (is_nil (PodSecurityContext.SELinuxOptions sc))) ""
          else Ok tt
      | None => Ok tt
      end)).

(* [param:fips] *)
Definition It_fips : Test unit :=
  pods_spec 1130 "app=ebs-csi-controller" "" (fun pods =>
    range pods (fun pod =>
      range (PodSpec.Containers (Pod.Spec pod)) (fun container =>
        if Container.Name container =? "ebs-plugin" then
          Expect 1140 (ContainSubstring "-fips" (Container.Image container)
                       || ContainSubstring "fips" (Container.Image container))
            "Controller should use FIPS image"
        else Ok tt))).

(* [param:snapshotterForceEnable] *)
Definition It_snapshotterForceEnable : Test unit :=
  pods_spec 1161 "app=ebs-csi-controller" "" (fun pods =>
    range pods (fun pod =>
      let hasSnapshotter :=
        existsb (fun container => Container.Name container =? "csi-snapshotter")
          (PodSpec.Containers (Pod.Spec pod)) in
      Expect 1175 hasSnapshotter
        "Controller should have csi-snapshotter sidecar when forceEnable=true")).

(* [param:controllerUserAgentExtra] *)
Definition It_controllerUserAgentExtra : Test unit :=
  pods_spec 1191 "app=ebs-csi-controller" "" (fun pods =>
    expect_container_args pods "ebs-plugin" (fun arg => arg =? "--user-agent-extra=e2e-test")
      1207 "Controller should have --user-agent-extra arg").

(** The body shared by the two Prometheus-annotation specs: a failed [Get]
    skips the spec. *)
Definition prometheus_annotations_spec (line : nat) (name : string) : Test unit :=
  '(svc, err) ← call line (K8sGet Services (Some "kube-system") name);
  (if HaveOccurred err
   then pure (Skip (line + 2) "Metrics service not found - metrics may not be enabled")
   else Ret tt) ;;
  let annotations := ObjectMeta.Annotations (Service.Meta svc) in
  pure (Expect (line + 4) (map_index annotations "prometheus.io/scrape" =? "true") "") ;;
  pure (Expect (line + 5) (negb (map_index annotations "prometheus.io/port" =? "")) "").

(* [param:controllerEnablePrometheusAnnotations] *)
Definition It_controllerEnablePrometheusAnnotations : Test unit :=
  prometheus_annotations_spec 1225 "ebs-csi-controller-metrics".

(* [param:nodeEnablePrometheusAnnotations] *)
Definition It_nodeEnablePrometheusAnnotations : Test unit :=
  prometheus_annotations_spec 1245 "ebs-csi-node-metrics".

(* [param:controllerPodDisruptionBudget] *)
Definition It_controllerPodDisruptionBudget : Test unit :=
  '(pdb, err) ← call 1265 (K8sGet PodDisruptionBudgets (Some "kube-system")
                             "ebs-csi-controller");
  pure (Expect 1266 (negb (HaveOccurred err)) "") ;;
  pure (Expect 1267
          (ObjectMeta.Name (PodDisruptionBudget.Meta pdb) =? "ebs-csi-controller") "").

(* [param:nodeKubeletPath] *)
Definition It_nodeKubeletPath : Test unit :=
  pods_spec 1282 "app=ebs-csi-node" "" (fun pods =>
    range pods (fun pod =>
      range (PodSpec.Containers (Pod.Spec pod)) (fun container =>
        if Container.Name container =? "ebs-plugin" then
          let hasKubeletMount :=
            existsb (fun mount => VolumeMount.MountPath mount =? "/var/lib/kubelet")
              (Container.VolumeMounts container) in
          Expect 1298 hasKubeletMount
            "Node should have kubelet path mounted at /var/lib/kubelet"
        else Ok tt))).

(* [param:nodeTolerateAllTaints] *)
Definition It_nodeTolerateAllTaints : Test unit :=
  pods_spec 1316 "app=ebs-csi-node" "" (fun pods =>
    range pods (fun pod =>
      let hasTolerateAll :=
        existsb (fun toleration =>
                   (Toleration.Operator toleration =? "Exists")
                   && (Toleration.Key toleration =? ""))
          (PodSpec.Tolerations (Pod.Spec pod)) in
      Expect 1330 hasTolerateAll "Node pod should tolerate all taints")).

(* [param:provisionerLeaderElection] *)
Definition It_provisionerLeaderElection : Test unit :=
  pods_spec 1346 "app=ebs-csi-controller" "" (fun pods =>
    expect_container_args pods "csi-provisioner" (fun arg => arg =? "--leader-election=true")
      1362 "Provisioner should have --leader-election=true arg").

(* [param:attacherLeaderElection] *)
Definition It_attacherLeaderElection : Test unit :=
  pods_spec 1380 "app=ebs-csi-controller" "" (fun pods =>
    expect_container_args pods "csi-attacher" (fun arg => arg =? "--leader-election=true")
      1396 "Attacher should have --leader-election=true arg").

(* [param:resizerLeaderElection] *)
Definition It_resizerLeaderElection : Test unit :=
  pods_spec 1414 "app=ebs-csi-controller" "" (fun pods =>
    expect_container_args pods "csi-resizer" (fun arg => arg =? "--leader-election=true")
      1430 "Resizer should have --leader-election=true arg").

(* [param:nodeDisableMutation] *)
Definition It_nodeDisableMutation : Test unit :=
  '(cr, err) ← call 1449 (K8sGet ClusterRoles None "ebs-csi-node-role");
  pure (Expect 1450 (negb (HaveOccurred err)) "") ;;
  pure (range (ClusterRole.Rules cr) (fun rule =>
    range (PolicyRule.Resources rule) (fun resource =>
      if resource =? "nodes" then
        range (PolicyRule.Verbs rule) (fun verb =>
          Expect 1457 (negb (verb =? "patch"))
            "Node role should not have patch permission when disableMutation=true" ;;
          Expect 1458 (negb (verb =? "update"))
            "Node role should not have update permission when disableMutation=true")
      else Ok tt))).

(* [param:nodeTerminationGracePeriod] *)
Definition It_nodeTerminationGracePeriod : Test unit :=
  pods_spec 1477 "app=ebs-csi-node" "" (fun pods =>
    range pods (fun pod =>
      let p := PodSpec.TerminationGracePeriodSeconds (Pod.Spec pod) in
      Expect 1484 (negb (is_nil p)) "" ;;
      seconds ← deref 1485 p;
      Expect 1485 (seconds =? 60)%Z "Node pod should have 60s termination grace period")).

(* [param:volumemodifierLeaderElection] *)
Definition It_volumemodifierLeaderElection : Test unit :=
  pods_spec 1501 "app=ebs-csi-controller" "" (fun pods =>
    expect_container_args pods "volumemodifier" (fun arg => arg =? "--leader-election=false")
      1517 "Volumemodifier should have --leader-election=false arg").

(** *** Infrastructure parameter tests: one [Get] of the controller
    Deployment or of the node DaemonSet, then assertions on it. *)

Definition get_deploy (line : nat) : Test (Deployment.t * error) :=
  call line (K8sGet Deployments (Some "kube-system") "ebs-csi-controller").

Definition get_ds (line : nat) : Test (DaemonSet.t * error) :=
  call line (K8sGet DaemonSets (Some "kube-system") "ebs-csi-node").

Definition deploy_template (deploy : Deployment.t) : PodTemplateSpec.t :=
  DeploymentSpec.Template (Deployment.Spec deploy).

Definition deploy_pod (deploy : Deployment.t) : PodSpec.t :=
  PodTemplateSpec.Spec (deploy_template deploy).

Definition ds_template (ds : DaemonSet.t) : PodTemplateSpec.t :=
  DaemonSetSpec.Template (DaemonSet.Spec ds).

Definition ds_pod (ds : DaemonSet.t) : PodSpec.t :=
  PodTemplateSpec.Spec (ds_template ds).

(** [for _, c := range containers { if c.Name == name { body; return } }]
    followed by [Fail(msg)]. *)
Definition first_container (containers : list Container.t) (name : string)
    (body : Container.t -> Check unit) (fail_line : nat) (msg : string) : Check unit :=
  fl ← range_return containers (fun c =>
         if Container.Name c =? name then body c ;; Ok Return else Ok Next);
  match fl with
  | Return => Ok tt
  | Next => Fail fail_line msg
  end.

(** A spec made of one [Get] at [line], the error assertion on the next
    line, and assertions on the object. *)
Definition deploy_spec (line : nat) (checks : Deployment.t -> Check unit) : Test unit :=
  '(deploy, err) ← get_deploy line;
  pure (Expect (line + 1) (negb (HaveOccurred err)) "") ;;
  pure (checks deploy).

Definition ds_spec (line : nat) (checks : DaemonSet.t -> Check unit) : Test unit :=
  '(ds, err) ← get_ds line;
  pure (Expect (line + 1) (negb (HaveOccurred err)) "") ;;
  pure (checks ds).

Definition requests_cpu (c : Container.t) : string :=
  ResourceList.Cpu (ResourceRequirements.Requests (Container.Resources c)).

Definition limits_memory (c : Container.t) : string :=
  ResourceList.Memory (ResourceRequirements.Limits (Container.Resources c)).

(* [param:controllerReplicaCount] *)
Definition It_controllerReplicaCount : Test unit :=
  deploy_spec 1531 (fun deploy =>
    replicas ← deref 1533 (DeploymentSpec.Replicas (Deployment.Spec deploy));
    Expect 1533 (replicas =? 3)%Z "").

(* [param:controllerNodeSelector] *)
Definition It_controllerNodeSelector : Test unit :=
  deploy_spec 1542 (fun deploy =>
    Expect 1544 (HaveKeyWithValue (PodSpec.NodeSelector (deploy_pod deploy))
                   "node-role" "controller") "").

(* [param:controllerTolerations] *)
Definition It_controllerTolerations : Test unit :=
  deploy_spec 1553 (fun deploy =>
    let found :=
      existsb (fun t => (Toleration.Key t =? "test-key")
                        && (Toleration.Value t =? "test-value")
                        && (Toleration.Effect t =? "NoSchedule"))
        (PodSpec.Tolerations (deploy_pod deploy)) in
    Expect 1562 found "Controller should have test toleration").

(* [param:controllerPriorityClassName] *)
Definition It_controllerPriorityClassName : Test unit :=
  deploy_spec 1571 (fun deploy =>
    Expect 1573 (PodSpec.PriorityClassName (deploy_pod deploy) =? "system-cluster-critical") "").

(* [param:controllerResources] *)
Definition It_controllerResources : Test unit :=
  deploy_spec 1582 (fun deploy =>
    first_container (PodSpec.Containers (deploy_pod deploy)) "ebs-plugin" (fun c =>
      Expect 1586 (requests_cpu c =? "100m") "" ;;
      Expect 1587 (limits_memory c =? "256Mi") "")
      1591 "ebs-plugin container not found").

(* [param:controllerPodAnnotations] *)
Definition It_controllerPodAnnotations : Test unit :=
  deploy_spec 1600 (fun deploy =>
    Expect 1602 (HaveKeyWithValue
                   (ObjectMeta.Annotations (PodTemplateSpec.Meta (deploy_template deploy)))
                   "test-annotation" "test-value") "").

(* [param:controllerPodLabels] *)
Definition It_controllerPodLabels : Test unit :=
  deploy_spec 1611 (fun deploy =>
    Expect 1613 (HaveKeyWithValue
                   (ObjectMeta.Labels (PodTemplateSpec.Meta (deploy_template deploy)))
                   "test-label" "test-value") "").

(* [param:controllerDeploymentAnnotations] *)
Definition It_controllerDeploymentAnnotations : Test unit :=
  deploy_spec 1622 (fun deploy =>
    Expect 1624 (HaveKeyWithValue (ObjectMeta.Annotations (Deployment.Meta deploy))
                   "deploy-annotation" "deploy-value") "").

(* [param:controllerServiceAccountName] *)
Definition It_controllerServiceAccountName : Test unit :=
  deploy_spec 1633 (fun deploy =>
    Expect 1635 (PodSpec.ServiceAccountName (deploy_pod deploy) =? "custom-controller-sa") "").

(* [param:controllerServiceAccountAnnotations] *)
Definition It_controllerServiceAccountAnnotations : Test unit :=
  '(sa, err) ← call 1644 (K8sGet ServiceAccounts (Some "kube-system")
                             "ebs-csi-controller-sa");
  pure (Expect 1645 (negb (HaveOccurred err)) "") ;;
  pure (Expect 1646 (HaveKeyWithValue (ObjectMeta.Annotations (ServiceAccount.Meta sa))
                       "eks.amazonaws.com/role-arn"
                       "arn:aws:iam::123456789:role/test-role") "").

(* [param:controllerRevisionHistoryLimit] *)
Definition It_controllerRevisionHistoryLimit : Test unit :=
  deploy_spec 1655 (fun deploy =>
    let p := DeploymentSpec.RevisionHistoryLimit (Deployment.Spec deploy) in
    Expect 1657 (negb (is_nil p)) "" ;;
    limit ← deref 1658 p;
    Expect 1658 (limit =? 5)%Z "").

(* [param:nodeNodeSelector] *)
Definition It_nodeNodeSelector : Test unit :=
  ds_spec 1667 (fun ds =>
    Expect 1669 (HaveKeyWithValue (PodSpec.NodeSelector (ds_pod ds)) "node-type" "worker") "").

(* [param:nodeTolerations] *)
Definition It_nodeTolerations : Test unit :=
  ds_spec 1678 (fun ds =>
    let found :=
      existsb (fun t => (Toleration.Key t =? "node-key") && (Toleration.Value t =? "node-value"))
        (PodSpec.Tolerations (ds_pod ds)) in
    Expect 1687 found "Node should have test toleration").

(* [param:nodePriorityClassName] *)
Definition It_nodePriorityClassName : Test unit :=
  ds_spec 1696 (fun ds =>
    Expect 1698 (PodSpec.PriorityClassName (ds_pod ds) =? "system-node-critical") "").

(* [param:nodeResources] *)
Definition It_nodeResources : Test unit :=
  ds_spec 1707 (fun ds =>
    first_container (PodSpec.Containers (ds_pod ds)) "ebs-plugin" (fun c =>
      Expect 1711 (requests_cpu c =? "50m") "" ;;
      Expect 1712 (limits_memory c =? "128Mi") "")
      1716 "ebs-plugin container not found").

(* [param:nodePodAnnotations] *)
Definition It_nodePodAnnotations : Test unit :=
  ds_spec 1725 (fun ds =>
    Expect 1727 (HaveKeyWithValue
                   (ObjectMeta.Annotations (PodTemplateSpec.Meta (ds_template ds)))
                   "node-annotation" "node-value") "").

(* [param:nodeDaemonSetAnnotations] *)
Definition It_nodeDaemonSetAnnotations : Test unit :=
  ds_spec 1736 (fun ds =>
    Expect 1738 (HaveKeyWithValue (ObjectMeta.Annotations (DaemonSet.Meta ds))
                   "ds-annotation" "ds-value") "").

(* [param:nodeRevisionHistoryLimit] *)
Definition It_nodeRevisionHistoryLimit : Test unit :=
  ds_spec 1747 (fun ds =>
    let p := DaemonSetSpec.RevisionHistoryLimit (DaemonSet.Spec ds) in
    Expect 1749 (negb (is_nil p)) "" ;;
    limit ← deref 1750 p;
    Expect 1750 (limit =? 3)%Z "").

(* [param:nodeServiceAccountName] *)
Definition It_nodeServiceAccountName : Test unit :=
  ds_spec 1759 (fun ds =>
    Expect 1761 (PodSpec.ServiceAccountName (ds_pod ds) =? "custom-node-sa") "").

(** The sidecar resource specs: the named container must request [cpu]. *)
Definition cpu_request_check (containers : list Container.t) (name cpu : string)
    (line fail_line : nat) : Check unit :=
  first_container containers name (fun c => Expect line (requests_cpu c =? cpu) "")
    fail_line (name ++ " container not found").

(* [param:provisionerResources] *)
Definition It_provisionerResources : Test unit :=
  deploy_spec 1770 (fun deploy =>
    cpu_request_check (PodSpec.Containers (deploy_pod deploy)) "csi-provisioner" "20m" 1774 1778).

(* [param:attacherResources] *)
Definition It_attacherResources : Test unit :=
  deploy_spec 1787 (fun deploy =>
    cpu_request_check (PodSpec.Containers (deploy_pod deploy)) "csi-attacher" "15m" 1791 1795).

(* [param:snapshotterResources] *)
Definition It_snapshotterResources : Test unit :=
  deploy_spec 1804 (fun deploy =>
    cpu_request_check (PodSpec.Containers (deploy_pod deploy)) "csi-snapshotter" "15m" 1808 1812).

(* [param:resizerResources] *)
Definition It_resizerResources : Test unit :=
  deploy_spec 1821 (fun deploy =>
    cpu_request_check (PodSpec.Containers (deploy_pod deploy)) "csi-resizer" "15m" 1825 1829).

(* [param:nodeDriverRegistrarResources] *)
Definition It_nodeDriverRegistrarResources : Test unit :=
  ds_spec 1838 (fun ds =>
    cpu_request_check (PodSpec.Containers (ds_pod ds)) "node-driver-registrar" "10m" 1842 1846).

(* [param:livenessProbeResources] *)
Definition It_livenessProbeResources : Test unit :=
  ds_spec 1855 (fun ds =>
    cpu_request_check (PodSpec.Containers (ds_pod ds)) "liveness-probe" "5m" 1859 1863).

(* [param:imageRepository] *)
Definition It_imageRepository : Test unit :=
  deploy_spec 1872 (fun deploy =>
    first_container (PodSpec.Containers (deploy_pod deploy)) "ebs-plugin" (fun c =>
      Expect 1876 (ContainSubstring "public.ecr.aws/ebs-csi-driver/aws-ebs-csi-driver"
                     (Container.Image c)) "")
      1880 "ebs-plugin container not found").

(* [param:imagePullPolicy] *)
Definition It_imagePullPolicy : Test unit :=
  deploy_spec 1889 (fun deploy =>
    first_container (PodSpec.Containers (deploy_pod deploy)) "ebs-plugin" (fun c =>
      Expect 1893 (Container.ImagePullPolicy c =? "Always") "")
      1897 "ebs-plugin container not found").

(* [param:customLabels] *)
Definition It_customLabels : Test unit :=
  '(deploy, err) ← get_deploy 1906;
  pure (Expect 1907 (negb (HaveOccurred err)) "") ;;
  pure (Expect 1908 (HaveKeyWithValue (ObjectMeta.Labels (Deployment.Meta deploy))
                       "custom-label" "custom-value") "") ;;
  '(ds, err) ← get_ds 1910;
  pure (Expect 1911 (negb (HaveOccurred err)) "") ;;
  pure (Expect 1912 (HaveKeyWithValue (ObjectMeta.Labels (DaemonSet.Meta ds))
                       "custom-label" "custom-value") "").

Definition has_env (c : Container.t) (name value : string) : bool :=
  existsb (fun env => (EnvVar.Name env =? name) && (EnvVar.Value env =? value))
    (Container.Env c).

(* [param:controllerEnv] *)
Definition It_controllerEnv : Test unit :=
  deploy_spec 1921 (fun deploy =>
    first_container (PodSpec.Containers (deploy_pod deploy)) "ebs-plugin" (fun c =>
      let found := has_env c "TEST_ENV" "test-value" in
      Expect 1932 found "Controller should have TEST_ENV environment variable")
      1936 "ebs-plugin container not found").

(* [param:nodeEnv] *)
Definition It_nodeEnv : Test unit :=
  ds_spec 1945 (fun ds =>
    first_container (PodSpec.Containers (ds_pod ds)) "ebs-plugin" (fun c =>
      let found := has_env c "NODE_ENV" "node-value" in
      Expect 1956 found "Node should have NODE_ENV environment variable")
      1960 "ebs-plugin container not found").

(** [Expect(p).NotTo(BeNil())] on the affinity, then on its [NodeAffinity]. *)
Definition affinity_check (p : option Affinity.t) (line : nat) : Check unit :=
  Expect line (negb (is_nil p)) "" ;;
  affinity ← deref (line + 1) p;
  Expect (line + 1) (negb (is_nil (Affinity.NodeAffinity affinity))) "".

(* [param:controllerAffinity] *)
Definition It_controllerAffinity : Test unit :=
  deploy_spec 1969 (fun deploy => affinity_check (PodSpec.Affinity (deploy_pod deploy)) 1971).

(* [param:nodeAffinity] *)
Definition It_nodeAffinity : Test unit :=
  ds_spec 1981 (fun ds => affinity_check (PodSpec.Affinity (ds_pod ds)) 1983).

(* [param:controllerTopologySpreadConstraints] *)
Definition It_controllerTopologySpreadConstraints : Test unit :=
  deploy_spec 1993 (fun deploy =>
    let constraints := PodSpec.TopologySpreadConstraints (deploy_pod deploy) in
    Expect 1995 (negb (BeEmpty constraints)) "" ;;
    match constraints with
    | c0 :: _ =>
        Expect 1996 (TopologySpreadConstraint.TopologyKey c0 =? "topology.kubernetes.io/zone") ""
    | [] => Stop (Panicked 1996)
    end).

(* [param:controllerSecurityContext] *)
Definition It_controllerSecurityContext : Test unit :=
  deploy_spec 2005 (fun deploy =>
    let p := PodSpec.SecurityContext (deploy_pod deploy) in
    Expect 2007 (negb (is_nil p)) "" ;;
    sc ← deref 2008 p;
    runAsNonRoot ← deref 2008 (PodSecurityContext.RunAsNonRoot sc);
    Expect 2008 runAsNonRoot "").

(* [param:nodeSecurityContext] *)
Definition It_nodeSecurityContext : Test unit :=
  ds_spec 2017 (fun ds =>
    Expect 2019 (negb (is_nil (PodSpec.SecurityContext (ds_pod ds)))) "").

(* [param:controllerContainerSecurityContext] *)
Definition It_controllerContainerSecurityContext : Test unit :=
  deploy_spec 2028 (fun deploy =>
    first_container (PodSpec.Containers (deploy_pod deploy)) "ebs-plugin" (fun c =>
      Expect 2032 (negb (is_nil (Container.SecurityContext c))) "" ;;
      sc ← deref 2033 (Container.SecurityContext c);
      readOnly ← deref 2033 (SecurityContext.ReadOnlyRootFilesystem sc);
      Expect 2033 readOnly "")
      2037 "ebs-plugin container not found").

(* [param:controllerUpdateStrategy] *)
Definition It_controllerUpdateStrategy : Test unit :=
  deploy_spec 2046 (fun deploy =>
    Expect 2048 (DeploymentSpec.StrategyType (Deployment.Spec deploy) =? "Recreate") "").

(* [param:nodeUpdateStrategy] *)
Definition It_nodeUpdateStrategy : Test unit :=
  ds_spec 2057 (fun ds =>
    Expect 2059 (DaemonSetSpec.UpdateStrategyType (DaemonSet.Spec ds) =? "OnDelete") "").

Definition has_volume (spec : PodSpec.t) (name : string) : bool :=
  existsb (fun v => Volume.Name v =? name) (PodSpec.Volumes spec).

Definition has_mount (c : Container.t) (name path : string) : bool :=
  existsb (fun vm => (VolumeMount.Name vm =? name) && (VolumeMount.MountPath vm =? path))
    (Container.VolumeMounts c).

(* [param:controllerVolumes] *)
Definition It_controllerVolumes : Test unit :=
  deploy_spec 2068 (fun deploy =>
    let found := has_volume (deploy_pod deploy) "extra-volume" in
    Expect 2077 found "Controller should have extra-volume").

(* [param:controllerVolumeMounts] *)
Definition It_controllerVolumeMounts : Test unit :=
  deploy_spec 2086 (fun deploy =>
    first_container (PodSpec.Containers (deploy_pod deploy)) "ebs-plugin" (fun c =>
      let found := has_mount c "extra-volume" "/extra" in
      Expect 2097 found "Controller should have extra-volume mount")
      2101 "ebs-plugin container not found").

(* [param:nodeVolumes] *)
Definition It_nodeVolumes : Test unit :=
  ds_spec 2110 (fun ds =>
    let found := has_volume (ds_pod ds) "node-extra-volume" in
    Expect 2119 found "Node should have node-extra-volume").

(* [param:nodeVolumeMounts] *)
Definition It_nodeVolumeMounts : Test unit :=
  ds_spec 2128 (fun ds =>
    first_container (PodSpec.Containers (ds_pod ds)) "ebs-plugin" (fun c =>
      let found := has_mount c "node-extra-volume" "/node-extra" in
      Expect 2139 found "Node should have node-extra-volume mount")
      2143 "ebs-plugin container not found").

Definition has_arg (c : Container.t) (arg : string) : bool :=
  existsb (fun a => a =? arg) (Container.Args c).

(* [param:controllerAdditionalArgs] *)
Definition It_controllerAdditionalArgs : Test unit :=
  deploy_spec 2152 (fun deploy =>
    first_container (PodSpec.Containers (deploy_pod deploy)) "ebs-plugin" (fun c =>
      let found := has_arg c "--extra-arg=extra-value" in
      Expect 2163 found "Controller should have --extra-arg=extra-value")
      2167 "ebs-plugin container not found").

(* [param:nodeAdditionalArgs] *)
Definition It_nodeAdditionalArgs : Test unit :=
  ds_spec 2176 (fun ds =>
    first_container (PodSpec.Containers (ds_pod ds)) "ebs-plugin" (fun c =>
      let found := has_arg c "--node-extra-arg=node-value" in
      Expect 2187 found "Node should have --node-extra-arg=node-value")
      2191 "ebs-plugin container not found").

(* [param:provisionerAdditionalArgs] *)
Definition It_provisionerAdditionalArgs : Test unit :=
  deploy_spec 2200 (fun deploy =>
    first_container (PodSpec.Containers (deploy_pod deploy)) "csi-provisioner" (fun c =>
      let found := has_arg c "--provisioner-extra=prov-value" in
      Expect 2211 found "Provisioner should have --provisioner-extra=prov-value")
      2215 "csi-provisioner container not found").

Definition dns_check (p : option PodDNSConfig.t) (server : string) (line : nat)
    : Check unit :=
  Expect line (negb (is_nil p)) "" ;;
  dns ← deref (line + 1) p;
  Expect (line + 1) (ContainElement (PodDNSConfig.Nameservers dns) server) "".

(* [param:controllerDnsConfig] *)
Definition It_controllerDnsConfig : Test unit :=
  deploy_spec 2224 (fun deploy =>
    dns_check (PodSpec.DNSConfig (deploy_pod deploy)) "8.8.8.8" 2226).

(* [param:nodeDnsConfig] *)
Definition It_nodeDnsConfig : Test unit :=
  ds_spec 2236 (fun ds => dns_check (PodSpec.DNSConfig (ds_pod ds)) "8.8.4.4" 2238).

Definition has_init_container (spec : PodSpec.t) (name : string) : bool :=
  existsb (fun c => Container.Name c =? name) (PodSpec.InitContainers spec).

(* [param:controllerInitContainers] *)
Definition It_controllerInitContainers : Test unit :=
  deploy_spec 2248 (fun deploy =>
    let found := has_init_container (deploy_pod deploy) "init-container" in
    Expect 2257 found "Controller should have init-container").

(* [param:nodeInitContainers] *)
Definition It_nodeInitContainers : Test unit :=
  ds_spec 2266 (fun ds =>
    let found := has_init_container (ds_pod ds) "node-init-container" in
    Expect 2275 found "Node should have node-init-container").

(* [param:imagePullSecrets] *)
Definition It_imagePullSecrets : Test unit :=
  deploy_spec 2284 (fun deploy =>
    let found :=
      existsb (fun s => LocalObjectReference.Name s =? "my-registry-secret")
        (PodSpec.ImagePullSecrets (deploy_pod deploy)) in
    Expect 2293 found "Controller should have my-registry-secret image pull secret").

(* [param:fullnameOverride] *)
Definition It_fullnameOverride : Test unit :=
  '(_, err) ← call 2302 (K8sGet Deployments (Some "kube-system") "custom-ebs-controller");
  pure (Expect 2303 (negb (HaveOccurred err)) "").

Definition servicemonitors : GroupVersionResource.t :=
  {| GroupVersionResource.Group := "monitoring.coreos.com";
     GroupVersionResource.Version := "v1";
     GroupVersionResource.Resource := "servicemonitors" |}.

(* [param:controllerServiceMonitor] *)
Definition It_controllerServiceMonitor : Test unit :=
  let gvr := servicemonitors in
  '(_, err) ← call 2313 (K8sGet (Dynamic gvr) (Some "kube-system") "ebs-csi-controller");
  pure (Expect 2314 (negb (HaveOccurred err)) "").

(* [param:nodeServiceMonitor] *)
Definition It_nodeServiceMonitor : Test unit :=
  let gvr := servicemonitors in
  '(_, err) ← call 2324 (K8sGet (Dynamic gvr) (Some "kube-system") "ebs-csi-node");
  pure (Expect 2325 (negb (HaveOccurred err)) "").

(** *** The suite: every [Describe]/[It] pair of the file, in source order.

    [body] is what Ginkgo runs for the spec ([BeforeEach] then [It]);
    [validate] is the closure handed to [test.Run], when there is one. *)
Record spec := {
  param : string;
  title : string;
  body : Test unit;
  validate : option (Test unit) }.

Definition describe (s : spec) : string :=
  "[ebs-csi-e2e] [single-az] [param:" ++ param s ++ "]".

(** The text Ginkgo matches [--focus] against. *)
Definition full_text (s : spec) : string := describe s ++ " " ++ title s.

Definition It (p t : string) (b : Test unit) : spec :=
  {| param := p; title := t; body := b; validate := None |}.

Definition suite : list spec := [
  {| param := "extraCreateMetadata";
     title := "should add PVC namespace tag to provisioned volume";
     body := BeforeEach_extraCreateMetadata ;; It_extraCreateMetadata;
     validate := Some ValidateFunc_extraCreateMetadata |};
  {| param := "k8sTagClusterId";
     title := "should tag volume with cluster ID";
     body := BeforeEach_k8sTagClusterId ;; It_k8sTagClusterId;
     validate := Some ValidateFunc_k8sTagClusterId |};
  {| param := "extraVolumeTags";
     title := "should add extra volume tags from Helm values";
     body := BeforeEach_extraVolumeTags ;; It_extraVolumeTags;
     validate := Some ValidateFunc_extraVolumeTags |};
  It "controllerMetrics" "should expose metrics endpoint on controller" It_controllerMetrics;
  It "nodeMetrics" "should expose metrics endpoint on node pods" It_nodeMetrics;
  It "batching" "should have batching enabled in controller args" It_batching;
  It "defaultFsType" "should use xfs as default filesystem when not specified in StorageClass" It_defaultFsType;
  It "controllerLoggingFormat" "should have json logging format in controller args" It_controllerLoggingFormat;
  It "nodeLoggingFormat" "should have json logging format in node args" It_nodeLoggingFormat;
  It "volumeModification" "should have volumemodifier sidecar running" It_volumeModification;
  It "metadataLabeler" "should label nodes with EBS volume and ENI counts" It_metadataLabeler;
  It "controllerLogLevel" "should have log level 4 in controller args" It_controllerLogLevel;
  It "nodeLogLevel" "should have log level 4 in node args" It_nodeLogLevel;
  It "provisionerLogLevel" "should have log level 4 in provisioner sidecar args" It_provisionerLogLevel;
  It "attacherLogLevel" "should have log level 4 in attacher sidecar args" It_attacherLogLevel;
  It "snapshotterLogLevel" "should have log level 4 in snapshotter sidecar args" It_snapshotterLogLevel;
  It "resizerLogLevel" "should have log level 4 in resizer sidecar args" It_resizerLogLevel;
  It "nodeDriverRegistrarLogLevel" "should have log level 4 in node-driver-registrar sidecar args" It_nodeDriverRegistrarLogLevel;
  It "volumemodifierLogLevel" "should have log level 4 in volumemodifier sidecar args" It_volumemodifierLogLevel;
  It "metadataLabelerLogLevel" "should have log level 4 in metadata-labeler sidecar args" It_metadataLabelerLogLevel;
  It "storageClasses" "should create StorageClass from Helm values" It_storageClasses;
  It "volumeSnapshotClasses" "should create VolumeSnapshotClass from Helm values" It_volumeSnapshotClasses;
  It "defaultStorageClass" "should create default StorageClass" It_defaultStorageClass;
  It "reservedVolumeAttachments" "should have reserved volume attachments in node args" It_reservedVolumeAttachments;
  It "volumeAttachLimit" "should have volume attach limit in node args" It_volumeAttachLimit;
  It "hostNetwork" "should run node pods on host network" It_hostNetwork;
  It "debugLogs" "should have maximum verbosity in all containers" It_debugLogs;
  It "sdkDebugLog" "should have AWS SDK debug logging enabled" It_sdkDebugLog;
  It "useOldCSIDriver" "should use CSIDriver without fsGroupPolicy" It_useOldCSIDriver;
  It "legacyXFS" "should have legacy XFS flag in node args" It_legacyXFS;
  It "selinux" "should have SELinux mount option enabled" It_selinux;
  It "fips" "should use FIPS-compliant image" It_fips;
  It "snapshotterForceEnable" "should have snapshotter sidecar running" It_snapshotterForceEnable;
  It "controllerUserAgentExtra" "should have user agent extra in controller args" It_controllerUserAgentExtra;
  It "controllerEnablePrometheusAnnotations" "should have prometheus annotations on controller metrics service" It_controllerEnablePrometheusAnnotations;
  It "nodeEnablePrometheusAnnotations" "should have prometheus annotations on node metrics service" It_nodeEnablePrometheusAnnotations;
  It "controllerPodDisruptionBudget" "should have PodDisruptionBudget for controller" It_controllerPodDisruptionBudget;
  It "nodeKubeletPath" "should have custom kubelet path mounted" It_nodeKubeletPath;
  It "nodeTolerateAllTaints" "should have toleration for all taints" It_nodeTolerateAllTaints;
  It "provisionerLeaderElection" "should have leader election enabled in provisioner args" It_provisionerLeaderElection;
  It "attacherLeaderElection" "should have leader election enabled in attacher args" It_attacherLeaderElection;
  It "resizerLeaderElection" "should have leader election enabled in resizer args" It_resizerLeaderElection;
  It "nodeDisableMutation" "should have node service account without mutating permissions" It_nodeDisableMutation;
  It "nodeTerminationGracePeriod" "should have custom termination grace period" It_nodeTerminationGracePeriod;
  It "volumemodifierLeaderElection" "should have leader election disabled in volumemodifier args" It_volumemodifierLeaderElection;
  It "controllerReplicaCount" "should have configured replica count" It_controllerReplicaCount;
  It "controllerNodeSelector" "should have configured node selector" It_controllerNodeSelector;
  It "controllerTolerations" "should have configured tolerations" It_controllerTolerations;
  It "controllerPriorityClassName" "should have configured priority class" It_controllerPriorityClassName;
  It "controllerResources" "should have configured resources" It_controllerResources;
  It "controllerPodAnnotations" "should have configured pod annotations" It_controllerPodAnnotations;
  It "controllerPodLabels" "should have configured pod labels" It_controllerPodLabels;
  It "controllerDeploymentAnnotations" "should have configured deployment annotations" It_controllerDeploymentAnnotations;
  It "controllerServiceAccountName" "should use configured service account name" It_controllerServiceAccountName;
  It "controllerServiceAccountAnnotations" "should have configured service account annotations" It_controllerServiceAccountAnnotations;
  It "controllerRevisionHistoryLimit" "should have configured revision history limit" It_controllerRevisionHistoryLimit;
  It "nodeNodeSelector" "should have configured node selector" It_nodeNodeSelector;
  It "nodeTolerations" "should have configured tolerations" It_nodeTolerations;
  It "nodePriorityClassName" "should have configured priority class" It_nodePriorityClassName;
  It "nodeResources" "should have configured resources" It_nodeResources;
  It "nodePodAnnotations" "should have configured pod annotations" It_nodePodAnnotations;
  It "nodeDaemonSetAnnotations" "should have configured daemonset annotations" It_nodeDaemonSetAnnotations;
  It "nodeRevisionHistoryLimit" "should have configured revision history limit" It_nodeRevisionHistoryLimit;
  It "nodeServiceAccountName" "should use configured service account name" It_nodeServiceAccountName;
  It "provisionerResources" "should have configured resources" It_provisionerResources;
  It "attacherResources" "should have configured resources" It_attacherResources;
  It "snapshotterResources" "should have configured resources" It_snapshotterResources;
  It "resizerResources" "should have configured resources" It_resizerResources;
  It "nodeDriverRegistrarResources" "should have configured resources" It_nodeDriverRegistrarResources;
  It "livenessProbeResources" "should have configured resources" It_livenessProbeResources;
  It "imageRepository" "should use configured image repository" It_imageRepository;
  It "imagePullPolicy" "should use configured image pull policy" It_imagePullPolicy;
  It "customLabels" "should have custom labels on all resources" It_customLabels;
  It "controllerEnv" "should have configured environment variables" It_controllerEnv;
  It "nodeEnv" "should have configured environment variables" It_nodeEnv;
  It "controllerAffinity" "should have configured affinity" It_controllerAffinity;
  It "nodeAffinity" "should have configured affinity" It_nodeAffinity;
  It "controllerTopologySpreadConstraints" "should have configured topology spread constraints" It_controllerTopologySpreadConstraints;
  It "controllerSecurityContext" "should have configured pod security context" It_controllerSecurityContext;
  It "nodeSecurityContext" "should have configured pod security context" It_nodeSecurityContext;
  It "controllerContainerSecurityContext" "should have configured container security context" It_controllerContainerSecurityContext;
  It "controllerUpdateStrategy" "should have configured update strategy" It_controllerUpdateStrategy;
  It "nodeUpdateStrategy" "should have configured update strategy" It_nodeUpdateStrategy;
  It "controllerVolumes" "should have configured extra volumes" It_controllerVolumes;
  It "controllerVolumeMounts" "should have configured extra volume mounts" It_controllerVolumeMounts;
  It "nodeVolumes" "should have configured extra volumes" It_nodeVolumes;
  It "nodeVolumeMounts" "should have configured extra volume mounts" It_nodeVolumeMounts;
  It "controllerAdditionalArgs" "should have configured additional args" It_controllerAdditionalArgs;
  It "nodeAdditionalArgs" "should have configured additional args" It_nodeAdditionalArgs;
  It "provisionerAdditionalArgs" "should have configured additional args" It_provisionerAdditionalArgs;
  It "controllerDnsConfig" "should have configured DNS config" It_controllerDnsConfig;
  It "nodeDnsConfig" "should have configured DNS config" It_nodeDnsConfig;
  It "controllerInitContainers" "should have configured init containers" It_controllerInitContainers;
  It "nodeInitContainers" "should have configured init containers" It_nodeInitContainers;
  It "imagePullSecrets" "should have configured image pull secrets" It_imagePullSecrets;
  It "fullnameOverride" "should use overridden name" It_fullnameOverride;
  It "controllerServiceMonitor" "should create service monitor" It_controllerServiceMonitor;
  It "nodeServiceMonitor" "should create service monitor" It_nodeServiceMonitor ].

End Specs.

End ParameterTests.

(** ** The release script [get-latest-sidecar-images]

    A bash program: shell functions are computations of a state monad over
    the shell state (variables, options, traps, files, stderr); what the
    external tools answer is fixed by a [world]. *)

Module ReleaseScript.

(** A file is either plain lines or a YAML document whose [.sidecars] map
    sends a sidecar key to its fields ([image], [tag], [manifestDigest]). *)
Inductive content :=
| Lines (l : list string)
| Yaml (sidecars : gmap string (gmap string string)).

Record world := {
  script_dir : option string;            (* dirname $(realpath "$0"); None: it fails *)
  env_OUTPUT_FILEPATH : option string;   (* OUTPUT_FILEPATH of the caller, if set *)
  mktemp : option string;                (* the file mktemp creates; None: it fails *)
  date : string;
  command_v : string -> bool;            (* command -v finds the tool *)
  disk : gmap string content;            (* the files before the script runs *)
  crane_ls : string -> option (list string);
  crane_digest : string -> option string }.

(** The two traps the script installs (lines 50 and 53). *)
Inductive err_action := ErrorHandlerTrap.
Inductive exit_action := RmTmpTrap.

Record command := {
  c_line : nat;
  c_name : string;
  c_args : list string;
  c_status : Z }.

Record state := {
  files : gmap string content;
  vars : gmap string string;
  stderr : list string;
  errexit : bool;
  nounset : bool;
  pipefail : bool;
  errtrace : bool;
  err_trap : option err_action;
  exit_trap : option exit_action;
  func_depth : nat;
  last_status : Z;                       (* $? *)
  bash_command : string;                 (* $BASH_COMMAND *)
  history : list command }.

Definition init (w : world) : state :=
  {| files := disk w;
     vars := match env_OUTPUT_FILEPATH w with
             | Some p => {[ "OUTPUT_FILEPATH" := p ]}
             | None => ∅
             end;
     stderr := [];
     errexit := false; nounset := false; pipefail := false; errtrace := false;
     err_trap := None; exit_trap := None;
     func_depth := 0;
     last_status := 0;
     bash_command := "";
     history := [] |}.

Inductive result (A : Type) :=
| Done (a : A)
| Exited (status : Z).
Arguments Done {A} a.
Arguments Exited {A} status.

Definition Sh (A : Type) : Type := state -> result A * state.

#[global] Instance Sh_ret : MRet Sh := fun A a s => (Done a, s).
#[global] Instance Sh_bind : MBind Sh := fun A B f m s =>
  match m s with
  | (Done a, s') => f a s'
  | (Exited n, s') => (Exited n, s')
  end.

Definition get : Sh state := fun s => (Done s, s).
Definition modify (f : state -> state) : Sh unit := fun s => (Done tt, f s).
Definition exit {A} (n : Z) : Sh A := fun s => (Exited n, s).

Definition set_files (f : gmap string content) (s : state) : state :=
  {| files := f; vars := vars s; stderr := stderr s; errexit := errexit s;
     nounset := nounset s; pipefail := pipefail s; errtrace := errtrace s;
     err_trap := err_trap s; exit_trap := exit_trap s; func_depth := func_depth s;
     last_status := last_status s; bash_command := bash_command s;
     history := history s |}.

Definition set_vars (v : gmap string string) (s : state) : state :=
  {| files := files s; vars := v; stderr := stderr s; errexit := errexit s;
     nounset := nounset s; pipefail := pipefail s; errtrace := errtrace s;
     err_trap := err_trap s; exit_trap := exit_trap s; func_depth := func_depth s;
     last_status := last_status s; bash_command := bash_command s;
     history := history s |}.

Definition set_stderr (e : list string) (s : state) : state :=
  {| files := files s; vars := vars s; stderr := e; errexit := errexit s;
     nounset := nounset s; pipefail := pipefail s; errtrace := errtrace s;
     err_trap := err_trap s; exit_trap := exit_trap s; func_depth := func_depth s;
     last_status := last_status s; bash_command := bash_command s;
     history := history s |}.

Definition set_options (e u p : bool) (s : state) : state :=
  {| files := files s; vars := vars s; stderr := stderr s; errexit := e; nounset := u;
     pipefail := p; errtrace := errtrace s; err_trap := err_trap s;
     exit_trap := exit_trap s; func_depth := func_depth s;
     last_status := last_status s; bash_command := bash_command s;
     history := history s |}.

Definition set_err_trap (t : option err_action) (s : state) : state :=
  {| files := files s; vars := vars s; stderr := stderr s; errexit := errexit s;
     nounset := nounset s; pipefail := pipefail s; errtrace := errtrace s;
     err_trap := t; exit_trap := exit_trap s; func_depth := func_depth s;
     last_status := last_status s; bash_command := bash_command s;
     history := history s |}.

Definition set_exit_trap (t : option exit_action) (s : state) : state :=
  {| files := files s; vars := vars s; stderr := stderr s; errexit := errexit s;
     nounset := nounset s; pipefail := pipefail s; errtrace := errtrace s;
     err_trap := err_trap s; exit_trap := t; func_depth := func_depth s;
     last_status := last_status s; bash_command := bash_command s;
     history := history s |}.

Definition set_func_depth (d : nat) (s : state) : state :=
  {| files := files s; vars := vars s; stderr := stderr s; errexit := errexit s;
     nounset := nounset s; pipefail := pipefail s; errtrace := errtrace s;
     err_trap := err_trap s; exit_trap := exit_trap s; func_depth := d;
     last_status := last_status s; bash_command := bash_command s;
     history := history s |}.

Definition set_last_status (n : Z) (s : state) : state :=
  {| files := files s; vars := vars s; stderr := stderr s; errexit := errexit s;
     nounset := nounset s; pipefail := pipefail s; errtrace := errtrace s;
     err_trap := err_trap s; exit_trap := exit_trap s; func_depth := func_depth s;
     last_status := n; bash_command := bash_command s; history := history s |}.

Definition set_bash_command (c : string) (s : state) : state :=
  {| files := files s; vars := vars s; stderr := stderr s; errexit := errexit s;
     nounset := nounset s; pipefail := pipefail s; errtrace := errtrace s;
     err_trap := err_trap s; exit_trap := exit_trap s; func_depth := func_depth s;
     last_status := last_status s; bash_command := c; history := history s |}.

Definition set_history (h : list command) (s : state) : state :=
  {| files := files s; vars := vars s; stderr := stderr s; errexit := errexit s;
     nounset := nounset s; pipefail := pipefail s; errtrace := errtrace s;
     err_trap := err_trap s; exit_trap := exit_trap s; func_depth := func_depth s;
     last_status := last_status s; bash_command := bash_command s; history := h |}.

(** Every external tool or builtin that runs is recorded with its status. *)
Definition ran (line : nat) (name : string) (args : list string) (status : Z) : Sh unit :=
  modify (fun s => set_history (history s ++ [ {| c_line := line; c_name := name;
                                                   c_args := args; c_status := status |} ]) s).

Definition to_stderr (msg : string) : Sh unit :=
  modify (fun s => set_stderr (stderr s ++ [msg]) s).

Definition setvar (x v : string) : Sh unit :=
  modify (fun s => set_vars (<[x := v]> (vars s)) s).

(** [$x]: under [set -u] an unset variable ends a non-interactive shell
    with status 1. *)
Definition getvar (x : string) : Sh string :=
  s ← get;
  match vars s !! x with
  | Some v => mret v
  | None => if nounset s then exit 1 else mret ""
  end.

Definition dquote : string := String (Ascii.ascii_of_nat 34) EmptyString.
Definition q (x : string) : string := dquote +:+ x +:+ dquote.

Definition string_of_nat (n : nat) : string := NilZero.string_of_uint (Nat.to_uint n).
Definition string_of_Z (z : Z) : string := NilZero.string_of_int (Z.to_int z).

(** Word splitting of an unquoted expansion ([$x], [$(cmd)]) with the
    default [IFS]: space, tab and newline separate the words.  Pathname
    expansion of the words is left out: it changes nothing for words
    without [*], [?] and [[]. *)
Definition is_IFS (c : ascii) : bool :=
  Ascii.eqb c " " || Ascii.eqb c "009" || Ascii.eqb c "010".

Fixpoint word_split (s : string) : list string :=
  match s with
  | EmptyString => []
  | String c s' =>
      if is_IFS c then word_split s'
      else
        match s' with
        | EmptyString => [String c EmptyString]
        | String c' _ =>
            if is_IFS c' then String c EmptyString :: word_split s'
            else
              match word_split s' with
              | word :: rest => String c word :: rest
              | [] => [String c EmptyString]
              end
        end
  end.

(** [for x in l; do body; done]: [$BASH_COMMAND] is the head of the loop
    at the start of every turn. *)
Fixpoint for_in {A} (head : string) (l : list A) (body : A -> Sh unit) : Sh unit :=
  match l with
  | [] => mret tt
  | x :: l' => modify (set_bash_command head) ;; body x ;; for_in head l' body
  end.

(** A call of a shell function.  Without [set -E] the [ERR] trap is not
    inherited by the function body; [func_depth] records the nesting. *)
Definition call_function {A} (f : Sh A) : Sh A :=
  modify (fun s => set_func_depth (S (func_depth s)) s) ;;
  a ← f;
  modify (fun s => set_func_depth (Nat.pred (func_depth s)) s) ;;
  mret a.

Definition err_trap_fires (s : state) : bool :=
  match err_trap s with
  | Some _ => (func_depth s =? 0)%nat || errtrace s
  | None => false
  end.

(** Exit status of a pipeline: the last command's, or under [pipefail] the
    rightmost non-zero one. *)
Definition pipeline_status (fail : bool) (statuses : list Z) : Z :=
  if fail
  then default 0%Z (head (filter (fun n => n ≠ 0%Z) (rev statuses)))
  else default 0%Z (last statuses).

(** [sed '/latest/d']: drop the lines that contain the text. *)
Definition sed_delete (pat : string) (lines : list string) : list string :=
  filter (fun l => ContainSubstring pat l = false) lines.

(** [tail -1] inside [$( )]: the last line, or nothing. *)
Definition tail_1 (lines : list string) : string := default "" (last lines).

(** [rm operands]: every operand that exists is removed; the status is 0
    when there is an operand and none was missing. *)
Fixpoint rm_files (operands : list string) (fs : gmap string content)
    : gmap string content * bool :=
  match operands with
  | [] => (fs, true)
  | f :: rest =>
      let '(fs', ok) := rm_files rest (delete f fs) in
      (fs', match fs !! f with Some _ => ok | None => false end)
  end.

Definition rm (operands : list string) (fs : gmap string content)
    : gmap string content * Z :=
  let '(fs', ok) := rm_files operands fs in
  (fs', match operands with
        | [] => 1%Z
        | _ :: _ => if ok then 0%Z else 1%Z
        end).

(** yq reads and in-place assignments on [.sidecars.<key>.<field>], for
    keys that need no quoting in a yq path. *)
Definition yq_keys (c : option content) : option (list string) :=
  match c with
  | Some (Yaml doc) => Some ((map_to_list doc).*1)
  | _ => None
  end.

Definition yq_read (c : option content) (key field : string) : option string :=
  match c with
  | Some (Yaml doc) => Some (default "null" (doc !! key ≫= fun fs => fs !! field))
  | _ => None
  end.

(** [yq '.sidecars.<key>.<field> = env(V)' -i file]: [env(V)] is an error
    when the variable is empty, and then the file is left as it is. *)
Definition yq_assign (c : option content) (key field value : string) : option content :=
  match c with
  | Some (Yaml doc) =>
      if value =? "" then None
      else Some (Yaml (<[key := <[field := value]> (default ∅ (doc !! key))]> doc))
  | _ => None
  end.

Section Script.
Context (version_le : string -> string -> bool) (w : world).

(** [sort -V]: the lines in ascending version order. *)
Fixpoint insert_V (x : string) (l : list string) : list string :=
  match l with
  | [] => [x]
  | y :: l' => if version_le x y then x :: y :: l' else y :: insert_V x l'
  end.

Definition sort_V (l : list string) : list string := foldr insert_V [] l.

(* lines 45-48; inside a trap [$BASH_COMMAND] stays what it was when the
   trap was taken *)
Definition error_handler (a1 a2 a3 : string) : Sh unit :=
  s ← get;
  let BASH_COMMAND := bash_command s in
  ran 46 "printf" [a1; a2; BASH_COMMAND; a3] 0 ;;
  to_stderr ("Error occurred in script: " +:+ a1 +:+ ", at line: " +:+ a2
             +:+ ". Command: " +:+ BASH_COMMAND +:+ ". Error: " +:+ a3) ;;
  exit 1.

(** The [ERR] trap of line 50: [error_handler ${LINENO} $? "$BASH_COMMAND"]. *)
Definition on_ERR (t : err_action) (lineno : nat) : Sh unit :=
  match t with
  | ErrorHandlerTrap =>
      s ← get;
      call_function (error_handler (string_of_nat lineno) (string_of_Z (last_status s))
                       (bash_command s))
  end.

(** The status of a command that is not the condition of an [if]: it
    becomes [$?]; a non-zero status first runs the [ERR] trap where it is
    in force and then, under [set -e], ends the shell. *)
Definition check_status (lineno : nat) (status : Z) : Sh unit :=
  modify (set_last_status status) ;;
  if (status =? 0)%Z then mret tt
  else
    s ← get;
    (match err_trap s with
     | Some t => if err_trap_fires s then on_ERR t lineno else mret tt
     | None => mret tt
     end) ;;
    s ← get;
    if errexit s then exit status else mret tt.

(** A simple command at [line]; [text] is the command as [$BASH_COMMAND]
    shows it. *)
Definition simple_command (line : nat) (text : string) (cmd : Sh Z) : Sh unit :=
  modify (set_bash_command text) ;;
  status ← cmd;
  check_status line status.

(** A command run by a trap: [$BASH_COMMAND] is left alone. *)
Definition trap_command (lineno : nat) (cmd : Sh Z) : Sh unit :=
  status ← cmd;
  check_status lineno status.

(** A builtin that cannot fail here ([export], [local]). *)
Definition builtin (line : nat) (text : string) : Sh unit :=
  simple_command line text (mret 0%Z).

(** A shell function called as a simple command: its status is that of the
    last command it ran. *)
Definition function_call (line : nat) (text : string) (f : Sh unit) : Sh unit :=
  simple_command line text (call_function f ;; s ← get; mret (last_status s)).

(** The [exit n] builtin outside a trap. *)
Definition exit_builtin (text : string) (n : Z) : Sh unit :=
  modify (set_bash_command text) ;; exit n.

(* the EXIT trap of line 53: rm $tmp_filename, the expansion unquoted; in
   the trap LINENO is 1 *)
Definition rm_tmp : Sh unit :=
  tmp ← getvar "tmp_filename";
  trap_command 1
    (s ← get;
     let operands := word_split tmp in
     let '(fs, status) := rm operands (files s) in
     modify (set_files fs) ;;
     ran 53 "rm" operands status ;;
     mret status).

Definition on_EXIT (t : exit_action) : Sh unit :=
  match t with
  | RmTmpTrap => rm_tmp
  end.

(* lines 30-32 *)
Definition log (msg : string) : Sh unit :=
  simple_command 31
    ("printf " +:+ q "%s [INFO] - %s\n" +:+ " "
     +:+ q ("$(date +" +:+ q "%Y-%m-%d %H:%M:%S" +:+ ")") +:+ " " +:+ q "${*}" +:+ " 1>&2")
    (ran 31 "date" ["+%Y-%m-%d %H:%M:%S"] 0 ;;
     ran 31 "printf" ["%s [INFO] - %s\n"; date w; msg] 0 ;;
     to_stderr (date w +:+ " [INFO] - " +:+ msg) ;;
     mret 0%Z).

(* lines 34-43 *)
Definition check_dependencies : Sh unit :=
  builtin 35 ("local readonly dependencies=(" +:+ q "yq" +:+ " " +:+ q "git" +:+ " "
              +:+ q "crane" +:+ ")") ;;
  let dependencies := ["yq"; "git"; "crane"] in
  for_in ("for cmd in " +:+ q "${dependencies[@]}") dependencies (fun cmd =>
    modify (set_bash_command ("command -v " +:+ q "${cmd}" +:+ " &> /dev/null")) ;;
    let found := command_v w cmd in
    ran 38 "command" ["-v"; cmd] (if found then 0 else 1) ;;
    if negb found then
      function_call 39 ("log " +:+ q "${cmd} could not be found, please install it.")
        (log (cmd +:+ " could not be found, please install it.")) ;;
      exit_builtin "exit 1" 1
    else modify (set_last_status 0)).

(* lines 55-57; cp refuses to copy a file onto itself *)
Definition generate_image_digests_file : Sh unit :=
  script_path ← getvar "SCRIPT_PATH";
  output ← getvar "OUTPUT_FILEPATH";
  let template := script_path +:+ "/image-digests-template.yaml" in
  simple_command 56
    ("cp " +:+ q "${SCRIPT_PATH}/image-digests-template.yaml" +:+ " " +:+ q "${OUTPUT_FILEPATH}")
    (s ← get;
     match files s !! template with
     | Some c =>
         if String.eqb template output then
           ran 56 "cp" [template; output] 1 ;;
           mret 1%Z
         else
           modify (set_files (<[output := c]> (files s))) ;;
           ran 56 "cp" [template; output] 0 ;;
           mret 0%Z
     | None =>
         ran 56 "cp" [template; output] 1 ;;
         mret 1%Z
     end).

(* lines 59-64 *)
Definition crane_get_latest_image_tag (arg1 : string) : Sh unit :=
  simple_command 60 "image=$1" (setvar "image" arg1 ;; mret 0%Z) ;;
  builtin 62 "export TAG" ;;
  image ← getvar "image";
  simple_command 63
    ("TAG=$(crane ls " +:+ q "$image" +:+ " | sed '/latest/d' | sort -V | tail -1)")
    (let listed := crane_ls w image in
     let crane_status := match listed with Some _ => 0%Z | None => 1%Z end in
     ran 63 "crane" ["ls"; image] crane_status ;;
     let out1 := default [] listed in
     ran 63 "sed" ["/latest/d"] 0 ;;
     let out2 := sed_delete "latest" out1 in
     ran 63 "sort" ["-V"] 0 ;;
     let out3 := sort_V out2 in
     ran 63 "tail" ["-1"] 0 ;;
     let out4 := tail_1 out3 in
     setvar "TAG" out4 ;;
     s ← get;
     mret (pipeline_status (pipefail s) [crane_status; 0%Z; 0%Z; 0%Z])).

(** The body of the loop of lines 69-80 for one word of the list. *)
Definition update_sidecar (sidecar : string) : Sh unit :=
  output ← getvar "OUTPUT_FILEPATH";
  function_call 70 ("log " +:+ q "Updating $sidecar in $OUTPUT_FILEPATH")
    (log ("Updating " +:+ sidecar +:+ " in " +:+ output)) ;;
  output ← getvar "OUTPUT_FILEPATH";
  simple_command 71
    ("image=$(yq " +:+ q ".sidecars.$sidecar.image" +:+ " " +:+ q "$OUTPUT_FILEPATH" +:+ ")")
    (s ← get;
     match yq_read (files s !! output) sidecar "image" with
     | Some v =>
         ran 71 "yq" [".sidecars." +:+ sidecar +:+ ".image"; output] 0 ;;
         setvar "image" v ;; mret 0%Z
     | None =>
         ran 71 "yq" [".sidecars." +:+ sidecar +:+ ".image"; output] 1 ;;
         setvar "image" "" ;; mret 1%Z
     end) ;;
  builtin 73 "export TAG" ;;
  image ← getvar "image";
  function_call 74 ("crane_get_latest_image_tag " +:+ q "$image")
    (crane_get_latest_image_tag image) ;;
  output ← getvar "OUTPUT_FILEPATH";
  TAG ← getvar "TAG";
  simple_command 75
    ("yq " +:+ q ".sidecars.$sidecar.tag = env(TAG)" +:+ " -i " +:+ q "$OUTPUT_FILEPATH")
    (s ← get;
     match yq_assign (files s !! output) sidecar "tag" TAG with
     | Some c =>
         modify (set_files (<[output := c]> (files s))) ;;
         ran 75 "yq" [".sidecars." +:+ sidecar +:+ ".tag = env(TAG)"; "-i"; output] 0 ;;
         mret 0%Z
     | None =>
         ran 75 "yq" [".sidecars." +:+ sidecar +:+ ".tag = env(TAG)"; "-i"; output] 1 ;;
         mret 1%Z
     end) ;;
  builtin 77 "export DIGEST" ;;
  image ← getvar "image";
  TAG ← getvar "TAG";
  simple_command 78 ("DIGEST=$(crane digest " +:+ q "$image:$TAG" +:+ ")")
    (match crane_digest w (image +:+ ":" +:+ TAG) with
     | Some d =>
         ran 78 "crane" ["digest"; image +:+ ":" +:+ TAG] 0 ;;
         setvar "DIGEST" d ;; mret 0%Z
     | None =>
         ran 78 "crane" ["digest"; image +:+ ":" +:+ TAG] 1 ;;
         setvar "DIGEST" "" ;; mret 1%Z
     end) ;;
  output ← getvar "OUTPUT_FILEPATH";
  DIGEST ← getvar "DIGEST";
  simple_command 79
    ("yq " +:+ q ".sidecars.$sidecar.manifestDigest = env(DIGEST)" +:+ " -i "
     +:+ q "$OUTPUT_FILEPATH")
    (s ← get;
     match yq_assign (files s !! output) sidecar "manifestDigest" DIGEST with
     | Some c =>
         modify (set_files (<[output := c]> (files s))) ;;
         ran 79 "yq" [".sidecars." +:+ sidecar +:+ ".manifestDigest = env(DIGEST)";
                      "-i"; output] 0 ;;
         mret 0%Z
     | None =>
         ran 79 "yq" [".sidecars." +:+ sidecar +:+ ".manifestDigest = env(DIGEST)";
                      "-i"; output] 1 ;;
         mret 1%Z
     end).

(* lines 66-81; the loop runs over the words of the file, $(cat ...) being
   unquoted *)
Definition update_sidecars_source_of_truth : Sh unit :=
  output ← getvar "OUTPUT_FILEPATH";
  tmp ← getvar "tmp_filename";
  simple_command 67
    ("yq '.sidecars | keys | .[]' " +:+ q "$OUTPUT_FILEPATH" +:+ " > " +:+ q "$tmp_filename")
    (modify (fun s => set_files (<[tmp := Lines []]> (files s)) s) ;;   (* the redirection *)
     s ← get;
     match yq_keys (files s !! output) with
     | Some keys =>
         modify (set_files (<[tmp := Lines keys]> (files s))) ;;
         ran 67 "yq" [".sidecars | keys | .[]"; output] 0 ;;
         mret 0%Z
     | None =>
         ran 67 "yq" [".sidecars | keys | .[]"; output] 1 ;;
         mret 1%Z
     end) ;;
  tmp ← getvar "tmp_filename";
  s ← get;
  let found := files s !! tmp in
  ran 69 "cat" [tmp] (match found with Some _ => 0 | None => 1 end) ;;
  let lines := match found with Some (Lines l) => l | _ => [] end in
  for_in ("for sidecar in $(cat " +:+ q "$tmp_filename" +:+ ")")
    (flat_map word_split lines) update_sidecar.

(* lines 83-87 *)
Definition main : Sh unit :=
  function_call 84 "check_dependencies" check_dependencies ;;
  function_call 85 "generate_image_digests_file" generate_image_digests_file ;;
  function_call 86 "update_sidecars_source_of_truth" update_sidecars_source_of_truth.

(** The script, top to bottom. *)
Definition script : Sh unit :=
  simple_command 19 "set -euo pipefail" (modify (set_options true true true) ;; mret 0%Z) ;;
  builtin 22
    "export SCRIPT_PATH ROOT_DIRECTORY IMAGE_DIGESTS_TEMPLATE_FILEPATH OUTPUT_FILEPATH" ;;
  simple_command 23 ("SCRIPT_PATH=$(dirname $(realpath " +:+ q "$0" +:+ "))")
    (match script_dir w with
     | Some d =>
         ran 23 "realpath" ["$0"] 0 ;; ran 23 "dirname" [] 0 ;;
         setvar "SCRIPT_PATH" d ;; mret 0%Z
     | None =>
         ran 23 "realpath" ["$0"] 1 ;; ran 23 "dirname" [] 1 ;;
         setvar "SCRIPT_PATH" "" ;; mret 1%Z
     end) ;;
  script_path ← getvar "SCRIPT_PATH";
  simple_command 24 ("ROOT_DIRECTORY=" +:+ q "$SCRIPT_PATH/../..")
    (setvar "ROOT_DIRECTORY" (script_path +:+ "/../..") ;; mret 0%Z) ;;
  root ← getvar "ROOT_DIRECTORY";
  simple_command 25
    ("OUTPUT_FILEPATH=${OUTPUT_FILEPATH:="
     +:+ q "$ROOT_DIRECTORY/hack/release-scripts/image-digests.yaml" +:+ "}")
    (s ← get;
     let fallback := root +:+ "/hack/release-scripts/image-digests.yaml" in
     let value := match vars s !! "OUTPUT_FILEPATH" with
                  | Some v => if v =? "" then fallback else v
                  | None => fallback
                  end in
     setvar "OUTPUT_FILEPATH" value ;; mret 0%Z) ;;
  simple_command 27 "tmp_filename=$(mktemp)"
    (match mktemp w with
     | Some p =>
         modify (fun s => set_files (<[p := Lines []]> (files s)) s) ;;
         ran 27 "mktemp" [] 0 ;;
         setvar "tmp_filename" p ;; mret 0%Z
     | None =>
         ran 27 "mktemp" [] 1 ;;
         setvar "tmp_filename" "" ;; mret 1%Z
     end) ;;
  simple_command 50
    ("trap 'error_handler ${LINENO} $? " +:+ q "$BASH_COMMAND" +:+ "' ERR")
    (modify (set_err_trap (Some ErrorHandlerTrap)) ;; mret 0%Z) ;;
  simple_command 53 "trap 'rm $tmp_filename' EXIT"
    (modify (set_exit_trap (Some RmTmpTrap)) ;; mret 0%Z) ;;
  function_call 89 "main" main.

(** The shell process: the script runs from the initial state; however it
    ends, the [EXIT] trap installed by then runs before the process ends,
    and a failure inside the trap ends it with that status. *)
Definition run_script : Z * state :=
  let '(r, s) := script (init w) in
  let status := match r with
                | Done _ => last_status s
                | Exited n => n
                end in
  match exit_trap s with
  | Some t =>
      match on_EXIT t s with
      | (Done _, s') => (status, s')
      | (Exited n, s') => (n, s')
      end
  | None => (status, s)
  end.

End Script.

End ReleaseScript.

(** ** The Makefile target [e2e/parameters]

    The conditionals are evaluated when the Makefile is read and leave the
    recipe of the target; [$(error ...)] stops make when the recipe is
    expanded, before any of its commands runs. *)

Module Makefile.

Inductive recipe_line :=
| ErrorLine (msg : string)
| Command (env : list (string * string)) (program : string).

(** [ifndef V]: true when [V] has an empty value, defined or not. *)
Definition ifndef (v : option string) : bool :=
  match v with
  | None => true
  | Some s => s =? ""
  end.

(** [$(V)] *)
Definition expand (v : option string) : string := default "" v.

Definition ifeq (a b : string) : bool := a =? b.

(* line 140: PARAM_SET=standard *)
Definition recipe_standard : recipe_line :=
  Command [
    ("AWS_AVAILABILITY_ZONES",
     "us-west-2a");
    ("TEST_PATH",
     "./tests/e2e/...");
    ("GINKGO_FOCUS",
     "\[ebs-csi-e2e\] \[single-az\] \[param:(extraCreateMetadata|k8sTagClusterId|extraVolumeTags|controllerMetrics|nodeMetrics|batching|defaultFsType|controllerLoggingFormat|nodeLoggingFormat|controllerLogLevel|nodeLogLevel|provisionerLogLevel|attacherLogLevel|snapshotterLogLevel|resizerLogLevel|nodeDriverRegistrarLogLevel|storageClasses|volumeSnapshotClasses|defaultStorageClass|snapshotterForceEnable|controllerUserAgentExtra|controllerEnablePrometheusAnnotations|nodeEnablePrometheusAnnotations|nodeKubeletPath|nodeTolerateAllTaints|controllerPodDisruptionBudget|provisionerLeaderElection|attacherLeaderElection|resizerLeaderElection)\]");
    ("GINKGO_PARALLEL",
     "5");
    ("HELM_EXTRA_FLAGS",
     "--set=controller.extraCreateMetadata=true,controller.k8sTagClusterId=e2e-param-test,controller.extraVolumeTags.TestKey=TestValue,controller.enableMetrics=true,node.enableMetrics=true,controller.batching=true,controller.defaultFsType=xfs,controller.loggingFormat=json,node.loggingFormat=json,controller.logLevel=4,node.logLevel=4,sidecars.provisioner.logLevel=4,sidecars.attacher.logLevel=4,sidecars.snapshotter.logLevel=4,sidecars.resizer.logLevel=4,sidecars.nodeDriverRegistrar.logLevel=4,defaultStorageClass.enabled=true,storageClasses[0].name=test-sc,storageClasses[0].parameters.type=gp3,volumeSnapshotClasses[0].name=test-vsc,volumeSnapshotClasses[0].deletionPolicy=Delete,sidecars.snapshotter.forceEnable=true,controller.userAgentExtra=e2e-test,controller.enablePrometheusAnnotations=true,node.enablePrometheusAnnotations=true,node.kubeletPath=/var/lib/kubelet,node.tolerateAllTaints=true,controller.podDisruptionBudget.enabled=true,sidecars.provisioner.leaderElection.enabled=true,sidecars.attacher.leaderElection.enabled=true,sidecars.resizer.leaderElection.enabled=true") ]
    "./hack/e2e/run.sh".

(* line 147: PARAM_SET=volume-modification *)
Definition recipe_volume_modification : recipe_line :=
  Command [
    ("AWS_AVAILABILITY_ZONES",
     "us-west-2a");
    ("TEST_PATH",
     "./tests/e2e/...");
    ("GINKGO_FOCUS",
     "\[ebs-csi-e2e\] \[single-az\] \[param:(volumeModification|volumemodifierLogLevel|volumemodifierLeaderElection)\]");
    ("GINKGO_PARALLEL",
     "5");
    ("HELM_EXTRA_FLAGS",
     "--set=controller.volumeModificationFeature.enabled=true,sidecars.provisioner.additionalArgs[0]='--feature-gates=VolumeAttributesClass=true',sidecars.resizer.additionalArgs[0]='--feature-gates=VolumeAttributesClass=true',sidecars.volumemodifier.logLevel=4,sidecars.volumemodifier.leaderElection.enabled=false") ]
    "./hack/e2e/run.sh".

(* line 154: PARAM_SET=node-config *)
Definition recipe_node_config : recipe_line :=
  Command [
    ("AWS_AVAILABILITY_ZONES",
     "us-west-2a");
    ("TEST_PATH",
     "./tests/e2e/...");
    ("GINKGO_FOCUS",
     "\[ebs-csi-e2e\] \[single-az\] \[param:(reservedVolumeAttachments|hostNetwork|nodeDisableMutation|nodeTerminationGracePeriod)\]");
    ("GINKGO_PARALLEL",
     "5");
    ("HELM_EXTRA_FLAGS",
     "--set=node.reservedVolumeAttachments=2,node.hostNetwork=true,node.serviceAccount.disableMutation=true,node.terminationGracePeriodSeconds=60") ]
    "./hack/e2e/run.sh".

(* line 162: PARAM_SET=volume-attach-limit *)
Definition recipe_volume_attach_limit : recipe_line :=
  Command [
    ("AWS_AVAILABILITY_ZONES",
     "us-west-2a");
    ("TEST_PATH",
     "./tests/e2e/...");
    ("GINKGO_FOCUS",
     "\[ebs-csi-e2e\] \[single-az\] \[param:volumeAttachLimit\]");
    ("GINKGO_PARALLEL",
     "5");
    ("HELM_EXTRA_FLAGS",
     "--set=node.volumeAttachLimit=25") ]
    "./hack/e2e/run.sh".

(* line 169: PARAM_SET=storage-classes *)
Definition recipe_storage_classes : recipe_line :=
  Command [
    ("AWS_AVAILABILITY_ZONES",
     "us-west-2a");
    ("TEST_PATH",
     "./tests/e2e/...");
    ("GINKGO_FOCUS",
     "\[ebs-csi-e2e\] \[single-az\] \[param:(storageClasses|volumeSnapshotClasses|defaultStorageClass)\]");
    ("GINKGO_PARALLEL",
     "5");
    ("HELM_EXTRA_FLAGS",
     "--set=defaultStorageClass.enabled=true,storageClasses[0].name=test-sc,storageClasses[0].parameters.type=gp3,volumeSnapshotClasses[0].name=test-vsc,volumeSnapshotClasses[0].deletionPolicy=Delete") ]
    "./hack/e2e/run.sh".

(* line 176: PARAM_SET=debug *)
Definition recipe_debug : recipe_line :=
  Command [
    ("AWS_AVAILABILITY_ZONES",
     "us-west-2a");
    ("TEST_PATH",
     "./tests/e2e/...");
    ("GINKGO_FOCUS",
     "\[ebs-csi-e2e\] \[single-az\] \[param:(debugLogs|sdkDebugLog)\]");
    ("GINKGO_PARALLEL",
     "5");
    ("HELM_EXTRA_FLAGS",
     "--set=debugLogs=true,controller.sdkDebugLog=true") ]
    "./hack/e2e/run.sh".

(* line 183: PARAM_SET=metadata-labeler *)
Definition recipe_metadata_labeler : recipe_line :=
  Command [
    ("AWS_AVAILABILITY_ZONES",
     "us-west-2a");
    ("TEST_PATH",
     "./tests/e2e/...");
    ("GINKGO_FOCUS",
     "\[ebs-csi-e2e\] \[single-az\] \[param:(metadataLabeler|metadataLabelerLogLevel)\]");
    ("GINKGO_PARALLEL",
     "1");
    ("EBS_INSTALL_SNAPSHOT",
     "false");
    ("HELM_EXTRA_FLAGS",
     "--set=sidecars.metadataLabeler.enabled=true,node.metadataSources='metadata-labeler',sidecars.metadataLabeler.logLevel=4") ]
    "./hack/e2e/run.sh".

(* line 191: PARAM_SET=legacy-compat *)
Definition recipe_legacy_compat : recipe_line :=
  Command [
    ("AWS_AVAILABILITY_ZONES",
     "us-west-2a");
    ("TEST_PATH",
     "./tests/e2e/...");
    ("GINKGO_FOCUS",
     "\[ebs-csi-e2e\] \[single-az\] \[param:(useOldCSIDriver|legacyXFS)\]");
    ("GINKGO_PARALLEL",
     "5");
    ("HELM_EXTRA_FLAGS",
     "--set=useOldCSIDriver=true,node.legacyXFS=true") ]
    "./hack/e2e/run.sh".

(* line 198: PARAM_SET=selinux *)
Definition recipe_selinux : recipe_line :=
  Command [
    ("AWS_AVAILABILITY_ZONES",
     "us-west-2a");
    ("TEST_PATH",
     "./tests/e2e/...");
    ("GINKGO_FOCUS",
     "\[ebs-csi-e2e\] \[single-az\] \[param:selinux\]");
    ("GINKGO_PARALLEL",
     "5");
    ("HELM_EXTRA_FLAGS",
     "--set=node.selinux=true") ]
    "./hack/e2e/run.sh".

(* line 205: PARAM_SET=fips *)
Definition recipe_fips : recipe_line :=
  Command [
    ("AWS_AVAILABILITY_ZONES",
     "us-west-2a");
    ("TEST_PATH",
     "./tests/e2e/...");
    ("GINKGO_FOCUS",
     "\[ebs-csi-e2e\] \[single-az\] \[param:fips\]");
    ("GINKGO_PARALLEL",
     "5");
    ("FIPS_TEST",
     "true");
    ("HELM_EXTRA_FLAGS",
     "--set=fips=true") ]
    "./hack/e2e/run.sh".

(* line 213: PARAM_SET=infra *)
Definition recipe_infra : recipe_line :=
  Command [
    ("AWS_AVAILABILITY_ZONES",
     "us-west-2a");
    ("TEST_PATH",
     "./tests/e2e/...");
    ("GINKGO_FOCUS",
     "\[ebs-csi-e2e\] \[single-az\] \[param:(controllerReplicaCount|controllerPriorityClassName|controllerResources|controllerPodAnnotations|controllerPodLabels|controllerDeploymentAnnotations|controllerRevisionHistoryLimit|nodePriorityClassName|nodeResources|nodePodAnnotations|nodeDaemonSetAnnotations|nodeRevisionHistoryLimit|provisionerResources|attacherResources|snapshotterResources|resizerResources|nodeDriverRegistrarResources|livenessProbeResources|customLabels|controllerEnv|nodeEnv|controllerTopologySpreadConstraints|controllerSecurityContext|nodeSecurityContext|controllerContainerSecurityContext|controllerVolumes|controllerVolumeMounts|nodeVolumes|nodeVolumeMounts|controllerDnsConfig|nodeDnsConfig|controllerInitContainers|nodeInitContainers|imagePullPolicy)\]");
    ("GINKGO_PARALLEL",
     "5");
    ("HELM_EXTRA_FLAGS",
     "--set=controller.replicaCount=3,controller.priorityClassName=system-cluster-critical,controller.resources.requests.cpu=100m,controller.resources.limits.memory=256Mi,controller.podAnnotations.test-annotation=test-value,controller.podLabels.test-label=test-value,controller.deploymentAnnotations.deploy-annotation=deploy-value,controller.revisionHistoryLimit=5,node.priorityClassName=system-node-critical,node.resources.requests.cpu=50m,node.resources.limits.memory=128Mi,node.podAnnotations.node-annotation=node-value,node.daemonSetAnnotations.ds-annotation=ds-value,node.revisionHistoryLimit=3,sidecars.provisioner.resources.requests.cpu=20m,sidecars.attacher.resources.requests.cpu=15m,sidecars.snapshotter.resources.requests.cpu=15m,sidecars.resizer.resources.requests.cpu=15m,sidecars.nodeDriverRegistrar.resources.requests.cpu=10m,sidecars.livenessProbe.resources.requests.cpu=5m,customLabels.custom-label=custom-value,controller.env[0].name=TEST_ENV,controller.env[0].value=test-value,node.env[0].name=NODE_ENV,node.env[0].value=node-value,controller.topologySpreadConstraints[0].maxSkew=1,controller.topologySpreadConstraints[0].topologyKey=topology.kubernetes.io/zone,controller.topologySpreadConstraints[0].whenUnsatisfiable=ScheduleAnyway,controller.securityContext.runAsNonRoot=true,controller.containerSecurityContext.readOnlyRootFilesystem=true,controller.volumes[0].name=extra-volume,controller.volumes[0].configMap.name=kube-root-ca.crt,controller.volumeMounts[0].name=extra-volume,controller.volumeMounts[0].mountPath=/extra,node.volumes[0].name=node-extra-volume,node.volumes[0].configMap.name=kube-root-ca.crt,node.volumeMounts[0].name=node-extra-volume,node.volumeMounts[0].mountPath=/node-extra,controller.dnsConfig.nameservers[0]=8.8.8.8,node.dnsConfig.nameservers[0]=8.8.4.4,controller.initContainers[0].name=init-container,controller.initContainers[0].image=busybox,controller.initContainers[0].command[0]=echo,controller.initContainers[0].command[1]=init,node.initContainers[0].name=node-init-container,node.initContainers[0].image=busybox,node.initContainers[0].command[0]=echo,node.initContainers[0].command[1]=node-init,image.pullPolicy=Always") ]
    "./hack/e2e/run.sh".

(* line 221: PARAM_SET=update-strategy *)
Definition recipe_update_strategy : recipe_line :=
  Command [
    ("AWS_AVAILABILITY_ZONES",
     "us-west-2a");
    ("TEST_PATH",
     "./tests/e2e/...");
    ("GINKGO_FOCUS",
     "\[ebs-csi-e2e\] \[single-az\] \[param:(controllerUpdateStrategy|nodeUpdateStrategy)\]");
    ("GINKGO_PARALLEL",
     "5");
    ("HELM_EXTRA_FLAGS",
     "--set=controller.updateStrategy.type=Recreate,controller.updateStrategy.rollingUpdate=null,node.updateStrategy.type=OnDelete") ]
    "./hack/e2e/run.sh".

(* lines 135-230 *)
Definition e2e_parameters (PARAM_SET : option string) : list recipe_line :=
  (if ifndef PARAM_SET
   then [ErrorLine "PARAM_SET is required. Options: standard, volume-modification, node-config, storage-classes, debug, metadata-labeler, legacy-compat, selinux, fips"]
   else []) ++
  (if ifeq (expand PARAM_SET) "standard" then [recipe_standard]
   else if ifeq (expand PARAM_SET) "volume-modification" then [recipe_volume_modification]
   else if ifeq (expand PARAM_SET) "node-config" then [recipe_node_config]
   else if ifeq (expand PARAM_SET) "volume-attach-limit" then [recipe_volume_attach_limit]
   else if ifeq (expand PARAM_SET) "storage-classes" then [recipe_storage_classes]
   else if ifeq (expand PARAM_SET) "debug" then [recipe_debug]
   else if ifeq (expand PARAM_SET) "metadata-labeler" then [recipe_metadata_labeler]
   else if ifeq (expand PARAM_SET) "legacy-compat" then [recipe_legacy_compat]
   else if ifeq (expand PARAM_SET) "selinux" then [recipe_selinux]
   else if ifeq (expand PARAM_SET) "fips" then [recipe_fips]
   else if ifeq (expand PARAM_SET) "infra" then [recipe_infra]
   else if ifeq (expand PARAM_SET) "update-strategy" then [recipe_update_strategy]
   else [ErrorLine ("Unknown PARAM_SET: " +:+ expand PARAM_SET +:+ ". Options: standard, volume-modification, node-config, volume-attach-limit, storage-classes, debug, infra, update-strategy, metadata-labeler, legacy-compat, selinux, fips")]).

(** What make does with the recipe of a target that has to be rebuilt:
    every line is expanded first, so an [$(error)] line stops make before
    any command runs; otherwise each command line is run once. *)
Inductive make_result :=
| MakeError (msg : string)
| Ran (commands : list (list (string * string) * string)).

Fixpoint first_error (lines : list recipe_line) : option string :=
  match lines with
  | [] => None
  | ErrorLine msg :: _ => Some msg
  | Command _ _ :: rest => first_error rest
  end.

Fixpoint commands_of (lines : list recipe_line) : list (list (string * string) * string) :=
  match lines with
  | [] => []
  | ErrorLine _ :: rest => commands_of rest
  | Command env prog :: rest => (env, prog) :: commands_of rest
  end.

Definition make (lines : list recipe_line) : make_result :=
  match first_error lines with
  | Some msg => MakeError msg
  | None => Ran (commands_of lines)
  end.

Fixpoint lookup_env (k : string) (env : list (string * string)) : option string :=
  match env with
  | [] => None
  | (k', v) :: rest => if k' =? k then Some v else lookup_env k rest
  end.

(** *** The focus expressions

    [GINKGO_FOCUS] reaches [ginkgo --focus], a regular expression searched
    in the full text of each spec.  The expressions of this target use
    literals, escapes, groups and alternation only. *)
Inductive regex :=
| Eps
| Chr (a : ascii)
| Seq (r1 r2 : regex)
| Alt (r1 r2 : regex).

Definition is_meta (a : ascii) : bool :=
  existsb (Ascii.eqb a) (list_ascii_of_string ".[]{}()*+?^$|\").

Fixpoint parse_alt (fuel : nat) (s : list ascii) : option (regex * list ascii) :=
  match fuel with
  | O => None
  | S fuel' =>
      match parse_seq fuel' s with
      | Some (r1, "|"%char :: rest) =>
          match parse_alt fuel' rest with
          | Some (r2, rest') => Some (Alt r1 r2, rest')
          | None => None
          end
      | other => other
      end
  end
with parse_seq (fuel : nat) (s : list ascii) : option (regex * list ascii) :=
  match fuel with
  | O => None
  | S fuel' =>
      match s with
      | [] => Some (Eps, [])
      | "|"%char :: _ | ")"%char :: _ => Some (Eps, s)
      | "\"%char :: c :: rest =>
          match parse_seq fuel' rest with
          | Some (r, rest') => Some (Seq (Chr c) r, rest')
          | None => None
          end
      | "("%char :: rest =>
          match parse_alt fuel' rest with
          | Some (r1, ")"%char :: rest1) =>
              match parse_seq fuel' rest1 with
              | Some (r2, rest2) => Some (Seq r1 r2, rest2)
              | None => None
              end
          | _ => None
          end
      | c :: rest =>
          if is_meta c then None
          else match parse_seq fuel' rest with
               | Some (r, rest') => Some (Seq (Chr c) r, rest')
               | None => None
               end
      end
  end.

Definition compile (pattern : string) : option regex :=
  let s := list_ascii_of_string pattern in
  match parse_alt (2 * length s + 2) s with
  | Some (r, []) => Some r
  | _ => None
  end.

(** The words of a star-free expression. *)
Fixpoint lang (r : regex) : list string :=
  match r with
  | Eps => [""]
  | Chr a => [String a ""]
  | Seq r1 r2 => w1 ← lang r1; w2 ← lang r2; [w1 +:+ w2]
  | Alt r1 r2 => lang r1 ++ lang r2
  end.

(** [regexp.MatchString]: some word of the expression occurs in the text. *)
Definition matches (r : regex) (text : string) : bool :=
  existsb (fun word => ContainSubstring word text) (lang r).

Definition selects (focus text : string) : bool :=
  match compile focus with
  | Some r => matches r text
  | None => false
  end.

(** The parameter sets of the target and the [param:] labels of each. *)
Definition param_sets : list (string * list string) := [
  ("standard",
    [ "extraCreateMetadata";
      "k8sTagClusterId";
      "extraVolumeTags";
      "controllerMetrics";
      "nodeMetrics";
      "batching";
      "defaultFsType";
      "controllerLoggingFormat";
      "nodeLoggingFormat";
      "controllerLogLevel";
      "nodeLogLevel";
      "provisionerLogLevel";
      "attacherLogLevel";
      "snapshotterLogLevel";
      "resizerLogLevel";
      "nodeDriverRegistrarLogLevel";
      "storageClasses";
      "volumeSnapshotClasses";
      "defaultStorageClass";
      "snapshotterForceEnable";
      "controllerUserAgentExtra";
      "controllerEnablePrometheusAnnotations";
      "nodeEnablePrometheusAnnotations";
      "nodeKubeletPath";
      "nodeTolerateAllTaints";
      "controllerPodDisruptionBudget";
      "provisionerLeaderElection";
      "attacherLeaderElection";
      "resizerLeaderElection" ]);
  ("volume-modification",
    [ "volumeModification";
      "volumemodifierLogLevel";
      "volumemodifierLeaderElection" ]);
  ("node-config",
    [ "reservedVolumeAttachments";
      "hostNetwork";
      "nodeDisableMutation";
      "nodeTerminationGracePeriod" ]);
  ("volume-attach-limit",
    [ "volumeAttachLimit" ]);
  ("storage-classes",
    [ "storageClasses";
      "volumeSnapshotClasses";
      "defaultStorageClass" ]);
  ("debug",
    [ "debugLogs";
      "sdkDebugLog" ]);
  ("metadata-labeler",
    [ "metadataLabeler";
      "metadataLabelerLogLevel" ]);
  ("legacy-compat",
    [ "useOldCSIDriver";
      "legacyXFS" ]);
  ("selinux",
    [ "selinux" ]);
  ("fips",
    [ "fips" ]);
  ("infra",
    [ "controllerReplicaCount";
      "controllerPriorityClassName";
      "controllerResources";
      "controllerPodAnnotations";
      "controllerPodLabels";
      "controllerDeploymentAnnotations";
      "controllerRevisionHistoryLimit";
      "nodePriorityClassName";
      "nodeResources";
      "nodePodAnnotations";
      "nodeDaemonSetAnnotations";
      "nodeRevisionHistoryLimit";
      "provisionerResources";
      "attacherResources";
      "snapshotterResources";
      "resizerResources";
      "nodeDriverRegistrarResources";
      "livenessProbeResources";
      "customLabels";
      "controllerEnv";
      "nodeEnv";
      "controllerTopologySpreadConstraints";
      "controllerSecurityContext";
      "nodeSecurityContext";
      "controllerContainerSecurityContext";
      "controllerVolumes";
      "controllerVolumeMounts";
      "nodeVolumes";
      "nodeVolumeMounts";
      "controllerDnsConfig";
      "nodeDnsConfig";
      "controllerInitContainers";
      "nodeInitContainers";
      "imagePullPolicy" ]);
  ("update-strategy",
    [ "controllerUpdateStrategy";
      "nodeUpdateStrategy" ]) ].

Definition recognized : list string := param_sets.*1.

Definition label_tag (label : string) : string :=
  "[ebs-csi-e2e] [single-az] [param:" +:+ label +:+ "]".

End Makefile.

(** ** The generated mock of [kubernetes.Interface]

    Every mocked method asks the gomock controller for the recorded
    results, takes the first and converts it with a two-valued type
    assertion. *)

Module Mock.

(** The interface types the methods of [kubernetes.Interface] return. *)
Inductive iface :=
| AdmissionregistrationV1Interface
| AdmissionregistrationV1alpha1Interface
| AdmissionregistrationV1beta1Interface
| AppsV1Interface
| AppsV1beta1Interface
| AppsV1beta2Interface
| AuthenticationV1Interface
| AuthenticationV1alpha1Interface
| AuthenticationV1beta1Interface
| AuthorizationV1Interface
| AuthorizationV1beta1Interface
| AutoscalingV1Interface
| AutoscalingV2Interface
| AutoscalingV2beta1Interface
| AutoscalingV2beta2Interface
| BatchV1Interface
| BatchV1beta1Interface
| CertificatesV1Interface
| CertificatesV1alpha1Interface
| CertificatesV1beta1Interface
| CoordinationV1Interface
| CoordinationV1alpha1Interface
| CoordinationV1beta1Interface
| CoreV1Interface
| DiscoveryInterface
| DiscoveryV1Interface
| DiscoveryV1beta1Interface
| EventsV1Interface
| EventsV1beta1Interface
| ExtensionsV1beta1Interface
| FlowcontrolV1Interface
| FlowcontrolV1beta1Interface
| FlowcontrolV1beta2Interface
| FlowcontrolV1beta3Interface
| InternalV1alpha1Interface
| NetworkingV1Interface
| NetworkingV1alpha1Interface
| NetworkingV1beta1Interface
| NodeV1Interface
| NodeV1alpha1Interface
| NodeV1beta1Interface
| PolicyV1Interface
| PolicyV1beta1Interface
| RbacV1Interface
| RbacV1alpha1Interface
| RbacV1beta1Interface
| ResourceV1alpha3Interface
| SchedulingV1Interface
| SchedulingV1alpha1Interface
| SchedulingV1beta1Interface
| StorageV1Interface
| StorageV1alpha1Interface
| StorageV1beta1Interface
| StoragemigrationV1alpha1Interface.

(** A Go interface value: [None] is the nil interface; otherwise a value
    of some concrete type, which implements some interfaces. *)
Record dynamic := { type_name : string; implements : iface -> bool }.

Definition any := option dynamic.

(** How a Go call ends: it returns, it panics, or the goroutine is ended
    by [t.Fatalf] ([runtime.Goexit]). *)
Inductive go (A : Type) :=
| Returned (a : A)
| Panic (msg : string)
| Goexit.
Arguments Returned {A} a.
Arguments Panic {A} msg.
Arguments Goexit {A}.

#[global] Instance go_ret : MRet go := fun A a => Returned a.
#[global] Instance go_bind : MBind go := fun A B f m =>
  match m with
  | Returned a => f a
  | Panic msg => Panic msg
  | Goexit => Goexit
  end.

(** [ret[i]] on a slice. *)
Definition index (ret : list any) (i : nat) : go any :=
  match ret !! i with
  | Some x => Returned x
  | None => Panic "index out of range"
  end.

(** [v, ok := x.(I)]: never panics; [v] is the zero value when [ok] is
    false. *)
Definition type_assert2 (x : any) (I : iface) : any * bool :=
  match x with
  | Some d => if implements d I then (Some d, true) else (None, false)
  | None => (None, false)
  end.

(** [v := x.(I)]: panics when the assertion does not hold. *)
Definition type_assert1 (x : any) (I : iface) : go any :=
  match type_assert2 x I with
  | (v, true) => Returned v
  | (_, false) => Panic "interface conversion"
  end.

(** [gomock.Controller]: [Call(receiver, method, args...)] yields the
    results recorded for the call, or fails the test. *)
Record Controller := { Call : string -> list any -> go (list any) }.

Record MockKubernetesClientMockRecorder := { mock_ctrl : Controller }.

Record MockKubernetesClient := {
  ctrl : Controller;
  recorder : MockKubernetesClientMockRecorder }.

(* lines 92-97 *)
Definition NewMockKubernetesClient (c : Controller) : MockKubernetesClient :=
  {| ctrl := c; recorder := {| mock_ctrl := c |} |}.

(* lines 99-102 *)
Definition EXPECT (m : MockKubernetesClient) : MockKubernetesClientMockRecorder :=
  recorder m.

(** The body every mocked method has:
      m.ctrl.T.Helper()
      ret := m.ctrl.Call(m, name)
      ret0, _ := ret[0].(I)
      return ret0 *)
Definition mocks_base_method (m : MockKubernetesClient) (name : string) (I : iface)
    : go any :=
  ret ← Call (ctrl m) name [];
  x ← index ret 0;
  let '(ret0, _) := type_assert2 x I in
  mret ret0.

(* line 105 *)
Definition AdmissionregistrationV1 (m : MockKubernetesClient) : go any :=
  mocks_base_method m "AdmissionregistrationV1" AdmissionregistrationV1Interface.

(* line 119 *)
Definition AdmissionregistrationV1alpha1 (m : MockKubernetesClient) : go any :=
  mocks_base_method m "AdmissionregistrationV1alpha1" AdmissionregistrationV1alpha1Interface.

(* line 133 *)
Definition AdmissionregistrationV1beta1 (m : MockKubernetesClient) : go any :=
  mocks_base_method m "AdmissionregistrationV1beta1" AdmissionregistrationV1beta1Interface.

(* line 147 *)
Definition AppsV1 (m : MockKubernetesClient) : go any :=
  mocks_base_method m "AppsV1" AppsV1Interface.

(* line 161 *)
Definition AppsV1beta1 (m : MockKubernetesClient) : go any :=
  mocks_base_method m "AppsV1beta1" AppsV1beta1Interface.

(* line 175 *)
Definition AppsV1beta2 (m : MockKubernetesClient) : go any :=
  mocks_base_method m "AppsV1beta2" AppsV1beta2Interface.

(* line 189 *)
Definition AuthenticationV1 (m : MockKubernetesClient) : go any :=
  mocks_base_method m "AuthenticationV1" AuthenticationV1Interface.

(* line 203 *)
Definition AuthenticationV1alpha1 (m : MockKubernetesClient) : go any :=
  mocks_base_method m "AuthenticationV1alpha1" AuthenticationV1alpha1Interface.

(* line 217 *)
Definition AuthenticationV1beta1 (m : MockKubernetesClient) : go any :=
  mocks_base_method m "AuthenticationV1beta1" AuthenticationV1beta1Interface.

(* line 231 *)
Definition AuthorizationV1 (m : MockKubernetesClient) : go any :=
  mocks_base_method m "AuthorizationV1" AuthorizationV1Interface.

(* line 245 *)
Definition AuthorizationV1beta1 (m : MockKubernetesClient) : go any :=
  mocks_base_method m "AuthorizationV1beta1" AuthorizationV1beta1Interface.

(* line 259 *)
Definition AutoscalingV1 (m : MockKubernetesClient) : go any :=
  mocks_base_method m "AutoscalingV1" AutoscalingV1Interface.

(* line 273 *)
Definition AutoscalingV2 (m : MockKubernetesClient) : go any :=
  mocks_base_method m "AutoscalingV2" AutoscalingV2Interface.

(* line 287 *)
Definition AutoscalingV2beta1 (m : MockKubernetesClient) : go any :=
  mocks_base_method m "AutoscalingV2beta1" AutoscalingV2beta1Interface.

(* line 301 *)
Definition AutoscalingV2beta2 (m : MockKubernetesClient) : go any :=
  mocks_base_method m "AutoscalingV2beta2" AutoscalingV2beta2Interface.

(* line 315 *)
Definition BatchV1 (m : MockKubernetesClient) : go any :=
  mocks_base_method m "BatchV1" BatchV1Interface.

(* line 329 *)
Definition BatchV1beta1 (m : MockKubernetesClient) : go any :=
  mocks_base_method m "BatchV1beta1" BatchV1beta1Interface.

(* line 343 *)
Definition CertificatesV1 (m : MockKubernetesClient) : go any :=
  mocks_base_method m "CertificatesV1" CertificatesV1Interface.

(* line 357 *)
Definition CertificatesV1alpha1 (m : MockKubernetesClient) : go any :=
  mocks_base_method m "CertificatesV1alpha1" CertificatesV1alpha1Interface.

(* line 371 *)
Definition CertificatesV1beta1 (m : MockKubernetesClient) : go any :=
  mocks_base_method m "CertificatesV1beta1" CertificatesV1beta1Interface.

(* line 385 *)
Definition CoordinationV1 (m : MockKubernetesClient) : go any :=
  mocks_base_method m "CoordinationV1" CoordinationV1Interface.

(* line 399 *)
Definition CoordinationV1alpha1 (m : MockKubernetesClient) : go any :=
  mocks_base_method m "CoordinationV1alpha1" CoordinationV1alpha1Interface.

(* line 413 *)
Definition CoordinationV1beta1 (m : MockKubernetesClient) : go any :=
  mocks_base_method m "CoordinationV1beta1" CoordinationV1beta1Interface.

(* line 427 *)
Definition CoreV1 (m : MockKubernetesClient) : go any :=
  mocks_base_method m "CoreV1" CoreV1Interface.

(* line 441 *)
Definition Discovery (m : MockKubernetesClient) : go any :=
  mocks_base_method m "Discovery" DiscoveryInterface.

(* line 455 *)
Definition DiscoveryV1 (m : MockKubernetesClient) : go any :=
  mocks_base_method m "DiscoveryV1" DiscoveryV1Interface.

(* line 469 *)
Definition DiscoveryV1beta1 (m : MockKubernetesClient) : go any :=
  mocks_base_method m "DiscoveryV1beta1" DiscoveryV1beta1Interface.

(* line 483 *)
Definition EventsV1 (m : MockKubernetesClient) : go any :=
  mocks_base_method m "EventsV1" EventsV1Interface.

(* line 497 *)
Definition EventsV1beta1 (m : MockKubernetesClient) : go any :=
  mocks_base_method m "EventsV1beta1" EventsV1beta1Interface.

(* line 511 *)
Definition ExtensionsV1beta1 (m : MockKubernetesClient) : go any :=
  mocks_base_method m "ExtensionsV1beta1" ExtensionsV1beta1Interface.

(* line 525 *)
Definition FlowcontrolV1 (m : MockKubernetesClient) : go any :=
  mocks_base_method m "FlowcontrolV1" FlowcontrolV1Interface.

(* line 539 *)
Definition FlowcontrolV1beta1 (m : MockKubernetesClient) : go any :=
  mocks_base_method m "FlowcontrolV1beta1" FlowcontrolV1beta1Interface.

(* line 553 *)
Definition FlowcontrolV1beta2 (m : MockKubernetesClient) : go any :=
  mocks_base_method m "FlowcontrolV1beta2" FlowcontrolV1beta2Interface.

(* line 567 *)
Definition FlowcontrolV1beta3 (m : MockKubernetesClient) : go any :=
  mocks_base_method m "FlowcontrolV1beta3" FlowcontrolV1beta3Interface.

(* line 581 *)
Definition InternalV1alpha1 (m : MockKubernetesClient) : go any :=
  mocks_base_method m "InternalV1alpha1" InternalV1alpha1Interface.

(* line 595 *)
Definition NetworkingV1 (m : MockKubernetesClient) : go any :=
  mocks_base_method m "NetworkingV1" NetworkingV1Interface.

(* line 609 *)
Definition NetworkingV1alpha1 (m : MockKubernetesClient) : go any :=
  mocks_base_method m "NetworkingV1alpha1" NetworkingV1alpha1Interface.

(* line 623 *)
Definition NetworkingV1beta1 (m : MockKubernetesClient) : go any :=
  mocks_base_method m "NetworkingV1beta1" NetworkingV1beta1Interface.

(* line 637 *)
Definition NodeV1 (m : MockKubernetesClient) : go any :=
  mocks_base_method m "NodeV1" NodeV1Interface.

(* line 651 *)
Definition NodeV1alpha1 (m : MockKubernetesClient) : go any :=
  mocks_base_method m "NodeV1alpha1" NodeV1alpha1Interface.

(* line 665 *)
Definition NodeV1beta1 (m : MockKubernetesClient) : go any :=
  mocks_base_method m "NodeV1beta1" NodeV1beta1Interface.

(* line 679 *)
Definition PolicyV1 (m : MockKubernetesClient) : go any :=
  mocks_base_method m "PolicyV1" PolicyV1Interface.

(* line 693 *)
Definition PolicyV1beta1 (m : MockKubernetesClient) : go any :=
  mocks_base_method m "PolicyV1beta1" PolicyV1beta1Interface.

(* line 707 *)
Definition RbacV1 (m : MockKubernetesClient) : go any :=
  mocks_base_method m "RbacV1" RbacV1Interface.

(* line 721 *)
Definition RbacV1alpha1 (m : MockKubernetesClient) : go any :=
  mocks_base_method m "RbacV1alpha1" RbacV1alpha1Interface.

(* line 735 *)
Definition RbacV1beta1 (m : MockKubernetesClient) : go any :=
  mocks_base_method m "RbacV1beta1" RbacV1beta1Interface.

(* line 749 *)
Definition ResourceV1alpha3 (m : MockKubernetesClient) : go any :=
  mocks_base_method m "ResourceV1alpha3" ResourceV1alpha3Interface.

(* line 763 *)
Definition SchedulingV1 (m : MockKubernetesClient) : go any :=
  mocks_base_method m "SchedulingV1" SchedulingV1Interface.

(* line 777 *)
Definition SchedulingV1alpha1 (m : MockKubernetesClient) : go any :=
  mocks_base_method m "SchedulingV1alpha1" SchedulingV1alpha1Interface.

(* line 791 *)
Definition SchedulingV1beta1 (m : MockKubernetesClient) : go any :=
  mocks_base_method m "SchedulingV1beta1" SchedulingV1beta1Interface.

(* line 805 *)
Definition StorageV1 (m : MockKubernetesClient) : go any :=
  mocks_base_method m "StorageV1" StorageV1Interface.

(* line 819 *)
Definition StorageV1alpha1 (m : MockKubernetesClient) : go any :=
  mocks_base_method m "StorageV1alpha1" StorageV1alpha1Interface.

(* line 833 *)
Definition StorageV1beta1 (m : MockKubernetesClient) : go any :=
  mocks_base_method m "StorageV1beta1" StorageV1beta1Interface.

(* line 847 *)
Definition StoragemigrationV1alpha1 (m : MockKubernetesClient) : go any :=
  mocks_base_method m "StoragemigrationV1alpha1" StoragemigrationV1alpha1Interface.

(** The mocked methods with their names and declared result types. *)
Definition methods : list (string * iface * (MockKubernetesClient -> go any)) := [
  ("AdmissionregistrationV1", AdmissionregistrationV1Interface, AdmissionregistrationV1);
  ("AdmissionregistrationV1alpha1", AdmissionregistrationV1alpha1Interface, AdmissionregistrationV1alpha1);
  ("AdmissionregistrationV1beta1", AdmissionregistrationV1beta1Interface, AdmissionregistrationV1beta1);
  ("AppsV1", AppsV1Interface, AppsV1);
  ("AppsV1beta1", AppsV1beta1Interface, AppsV1beta1);
  ("AppsV1beta2", AppsV1beta2Interface, AppsV1beta2);
  ("AuthenticationV1", AuthenticationV1Interface, AuthenticationV1);
  ("AuthenticationV1alpha1", AuthenticationV1alpha1Interface, AuthenticationV1alpha1);
  ("AuthenticationV1beta1", AuthenticationV1beta1Interface, AuthenticationV1beta1);
  ("AuthorizationV1", AuthorizationV1Interface, AuthorizationV1);
  ("AuthorizationV1beta1", AuthorizationV1beta1Interface, AuthorizationV1beta1);
  ("AutoscalingV1", AutoscalingV1Interface, AutoscalingV1);
  ("AutoscalingV2", AutoscalingV2Interface, AutoscalingV2);
  ("AutoscalingV2beta1", AutoscalingV2beta1Interface, AutoscalingV2beta1);
  ("AutoscalingV2beta2", AutoscalingV2beta2Interface, AutoscalingV2beta2);
  ("BatchV1", BatchV1Interface, BatchV1);
  ("BatchV1beta1", BatchV1beta1Interface, BatchV1beta1);
  ("CertificatesV1", CertificatesV1Interface, CertificatesV1);
  ("CertificatesV1alpha1", CertificatesV1alpha1Interface, CertificatesV1alpha1);
  ("CertificatesV1beta1", CertificatesV1beta1Interface, CertificatesV1beta1);
  ("CoordinationV1", CoordinationV1Interface, CoordinationV1);
  ("CoordinationV1alpha1", CoordinationV1alpha1Interface, CoordinationV1alpha1);
  ("CoordinationV1beta1", CoordinationV1beta1Interface, CoordinationV1beta1);
  ("CoreV1", CoreV1Interface, CoreV1);
  ("Discovery", DiscoveryInterface, Discovery);
  ("DiscoveryV1", DiscoveryV1Interface, DiscoveryV1);
  ("DiscoveryV1beta1", DiscoveryV1beta1Interface, DiscoveryV1beta1);
  ("EventsV1", EventsV1Interface, EventsV1);
  ("EventsV1beta1", EventsV1beta1Interface, EventsV1beta1);
  ("ExtensionsV1beta1", ExtensionsV1beta1Interface, ExtensionsV1beta1);
  ("FlowcontrolV1", FlowcontrolV1Interface, FlowcontrolV1);
  ("FlowcontrolV1beta1", FlowcontrolV1beta1Interface, FlowcontrolV1beta1);
  ("FlowcontrolV1beta2", FlowcontrolV1beta2Interface, FlowcontrolV1beta2);
  ("FlowcontrolV1beta3", FlowcontrolV1beta3Interface, FlowcontrolV1beta3);
  ("InternalV1alpha1", InternalV1alpha1Interface, InternalV1alpha1);
  ("NetworkingV1", NetworkingV1Interface, NetworkingV1);
  ("NetworkingV1alpha1", NetworkingV1alpha1Interface, NetworkingV1alpha1);
  ("NetworkingV1beta1", NetworkingV1beta1Interface, NetworkingV1beta1);
  ("NodeV1", NodeV1Interface, NodeV1);
  ("NodeV1alpha1", NodeV1alpha1Interface, NodeV1alpha1);
  ("NodeV1beta1", NodeV1beta1Interface, NodeV1beta1);
  ("PolicyV1", PolicyV1Interface, PolicyV1);
  ("PolicyV1beta1", PolicyV1beta1Interface, PolicyV1beta1);
  ("RbacV1", RbacV1Interface, RbacV1);
  ("RbacV1alpha1", RbacV1alpha1Interface, RbacV1alpha1);
  ("RbacV1beta1", RbacV1beta1Interface, RbacV1beta1);
  ("ResourceV1alpha3", ResourceV1alpha3Interface, ResourceV1alpha3);
  ("SchedulingV1", SchedulingV1Interface, SchedulingV1);
  ("SchedulingV1alpha1", SchedulingV1alpha1Interface, SchedulingV1alpha1);
  ("SchedulingV1beta1", SchedulingV1beta1Interface, SchedulingV1beta1);
  ("StorageV1", StorageV1Interface, StorageV1);
  ("StorageV1alpha1", StorageV1alpha1Interface, StorageV1alpha1);
  ("StorageV1beta1", StorageV1beta1Interface, StorageV1beta1);
  ("StoragemigrationV1alpha1", StoragemigrationV1alpha1Interface, StoragemigrationV1alpha1) ].

End Mock.

(** ** Predicates used to state the properties *)

Definition lines_of (tr : list event) : list nat := map ev_line tr.

(** Every request a body can issue, whatever the cluster answers,
    satisfies [P]. *)
Inductive AllCalls (P : forall R : Type, nat -> apiE R -> Prop) {A : Type}
  : Test A -> Prop :=
| AllCalls_Ret (a : A) : AllCalls P (Ret a)
| AllCalls_Halt (v : verdict) : AllCalls P (Halt v)
| AllCalls_Vis (R : Type) (line : nat) (e : apiE R) (k : R -> Test A) :
    P R line e -> (forall r, AllCalls P (k r)) -> AllCalls P (Vis line e k).

(** [Linear sites t]: the requests of [t] are issued at the source lines
    [sites], in that order and one time each; a body that runs to its end
    has issued all of them, a body that is unwound has issued a prefix. *)
Inductive Linear {A : Type} : list nat -> Test A -> Prop :=
| Linear_Ret (a : A) : Linear [] (Ret a)
| Linear_Halt (sites : list nat) (v : verdict) : Linear sites (Halt v)
| Linear_Vis (R : Type) (line : nat) (sites : list nat) (e : apiE R) (k : R -> Test A) :
    (forall r, Linear sites (k r)) -> Linear (line :: sites) (Vis line e k).

Fixpoint increasing (l : list nat) : bool :=
  match l with
  | a :: (b :: _) as l' => (a <? b)%nat && increasing l'
  | _ => true
  end.

(** A request is read-only and, when namespaced, about [kube-system]. *)
Definition read_only_kube_system (R : Type) (line : nat) (e : apiE R) : Prop :=
  match k8s_verb e with
  | Some v => v = Get \/ v = List
  | None => True
  end /\
  match k8s_namespace e with
  | Some n => n = "kube-system"
  | None => True
  end.

(** An EC2 request is [DescribeVolumes] with tag filters only. *)
Definition describe_volumes_by_tag (R : Type) (line : nat) (e : apiE R) : Prop :=
  match ec2_op e with
  | Some op =>
      op = DescribeVolumes /\
      Forall (fun f => has_prefix "tag:" (Filter.Name f) = true) (ec2_filters e)
  | None => True
  end.

(** The code units of the test file: spec bodies and validation closures. *)
Definition units (suite : list ParameterTests.spec) : list (Test unit) :=
  map ParameterTests.body suite ++ omap ParameterTests.validate suite.

(** The request of the [debugLogs] spec. *)
Definition debugLogs_request : apiE (list Pod.t * error) :=
  K8sList Pods (Some "kube-system")
    {| ListOptions.LabelSelector := "app=ebs-csi-controller" |}.

Definition has_v7 (container : Container.t) : Prop :=
  exists arg, In arg (Container.Args container) /\ (arg = "-v=7" \/ arg = "--v=7").

(** Replace the arguments of every container not called [ebs-plugin]. *)
Definition with_args (c : Container.t) (args : list string) : Container.t :=
  {| Container.Name := Container.Name c;
     Container.Image := Container.Image c;
     Container.Args := args;
     Container.Ports := Container.Ports c;
     Container.Env := Container.Env c;
     Container.Resources := Container.Resources c;
     Container.VolumeMounts := Container.VolumeMounts c;
     Container.ImagePullPolicy := Container.ImagePullPolicy c;
     Container.SecurityContext := Container.SecurityContext c |}.

Definition rewrite_other_args (g : Container.t -> list string) (c : Container.t)
    : Container.t :=
  if Container.Name c =? "ebs-plugin" then c else with_args c (g c).

Definition with_containers (s : PodSpec.t) (cs : list Container.t) : PodSpec.t :=
  {| PodSpec.Volumes := PodSpec.Volumes s;
     PodSpec.InitContainers := PodSpec.InitContainers s;
     PodSpec.Containers := cs;
     PodSpec.TerminationGracePeriodSeconds := PodSpec.TerminationGracePeriodSeconds s;
     PodSpec.NodeSelector := PodSpec.NodeSelector s;
     PodSpec.ServiceAccountName := PodSpec.ServiceAccountName s;
     PodSpec.HostNetwork := PodSpec.HostNetwork s;
     PodSpec.SecurityContext := PodSpec.SecurityContext s;
     PodSpec.ImagePullSecrets := PodSpec.ImagePullSecrets s;
     PodSpec.Affinity := PodSpec.Affinity s;
     PodSpec.Tolerations := PodSpec.Tolerations s;
     PodSpec.PriorityClassName := PodSpec.PriorityClassName s;
     PodSpec.DNSConfig := PodSpec.DNSConfig s;
     PodSpec.TopologySpreadConstraints := PodSpec.TopologySpreadConstraints s |}.

Definition rewrite_pod (g : Container.t -> list string) (pod : Pod.t) : Pod.t :=
  {| Pod.Meta := Pod.Meta pod;
     Pod.Spec := with_containers (Pod.Spec pod)
                   (map (rewrite_other_args g) (PodSpec.Containers (Pod.Spec pod))) |}.

(** What the loops of the spec compute on the listed pods. *)
Definition debugLogs_checks (pods : list Pod.t) : Check unit :=
  range pods (fun pod =>
    range (PodSpec.Containers (Pod.Spec pod)) (fun container =>
      if Container.Name container =? "ebs-plugin" then
        Expect 987
          (existsb (fun arg => (arg =? "-v=7") || (arg =? "--v=7")) (Container.Args container))
          "Controller ebs-plugin should have -v=7 arg when debugLogs=true"
      else Ok tt)).

Definition describe_by (f : Filter.t) : apiE (DescribeVolumesOutput.t * error) :=
  EC2DescribeVolumes {| DescribeVolumesInput.Filters := [f] |}.

(** A validation closure issues the one request [DescribeVolumes] with the
    single filter [f] at [line] and passes exactly when the request
    succeeds with at least one volume. *)
Definition validates_by_tag (h : handler) (v : Test unit) : Prop :=
  exists line f,
    trace h v = [Event line (describe_by f)] /\
    has_prefix "tag:" (Filter.Name f) = true /\
    (passes h v <->
       snd (h _ line (describe_by f)) = None /\
       (1 <= length (DescribeVolumesOutput.Volumes (fst (h _ line (describe_by f)))))%nat).

Definition tag_validations (ns : Namespace.t) : list (Test unit) :=
  [ ParameterTests.ValidateFunc_extraCreateMetadata ns;
    ParameterTests.ValidateFunc_k8sTagClusterId;
    ParameterTests.ValidateFunc_extraVolumeTags ].

(** ** Reasoning about the release script *)

Module ScriptLogic.
Import ReleaseScript.

(** Weakest precondition of a shell computation: [Q] where it goes on,
    [E] where the shell exits. *)
Definition wp {A} (c : Sh A) (Q : A -> state -> Prop) (E : Z -> state -> Prop)
    (s : state) : Prop :=
  match c s with
  | (Done a, s') => Q a s'
  | (Exited n, s') => E n s'
  end.

(** The tools and builtins the script runs. *)
Definition tools : list string :=
  ["realpath"; "dirname"; "mktemp"; "command"; "date"; "printf"; "cp"; "yq"; "cat";
   "crane"; "sed"; "sort"; "tail"; "rm"].

Definition is_tool (c : command) : bool := existsb (String.eqb (c_name c)) tools.

(** Commands that report or clean up, as opposed to doing the work. *)
Definition reporting (c : command) : bool :=
  existsb (String.eqb (c_name c)) ["date"; "printf"; "rm"].

Definition succeeded (c : command) : bool := (c_status c =? 0)%Z.

(** A word that an unquoted expansion leaves as it is: not empty, no blank
    and no pattern character. *)
Definition is_glob (c : ascii) : bool :=
  Ascii.eqb c "*" || Ascii.eqb c "?" || Ascii.eqb c "[".

Definition shell_word (s : string) : bool :=
  negb (String.eqb s "") &&
  forallb (fun c => negb (is_IFS c || is_glob c)) (list_ascii_of_string s).

(** A key that a yq path reads without quoting: letters, digits and [_]. *)
Definition is_key_char (c : ascii) : bool :=
  let n := nat_of_ascii c in
  ((48 <=? n) && (n <=? 57) || (65 <=? n) && (n <=? 90) ||
   (97 <=? n) && (n <=? 122) || (n =? 95))%nat.

Definition identifier (s : string) : bool :=
  negb (String.eqb s "") && forallb is_key_char (list_ascii_of_string s).

(** The name [mktemp] gives is one word. *)
Definition plain_tmp (w : world) : bool :=
  match mktemp w with
  | Some p => shell_word p
  | None => true
  end.

(** The file the script copies, and its keys being plain. *)
Definition template (w : world) : option content :=
  script_dir w ≫= fun dir => disk w !! (dir +:+ "/image-digests-template.yaml").

Definition plain_keys (w : world) : bool :=
  match template w with
  | Some (Yaml doc) => forallb identifier ((map_to_list doc).*1)
  | _ => true
  end.

(** The command is not the [printf] of [error_handler] (line 46). *)
Definition outside_handler (c : command) : bool := negb (c_line c =? 46)%nat.

(** After the first command that fails, only the rest of its own line (its
    pipeline) and reporting commands run: nothing is tried again and no
    later step of the work is taken. *)
Fixpoint quiet_after_failure (h : list command) : bool :=
  match h with
  | [] => true
  | c :: rest =>
      if succeeded c then quiet_after_failure rest
      else forallb (fun c' => (c_line c' =? c_line c)%nat || reporting c') rest
  end.

(** A line of stderr written by [log]. *)
Definition is_info (w : world) (line : string) : Prop :=
  exists msg, line = date w +:+ " [INFO] - " +:+ msg.

(** The state while [main] runs: options of line 19, traps of lines 50 and
    53, the variables set at top level, no failed command so far. *)
Record running (w : world) (out p : string) (d : nat) (s : state) : Prop := {
  run_errexit : errexit s = true;
  run_nounset : nounset s = true;
  run_pipefail : pipefail s = true;
  run_errtrace : errtrace s = false;
  run_err_trap : err_trap s = Some ErrorHandlerTrap;
  run_exit_trap : exit_trap s = Some RmTmpTrap;
  run_depth : func_depth s = S d;
  run_status : last_status s = 0%Z;
  run_out : vars s !! "OUTPUT_FILEPATH" = Some out;
  run_tmp : vars s !! "tmp_filename" = Some p;
  run_tmp_file : is_Some (files s !! p);
  run_script_path : is_Some (vars s !! "SCRIPT_PATH");
  run_tools : forallb is_tool (history s) = true;
  run_clean : forallb succeeded (history s) = true;
  run_handler : forallb outside_handler (history s) = true;
  run_stderr : Forall (is_info w) (stderr s) }.

(** The state in which the shell exits from inside [main]. *)
Record exiting (w : world) (p : string) (n : Z) (s : state) : Prop := {
  exit_nonzero : n <> 0%Z;
  exit_exit_trap : exit_trap s = Some RmTmpTrap;
  exit_tmp : vars s !! "tmp_filename" = Some p;
  exit_tmp_file : is_Some (files s !! p);
  exit_depth : (0 < func_depth s)%nat;
  exit_tools : forallb is_tool (history s) = true;
  exit_quiet : quiet_after_failure (history s) = true;
  exit_handler : forallb outside_handler (history s) = true;
  exit_stderr : Forall (is_info w) (stderr s) }.

(** What the [EXIT] trap adds to the history, and how it can end. *)
Definition trap_outcome (s : state) (r : result unit) (extra : list command) : Prop :=
  forallb is_tool extra = true /\ forallb reporting extra = true /\
  match r with
  | Done _ => errexit s = true -> forallb succeeded extra = true
  | Exited n => n <> 0%Z
  end.

Section Update.
Context (version_le : string -> string -> bool) (w : world).

(** The tag line 63 computes from the tags [crane ls] lists. *)
Definition latest_tag (tags : list string) : string :=
  tail_1 (sort_V version_le (sed_delete "latest" tags)).

(** What one turn of the loop of lines 69-80 does to the document when
    every command succeeds; [yq] refuses an empty [TAG] or [DIGEST]. *)
Definition update_doc (key : string) (doc : gmap string (gmap string string))
    : option (gmap string (gmap string string)) :=
  let image := default "null" (doc !! key ≫= fun fs => fs !! "image") in
  tags ← crane_ls w image;
  let TAG := latest_tag tags in
  if TAG =? "" then None else
  let doc1 := <[key := <["tag" := TAG]> (default ∅ (doc !! key))]> doc in
  digest ← crane_digest w (image +:+ ":" +:+ TAG);
  if digest =? "" then None else
  Some (<[key := <["manifestDigest" := digest]> (default ∅ (doc1 !! key))]> doc1).

Fixpoint update_all (keys : list string) (doc : gmap string (gmap string string))
    : option (gmap string (gmap string string)) :=
  match keys with
  | [] => Some doc
  | key :: rest => doc' ← update_doc key doc; update_all rest doc'
  end.

(** [t] is the greatest of the candidates in version order; with no
    candidate, [tail -1] prints nothing. *)
Definition greatest (t : string) (candidates : list string) : Prop :=
  (candidates = [] /\ t = "") \/
  (In t candidates /\ forall c, In c candidates -> version_le c t = true).

(** [s] contains the text [sub]. *)
Definition contains (sub s : string) : Prop := exists a b, s = a +:+ sub +:+ b.

(** The fields the script must have given to a sidecar: the tag is one of
    the listed tags, does not contain [latest], and is greatest in version
    order among the listed tags that do not contain [latest]; the digest
    is the one of [image:tag]. *)
Definition up_to_date (fields : gmap string string) : Prop :=
  let image := default "null" (fields !! "image") in
  exists tags TAG digest,
    crane_ls w image = Some tags /\
    In TAG tags /\
    ~ contains "latest" TAG /\
    (forall c, In c tags -> ~ contains "latest" c -> version_le c TAG = true) /\
    fields !! "tag" = Some TAG /\
    crane_digest w (image +:+ ":" +:+ TAG) = Some digest /\
    fields !! "manifestDigest" = Some digest.

(** How the script itself (before the [EXIT] trap) can end. *)
Record completed (out p : string) (s : state) : Prop := {
  done_mktemp : mktemp w = Some p;
  done_errexit : errexit s = true;
  done_exit_trap : exit_trap s = Some RmTmpTrap;
  done_tmp : vars s !! "tmp_filename" = Some p;
  done_tmp_file : is_Some (files s !! p);
  done_out : vars s !! "OUTPUT_FILEPATH" = Some out;
  done_status : last_status s = 0%Z;
  done_fresh : p <> out;
  done_tools : forallb is_tool (history s) = true;
  done_clean : forallb succeeded (history s) = true;
  done_handler : forallb outside_handler (history s) = true;
  done_stderr : Forall (is_info w) (stderr s);
  done_doc : exists doc0 doc',
      template w = Some (Yaml doc0) /\
      update_all (flat_map word_split (map_to_list doc0).*1) doc0 = Some doc' /\
      files s !! out = Some (Yaml doc') }.

Record aborted (n : Z) (s : state) : Prop := {
  abort_nonzero : n <> 0%Z;
  abort_tools : forallb is_tool (history s) = true;
  abort_quiet : quiet_after_failure (history s) = true;
  abort_handler : forallb outside_handler (history s) = true;
  abort_stderr : Forall (is_info w) (stderr s);
  abort_trap :
    (exit_trap s = None /\ files s = disk w) \/
    (exists p, mktemp w = Some p /\ exit_trap s = Some RmTmpTrap /\
               vars s !! "tmp_filename" = Some p /\ is_Some (files s !! p) /\
               (0 < func_depth s)%nat) }.

End Update.

End ScriptLogic.

(** ** Concrete inputs *)

Module Examples.
Import ReleaseScript.

Definition template : gmap string (gmap string string) :=
  {[ "provisioner" := {[ "image" := "registry.k8s.io/sig-storage/csi-provisioner" ]};
     "attacher" := {[ "image" := "registry.k8s.io/sig-storage/csi-attacher" ]} ]}.

(** A checkout in [/repo] with all tools installed and a registry that
    answers. *)
Definition world_ok : world :=
  {| script_dir := Some "/repo/hack/release-scripts";
     env_OUTPUT_FILEPATH := Some "/repo/out.yaml";
     mktemp := Some "/tmp/tmp.k3J9xQ";
     date := "2025-01-01 00:00:00";
     command_v := fun _ => true;
     disk := {[ "/repo/hack/release-scripts/image-digests-template.yaml" := Yaml template ]};
     crane_ls := fun _ => Some ["v5.0.1"; "latest"; "v5.10.0"; "v5.2-latest"];
     crane_digest := fun ref => Some ("sha256:" +:+ ref) |}.

(** The same checkout without [image-digests-template.yaml]: [cp] fails. *)
Definition world_without_template : world :=
  {| script_dir := Some "/repo/hack/release-scripts";
     env_OUTPUT_FILEPATH := Some "/repo/out.yaml";
     mktemp := Some "/tmp/tmp.k3J9xQ";
     date := "2025-01-01 00:00:00";
     command_v := fun _ => true;
     disk := ∅;
     crane_ls := fun _ => Some ["v5.0.1"; "latest"; "v5.10.0"; "v5.2-latest"];
     crane_digest := fun ref => Some ("sha256:" +:+ ref) |}.

(** The checkout of [world_ok] with a blank in the directory of temporary
    files. *)
Definition world_with_blank_tmpdir : world :=
  {| script_dir := Some "/repo/hack/release-scripts";
     env_OUTPUT_FILEPATH := Some "/repo/out.yaml";
     mktemp := Some "/tmp/release files/tmp.k3J9xQ";
     date := "2025-01-01 00:00:00";
     command_v := fun _ => true;
     disk := {[ "/repo/hack/release-scripts/image-digests-template.yaml" := Yaml template ]};
     crane_ls := fun _ => Some ["v5.0.1"; "latest"; "v5.10.0"; "v5.2-latest"];
     crane_digest := fun ref => Some ("sha256:" +:+ ref) |}.

(** An order that is total and transitive: by length. *)
Definition by_length (a b : string) : bool := (String.length a <=? String.length b)%nat.

Definition summary (c : command) : nat * string * Z := (c_line c, c_name c, c_status c).

(** A controller with one recorded result for every call: a value of a
    type that implements no interface of the clientset. *)
Definition stray : Mock.dynamic :=
  {| Mock.type_name := "string"; Mock.implements := fun _ => false |}.

Definition controller_returning (x : Mock.any) : Mock.Controller :=
  {| Mock.Call := fun _ _ => Mock.Returned [x] |}.

(** Zero values of the Kubernetes objects. *)
Definition zero_meta : ObjectMeta.t :=
  {| ObjectMeta.Name := ""; ObjectMeta.Labels := ∅; ObjectMeta.Annotations := ∅ |}.

Definition zero_pod_spec : PodSpec.t :=
  {| PodSpec.Volumes := []; PodSpec.InitContainers := []; PodSpec.Containers := [];
     PodSpec.TerminationGracePeriodSeconds := None; PodSpec.NodeSelector := ∅;
     PodSpec.ServiceAccountName := ""; PodSpec.HostNetwork := false;
     PodSpec.SecurityContext := None; PodSpec.ImagePullSecrets := [];
     PodSpec.Affinity := None; PodSpec.Tolerations := []; PodSpec.PriorityClassName := "";
     PodSpec.DNSConfig := None; PodSpec.TopologySpreadConstraints := [] |}.

Definition zero_template : PodTemplateSpec.t :=
  {| PodTemplateSpec.Meta := zero_meta; PodTemplateSpec.Spec := zero_pod_spec |}.

Definition zero {T : Type} (r : resource T) : T :=
  match r in resource T' return T' with
  | Pods => {| Pod.Meta := zero_meta; Pod.Spec := zero_pod_spec |}
  | Nodes => {| Node.Meta := zero_meta |}
  | Services => {| Service.Meta := zero_meta |}
  | ServiceAccounts => {| ServiceAccount.Meta := zero_meta |}
  | Deployments =>
      {| Deployment.Meta := zero_meta;
         Deployment.Spec := {| DeploymentSpec.Replicas := None;
                               DeploymentSpec.Template := zero_template;
                               DeploymentSpec.StrategyType := "";
                               DeploymentSpec.RevisionHistoryLimit := None |} |}
  | DaemonSets =>
      {| DaemonSet.Meta := zero_meta;
         DaemonSet.Spec := {| DaemonSetSpec.Template := zero_template;
                              DaemonSetSpec.UpdateStrategyType := "";
                              DaemonSetSpec.RevisionHistoryLimit := None |} |}
  | PodDisruptionBudgets => {| PodDisruptionBudget.Meta := zero_meta |}
  | ClusterRoles => {| ClusterRole.Meta := zero_meta; ClusterRole.Rules := [] |}
  | StorageClasses => {| StorageClass.Meta := zero_meta; StorageClass.Parameters := ∅ |}
  | CSIDrivers => {| CSIDriver.Meta := zero_meta; CSIDriver.FSGroupPolicy := None |}
  | Dynamic _ => {| Unstructured.Name := ""; Unstructured.Object := ∅ |}
  end.

(** A cluster in which pod lists answer [pods] and EC2 finds [volumes];
    every other read finds nothing. *)
Definition cluster (pods : list Pod.t) (volumes : list EC2Volume.t) : handler :=
  fun R line e =>
    match e in apiE R return R with
    | K8sGet r _ _ => (zero r, Some "not found")
    | K8sList r _ _ =>
        (match r in resource T return list T with
         | Pods => pods
         | _ => []
         end, None)
    | K8sWrite _ _ _ obj => (obj, Some "forbidden")
    | K8sDelete _ _ _ => Some "forbidden"
    | EC2DescribeVolumes _ => ({| DescribeVolumesOutput.Volumes := volumes |}, None)
    | EC2Other _ _ => Some "unauthorized"
    | LoadDefaultConfig => None
    | TestsuiteRun _ _ => None
    end.

Definition container (name : string) (args : list string) : Container.t :=
  {| Container.Name := name; Container.Image := ""; Container.Args := args;
     Container.Ports := []; Container.Env := [];
     Container.Resources := {| ResourceRequirements.Limits := ∅;
                               ResourceRequirements.Requests := ∅ |};
     Container.VolumeMounts := []; Container.ImagePullPolicy := "";
     Container.SecurityContext := None |}.

Definition pod_of (containers : list Container.t) : Pod.t :=
  {| Pod.Meta := zero_meta;
     Pod.Spec := with_containers zero_pod_spec containers |}.

End Examples.

(** The dynamic type of [x] implements [I]. *)
Definition has_type (x : Mock.any) (I : Mock.iface) : bool :=
  match x with
  | Some d => Mock.implements d I
  | None => false
  end.

(** The target run with [PARAM_SET=name]: the run script once, with a
    focus expression whose words are the tags of [labels], so that among
    the specs of the test file it selects exactly those labelled with one
    of [labels], each of which names a spec. *)
Definition runs_param_set (suite : list ParameterTests.spec) (name : string)
    (labels : list string) : Prop :=
  exists env focus re,
    Makefile.make (Makefile.e2e_parameters (Some name)) = Makefile.Ran [(env, "./hack/e2e/run.sh")] /\
    Makefile.lookup_env "GINKGO_FOCUS" env = Some focus /\
    Makefile.compile focus = Some re /\
    Makefile.lang re = map Makefile.label_tag labels /\
    forallb (fun s => Bool.eqb (Makefile.selects focus (ParameterTests.full_text s))
                        (existsb (String.eqb (ParameterTests.param s)) labels))
      suite = true /\
    forallb (fun l => existsb (fun s => ParameterTests.param s =? l) suite) labels = true.

(** ** Other targets of the Makefile *)

Module Targets.
Import Makefile.

(** A line of the recipe of [e2e/parameters-all]. *)
Inductive all_line :=
| Echo (msg : string)
| SubMake (target : string) (PARAM_SET : string).

(* lines 232-243 *)
Definition e2e_parameters_all : list all_line := [
  Echo "Running all parameter sets sequentially...";
  SubMake "e2e/parameters" "standard";
  SubMake "e2e/parameters" "volume-modification";
  SubMake "e2e/parameters" "node-config";
  SubMake "e2e/parameters" "volume-attach-limit";
  SubMake "e2e/parameters" "storage-classes";
  SubMake "e2e/parameters" "debug";
  SubMake "e2e/parameters" "infra";
  SubMake "e2e/parameters" "update-strategy";
  Echo "All parameter sets completed successfully!" ].

(** The lines run in order, every command succeeding; a sub-make that
    stops with an error stops the whole recipe. *)
Fixpoint run_all (lines : list all_line) : make_result :=
  match lines with
  | [] => Ran []
  | Echo _ :: rest => run_all rest
  | SubMake _ ps :: rest =>
      match make (e2e_parameters (Some ps)) with
      | MakeError msg => MakeError msg
      | Ran cmds =>
          match run_all rest with
          | MakeError msg => MakeError msg
          | Ran cmds' => Ran (cmds ++ cmds')
          end
      end
  end.

(* lines 245-253 *)
Definition e2e_single_az : recipe_line :=
  Command [
    ("AWS_AVAILABILITY_ZONES", "us-west-2a");
    ("TEST_PATH", "./tests/e2e/...");
    ("GINKGO_FOCUS", "\[ebs-csi-e2e\] \[single-az\]");
    ("GINKGO_SKIP", "\[param:");
    ("GINKGO_PARALLEL", "5");
    ("HELM_EXTRA_FLAGS",
     "--set=controller.volumeModificationFeature.enabled=true,sidecars.provisioner.additionalArgs[0]='--feature-gates=VolumeAttributesClass=true',sidecars.resizer.additionalArgs[0]='--feature-gates=VolumeAttributesClass=true',node.enableMetrics=true") ]
    "./hack/e2e/run.sh".

(* lines 255-260 *)
Definition e2e_multi_az : recipe_line :=
  Command [
    ("TEST_PATH", "./tests/e2e/...");
    ("GINKGO_FOCUS", "\[ebs-csi-e2e\] \[multi-az\]");
    ("GINKGO_PARALLEL", "5") ]
    "./hack/e2e/run.sh".

(* lines 262-270 *)
Definition e2e_disruptive : recipe_line :=
  Command [
    ("TEST_PATH", "./tests/e2e/...");
    ("GINKGO_FOCUS", "\[ebs-csi-e2e\] \[Disruptive\]");
    ("GINKGO_SKIP", "\[Flaky\]");
    ("GINKGO_PARALLEL", "1");
    ("EBS_INSTALL_SNAPSHOT", "false");
    ("HELM_EXTRA_FLAGS",
     "--set=sidecars.metadataLabeler.enabled=true,node.metadataSources='metadata-labeler'") ]
    "./hack/e2e/run.sh".

(** Ginkgo runs a spec when its text matches the focus expression and
    does not match the skip expression.  Without a focus in the
    environment the choice is left to [run.sh]. *)
Definition env_selects (env : list (string * string)) (text : string) : option bool :=
  match lookup_env "GINKGO_FOCUS" env with
  | Some focus =>
      Some (selects focus text &&
            match lookup_env "GINKGO_SKIP" env with
            | Some skip => negb (selects skip text)
            | None => true
            end)
  | None => None
  end.

Definition command_selects (cmd : list (string * string) * string) (text : string) : bool :=
  match env_selects (fst cmd) text with
  | Some b => b
  | None => false
  end.

(** The commands of a run of make select the spec, one of them at least. *)
Definition runs (r : make_result) (s : ParameterTests.spec) : bool :=
  match r with
  | Ran cmds => existsb (fun cmd => command_selects cmd (ParameterTests.full_text s)) cmds
  | MakeError _ => false
  end.

Definition line_selects (l : recipe_line) (s : ParameterTests.spec) : option bool :=
  match l with
  | Command env _ => env_selects env (ParameterTests.full_text s)
  | ErrorLine _ => None
  end.

(** How many of the recognized parameter sets run the spec. *)
Definition times_run (s : ParameterTests.spec) : nat :=
  length (filter (fun name => runs (make (e2e_parameters (Some name))) s = true) recognized).

(** The specs of the test file that no parameter set names. *)
Definition unreached : list string := [
  "controllerNodeSelector"; "controllerTolerations"; "controllerServiceAccountName";
  "controllerServiceAccountAnnotations"; "nodeNodeSelector"; "nodeTolerations";
  "nodeServiceAccountName"; "imageRepository"; "controllerAffinity"; "nodeAffinity";
  "controllerAdditionalArgs"; "nodeAdditionalArgs"; "provisionerAdditionalArgs";
  "imagePullSecrets"; "fullnameOverride"; "controllerServiceMonitor"; "nodeServiceMonitor" ].

Definition run_twice : list string :=
  [ "storageClasses"; "volumeSnapshotClasses"; "defaultStorageClass" ].

(** The sets that [e2e/parameters-all] does not pass. *)
Definition left_out : list string := [ "metadata-labeler"; "legacy-compat"; "selinux"; "fips" ].

End Targets.


(** ** The image targets of the Makefile

    [all-image-registry] has one prerequisite [sub-image-<os>-<arch>-<osversion>]
    for every word of [ALL_OS_ARCH_OSVERSION]; the pattern rule
    [sub-image-%] takes the stem apart again with [word-hyphen] and runs a
    sub-make.  The make functions used are modelled on strings: [subst],
    [word], [foreach] and [addprefix]. *)

Module ImageTargets.

(** The characters that separate words for make. *)
Definition is_blank (c : ascii) : bool :=
  Ascii.eqb c " " || Ascii.eqb c "009" || Ascii.eqb c "010"
  || Ascii.eqb c "011" || Ascii.eqb c "012" || Ascii.eqb c "013".

(** The pieces between blanks, empty ones included. *)
Fixpoint split_blank (s : string) : list string :=
  match s with
  | EmptyString => [EmptyString]
  | String c s' =>
      if is_blank c then EmptyString :: split_blank s'
      else match split_blank s' with
           | w :: ws => String c w :: ws
           | [] => [String c EmptyString]
           end
  end.

(** The whitespace-separated words of a text. *)
Definition make_words (s : string) : list string :=
  List.filter (fun w => negb (w =? "")) (split_blank s).

(** [$(subst from,to,text)]; [skip] counts the characters of a match
    still to be dropped. *)
Fixpoint subst_from (from to : string) (skip : nat) (text : string) : string :=
  match text with
  | EmptyString => EmptyString
  | String c rest =>
      match skip with
      | S k => subst_from from to k rest
      | O =>
          if has_prefix from text
          then to +:+ subst_from from to (String.length from - 1) rest
          else String c (subst_from from to 0 rest)
      end
  end.

Definition subst (from to text : string) : string :=
  if from =? "" then text +:+ to else subst_from from to 0 text.

(** [$(word n,text)]: words are counted from 1, a missing word is empty,
    and [n = 0] is a fatal error. *)
Definition word (n : nat) (text : string) : option string :=
  match n with
  | O => None
  | S k => Some (nth k (make_words text) "")
  end.

(** [$(foreach var,list,text)]: [text] is expanded for every word of
    [list] and the expansions are joined by single spaces. *)
Definition foreach (list : string) (text : string -> string) : string :=
  String.concat " " (map text (make_words list)).

(** [$(addprefix prefix,names)] *)
Definition addprefix (prefix names : string) : string :=
  String.concat " " (map (fun name => prefix +:+ name) (make_words names)).

(* line 61: word-hyphen = $(word $2,$(subst -, ,$1)) *)
Definition word_hyphen (text : string) (n : nat) : option string :=
  word n (subst "-" " " text).

(** The variables of lines 44-50, which [?=] lets the caller set. *)
Record variables := {
  ALL_OS : string;
  ALL_ARCH_linux : string;
  ALL_OSVERSION_linux : string;
  ALL_ARCH_windows : string;
  ALL_OSVERSION_windows : string }.

Definition defaults : variables :=
  {| ALL_OS := "linux windows";
     ALL_ARCH_linux := "amd64 arm64";
     ALL_OSVERSION_linux := "al2023";
     ALL_ARCH_windows := "amd64";
     ALL_OSVERSION_windows := "ltsc2019 ltsc2022" |}.

Section Targets.
Context (v : variables).

(* line 47; the blank after each comma belongs to the text *)
Definition ALL_OS_ARCH_OSVERSION_linux : string :=
  foreach (" " +:+ ALL_ARCH_linux v) (fun arch =>
    " " +:+ foreach (" " +:+ ALL_OSVERSION_linux v) (fun osversion =>
      " linux-" +:+ arch +:+ "-" +:+ osversion)).

(* line 51 *)
Definition ALL_OS_ARCH_OSVERSION_windows : string :=
  foreach (" " +:+ ALL_ARCH_windows v) (fun arch =>
    " " +:+ foreach (" " +:+ ALL_OSVERSION_windows v) (fun osversion =>
      " windows-" +:+ arch +:+ "-" +:+ osversion)).

(** [${ALL_OS_ARCH_OSVERSION_${os}}]: the Makefile defines the variable
    for [linux] and for [windows] only. *)
Definition ALL_OS_ARCH_OSVERSION_of (os : string) : string :=
  if os =? "linux" then ALL_OS_ARCH_OSVERSION_linux
  else if os =? "windows" then ALL_OS_ARCH_OSVERSION_windows
  else "".

(* line 52 *)
Definition ALL_OS_ARCH_OSVERSION : string :=
  foreach (" " +:+ ALL_OS v) (fun os => " " +:+ ALL_OS_ARCH_OSVERSION_of os).

(* line 377: the prerequisites of all-image-registry *)
Definition all_image_registry : list string :=
  make_words (addprefix "sub-image-" ALL_OS_ARCH_OSVERSION).

Definition ALL_ARCH (os : string) : string :=
  if os =? "linux" then ALL_ARCH_linux v
  else if os =? "windows" then ALL_ARCH_windows v
  else "".

Definition ALL_OSVERSION (os : string) : string :=
  if os =? "linux" then ALL_OSVERSION_linux v
  else if os =? "windows" then ALL_OSVERSION_windows v
  else "".

End Targets.

Fixpoint drop_chars (n : nat) (s : string) : string :=
  match n, s with
  | S k, String _ s' => drop_chars k s'
  | _, _ => s
  end.

(** A slash that is not the last character of the name. *)
Fixpoint has_inner_slash (s : string) : bool :=
  match s with
  | EmptyString => false
  | String c s' => (Ascii.eqb c "/" && negb (s' =? "")) || has_inner_slash s'
  end.

(** The directory part and the file part of a target name: the name is
    cut after its last slash, not counting a slash at the very end
    ([foo/bar/] is [bar/] in the directory [foo/]). *)
Fixpoint split_dir (s : string) : string * string :=
  match s with
  | EmptyString => (EmptyString, EmptyString)
  | String c s' =>
      if has_inner_slash s
      then let '(d, f) := split_dir s' in (String c d, f)
      else (EmptyString, s)
  end.

(** [$*] for a target built by the rule [sub-image-%].  The pattern has no
    slash, so make takes the directory part off the target before it
    compares the rest with the pattern, and puts it back in front of what
    [%] matched: [dir/sub-image-a] has the stem [dir/a], and a target
    whose file part does not begin with [sub-image-] does not match.
    The stem as a whole is not empty: [sub-image-] has none, while
    [d/sub-image-] has the stem [d/].  ([target] is the name as make
    holds it: a leading [./] is dropped when make reads a name.) *)
Definition stem (target : string) : option string :=
  let '(dir, file) := split_dir target in
  if has_prefix "sub-image-" file
  then match dir +:+ drop_chars 10 file with
       | EmptyString => None
       | s => Some s
       end
  else None.

(* lines 379-380: the recipe line of sub-image-%, expanded *)
Definition sub_image (MAKE target : string) : option string :=
  s ← stem target;
  os ← word_hyphen s 1;
  arch ← word_hyphen s 2;
  osversion ← word_hyphen s 3;
  Some (MAKE +:+ " OS=" +:+ os +:+ " ARCH=" +:+ arch
        +:+ " OSVERSION=" +:+ osversion +:+ " image").

Fixpoint has_char (p : ascii -> bool) (s : string) : bool :=
  match s with
  | EmptyString => false
  | String c s' => p c || has_char p s'
  end.

Definition hyphen_free (s : string) : bool := negb (has_char (Ascii.eqb "-") s).

Definition slash_free (s : string) : bool := negb (has_char (Ascii.eqb "/") s).

(** Letters, digits, dots and underscores. *)
Definition is_plain_char (c : ascii) : bool :=
  let n := nat_of_ascii c in
  ((48 <=? n) && (n <=? 57))%nat || ((65 <=? n) && (n <=? 90))%nat
  || ((97 <=? n) && (n <=? 122))%nat || Ascii.eqb c "." || Ascii.eqb c "_".

Fixpoint all_chars (p : ascii -> bool) (s : string) : bool :=
  match s with
  | EmptyString => true
  | String c s' => p c && all_chars p s'
  end.

(** Every OS, architecture and OS version is named with letters, digits,
    dots and underscores only: no name has a hyphen, a slash or a
    character that make or the shell reads as more than itself. *)
Definition plain_names (v : variables) : Prop :=
  forall w,
    In w (make_words (ALL_OS v)
          ++ make_words (ALL_ARCH_linux v) ++ make_words (ALL_OSVERSION_linux v)
          ++ make_words (ALL_ARCH_windows v) ++ make_words (ALL_OSVERSION_windows v)) ->
    all_chars is_plain_char w = true.

End ImageTargets.


(** ** Further facts about the release script *)

Module ScriptFacts.
Import ReleaseScript ScriptLogic.

(** The two documents have the same sidecar keys, and under each key the
    same fields but for [tag] and [manifestDigest]. *)
Definition same_but_tags (doc0 doc : gmap string (gmap string string)) : Prop :=
  forall key,
    match doc0 !! key, doc !! key with
    | Some fields0, Some fields =>
        forall field, field <> "tag" -> field <> "manifestDigest" ->
                      fields !! field = fields0 !! field
    | None, None => True
    | _, _ => False
    end.

(** What lines 63 and 78 leave under a key: the tag the pipeline printed
    and the digest of [image:tag]. *)
Definition pinned (version_le : string -> string -> bool) (w : world)
    (fields : gmap string string) : Prop :=
  let image := default "null" (fields !! "image") in
  exists tags digest,
    crane_ls w image = Some tags /\
    fields !! "tag" = Some (latest_tag version_le tags) /\
    crane_digest w (image +:+ ":" +:+ latest_tag version_le tags) = Some digest /\
    fields !! "manifestDigest" = Some digest.

(** A name without the characters that start a pattern. *)
Definition glob_free (s : string) : bool :=
  forallb (fun c => negb (is_glob c)) (list_ascii_of_string s).

(** The first of the three tools that [command -v] does not find. *)
Definition first_missing (w : world) : option string :=
  List.find (fun cmd => negb (command_v w cmd)) ["yq"; "git"; "crane"].

(** The value line 25 gives to [OUTPUT_FILEPATH]. *)
Definition output_path (w : world) : option string :=
  dir ← script_dir w;
  let fallback := (dir +:+ "/../..") +:+ "/hack/release-scripts/image-digests.yaml" in
  Some (match env_OUTPUT_FILEPATH w with
        | Some v => if v =? "" then fallback else v
        | None => fallback
        end).

(** While [main] runs the two file names are fixed, and the files under
    every other name are those of [F0]. *)
Record kept (F0 : gmap string content) (out p : string) (s : state) : Prop := {
  kept_out : vars s !! "OUTPUT_FILEPATH" = Some out;
  kept_tmp : vars s !! "tmp_filename" = Some p;
  kept_files : forall q, q <> out -> q <> p -> files s !! q = F0 !! q }.

(** [c] keeps [J], whether it returns or ends the shell. *)
Definition preserves {A} (J : state -> Prop) (c : Sh A) : Prop :=
  forall s, J s -> wp c (fun _ s' => J s') (fun _ s' => J s') s.

(** How the script can end, before the [EXIT] trap: before line 53 with
    the files as they were, or later with only its two files changed. *)
Definition ended (w : world) (s : state) : Prop :=
  (exit_trap s = None /\ files s = disk w) \/
  (exists out p, output_path w = Some out /\ mktemp w = Some p /\ kept (disk w) out p s).

End ScriptFacts.


(** ** Further concrete inputs *)

Module EdgeWorlds.
Import ReleaseScript.

(** The checkout of [Examples.world_ok] against a registry that lists only
    the tag [latest]. *)
Definition world_only_latest : world :=
  {| script_dir := Some "/repo/hack/release-scripts";
     env_OUTPUT_FILEPATH := Some "/repo/out.yaml";
     mktemp := Some "/tmp/tmp.k3J9xQ";
     date := "2025-01-01 00:00:00";
     command_v := fun _ => true;
     disk := {[ "/repo/hack/release-scripts/image-digests-template.yaml"
                  := Yaml Examples.template ]};
     crane_ls := fun _ => Some ["latest"];
     crane_digest := fun ref => Some ("sha256:" +:+ ref) |}.

(** The checkout of [Examples.world_ok] on a machine without [crane]. *)
Definition world_without_crane : world :=
  {| script_dir := Some "/repo/hack/release-scripts";
     env_OUTPUT_FILEPATH := Some "/repo/out.yaml";
     mktemp := Some "/tmp/tmp.k3J9xQ";
     date := "2025-01-01 00:00:00";
     command_v := fun cmd => negb (cmd =? "crane");
     disk := {[ "/repo/hack/release-scripts/image-digests-template.yaml"
                  := Yaml Examples.template ]};
     crane_ls := fun _ => Some ["v5.0.1"; "latest"; "v5.10.0"; "v5.2-latest"];
     crane_digest := fun ref => Some ("sha256:" +:+ ref) |}.

(** A template in which one sidecar key has a blank: the words of that key
    are keys themselves. *)
Definition template_with_blank_key : gmap string (gmap string string) :=
  {[ "provisioner" := {[ "image" := "registry.k8s.io/sig-storage/csi-provisioner" ]};
     "attacher" := {[ "image" := "registry.k8s.io/sig-storage/csi-attacher" ]};
     "attacher provisioner" := {[ "image" := "registry.k8s.io/sig-storage/csi-both" ]} ]}.

(** The checkout of [Examples.world_ok] with that template. *)
Definition world_with_blank_key : world :=
  {| script_dir := Some "/repo/hack/release-scripts";
     env_OUTPUT_FILEPATH := Some "/repo/out.yaml";
     mktemp := Some "/tmp/tmp.k3J9xQ";
     date := "2025-01-01 00:00:00";
     command_v := fun _ => true;
     disk := {[ "/repo/hack/release-scripts/image-digests-template.yaml"
                  := Yaml template_with_blank_key ]};
     crane_ls := fun _ => Some ["v5.0.1"; "latest"; "v5.10.0"; "v5.2-latest"];
     crane_digest := fun ref => Some ("sha256:" +:+ ref) |}.

End EdgeWorlds.


(** ** Further facts about the parameter tests *)

Module SpecFacts.
Import ParameterTests.

(** However the requests of [t] are answered within [ok], a verdict that
    unwinds [t] satisfies [P]. *)
Inductive Unwinds (ok : forall R : Type, apiE R -> R -> Prop) (P : verdict -> Prop)
    {A : Type} : Test A -> Prop :=
| Unwinds_Ret (a : A) : Unwinds ok P (Ret a)
| Unwinds_Halt (v : verdict) : P v -> Unwinds ok P (Halt v)
| Unwinds_Vis {R : Type} (line : nat) (e : apiE R) (k : R -> Test A) :
    (forall r, ok R e r -> Unwinds ok P (k r)) -> Unwinds ok P (Vis line e k).

Definition check_ends (P : verdict -> Prop) {A} (c : Check A) : Prop :=
  match c with
  | Ok _ => True
  | Stop v => P v
  end.

Definition ends_with (P : verdict -> Prop) {A} (o : A + verdict) : Prop :=
  match o with
  | inl _ => True
  | inr v => P v
  end.

(** [test.Run], whose body is in another package, reports only verdicts
    in [Q]; every other request may be answered in any way. *)
Definition run_reports (Q : verdict -> Prop) : forall R : Type, apiE R -> R -> Prop :=
  fun R e =>
    match e in apiE R return R -> Prop with
    | TestsuiteRun _ _ => fun r => match r with
                                   | Some v => Q v
                                   | None => True
                                   end
    | _ => fun _ => True
    end.

Definition answers (h : handler) (ok : forall R : Type, apiE R -> R -> Prop) : Prop :=
  forall R line (e : apiE R), ok R e (h R line e).

Definition no_panic (v : verdict) : Prop :=
  match v with
  | Panicked _ => False
  | _ => True
  end.

Definition no_skip (v : verdict) : Prop :=
  match v with
  | Skipped _ _ => False
  | _ => True
  end.

(** The dereferences no assertion guards: [*deploy.Spec.Replicas],
    [*...SecurityContext.RunAsNonRoot] and
    [*c.SecurityContext.ReadOnlyRootFilesystem]. *)
Definition panic_sites : list (string * nat) :=
  [ ("controllerReplicaCount", 1533);
    ("controllerSecurityContext", 2008);
    ("controllerContainerSecurityContext", 2033) ].

(** The calls of [Skip]. *)
Definition skip_sites : list (string * nat) :=
  [ ("volumeSnapshotClasses", 831);
    ("controllerEnablePrometheusAnnotations", 1227);
    ("nodeEnablePrometheusAnnotations", 1247) ].

Definition panics_at (sites : list (string * nat)) (p : string) (v : verdict) : Prop :=
  match v with
  | Panicked l => In (p, l) sites
  | _ => True
  end.

Definition skips_at (sites : list (string * nat)) (p : string) (v : verdict) : Prop :=
  match v with
  | Skipped l _ => In (p, l) sites
  | _ => True
  end.

(** The container names the specs look for. *)
Definition sidecars : list string :=
  [ "ebs-plugin"; "csi-provisioner"; "csi-attacher"; "csi-snapshotter"; "csi-resizer";
    "node-driver-registrar"; "volumemodifier"; "metadata-labeler"; "liveness-probe" ].

Definition no_sidecar (containers : list Container.t) : Prop :=
  Forall (fun c => ~ In (Container.Name c) sidecars) containers.

(** The specs that list pods and assert only inside
    [if container.Name == ...]. *)
Definition lenient : list string :=
  [ "batching"; "controllerLoggingFormat"; "nodeLoggingFormat";
    "controllerLogLevel"; "nodeLogLevel"; "provisionerLogLevel"; "attacherLogLevel";
    "snapshotterLogLevel"; "resizerLogLevel"; "nodeDriverRegistrarLogLevel";
    "volumemodifierLogLevel"; "metadataLabelerLogLevel";
    "reservedVolumeAttachments"; "volumeAttachLimit"; "debugLogs"; "sdkDebugLog";
    "legacyXFS"; "selinux"; "fips"; "controllerUserAgentExtra"; "nodeKubeletPath";
    "provisionerLeaderElection"; "attacherLeaderElection"; "resizerLeaderElection";
    "volumemodifierLeaderElection" ].

(** Every pod list is answered without error by a non-empty list of pods
    none of whose containers has one of the names looked for. *)
Definition pods_without_sidecars (h : handler) : Prop :=
  forall line selector,
    exists pods,
      h _ line (kube_pods selector) = (pods, None) /\
      pods <> [] /\
      Forall (fun pod => no_sidecar (PodSpec.Containers (Pod.Spec pod))) pods.

(** The calls of [Fail]: spec, line and container name. *)
Definition not_found_sites : list (string * (nat * string)) :=
  [ ("controllerResources", (1591, "ebs-plugin"));
    ("nodeResources", (1716, "ebs-plugin"));
    ("provisionerResources", (1778, "csi-provisioner"));
    ("attacherResources", (1795, "csi-attacher"));
    ("snapshotterResources", (1812, "csi-snapshotter"));
    ("resizerResources", (1829, "csi-resizer"));
    ("nodeDriverRegistrarResources", (1846, "node-driver-registrar"));
    ("livenessProbeResources", (1863, "liveness-probe"));
    ("imageRepository", (1880, "ebs-plugin"));
    ("imagePullPolicy", (1897, "ebs-plugin"));
    ("controllerEnv", (1936, "ebs-plugin"));
    ("nodeEnv", (1960, "ebs-plugin"));
    ("controllerContainerSecurityContext", (2037, "ebs-plugin"));
    ("controllerVolumeMounts", (2101, "ebs-plugin"));
    ("nodeVolumeMounts", (2143, "ebs-plugin"));
    ("controllerAdditionalArgs", (2167, "ebs-plugin"));
    ("nodeAdditionalArgs", (2191, "ebs-plugin"));
    ("provisionerAdditionalArgs", (2215, "csi-provisioner")) ].

Definition not_found_site (p : string) : option (nat * string) :=
  snd <$> List.find (fun site => fst site =? p) not_found_sites.

(** The controller Deployment and the node DaemonSet are found, and no
    container of their pod templates has one of the names looked for. *)
Definition workloads_without_sidecars (h : handler) : Prop :=
  (forall line, exists deploy,
     h _ line (K8sGet Deployments (Some "kube-system") "ebs-csi-controller")
       = (deploy, None) /\
     no_sidecar (PodSpec.Containers (deploy_pod deploy))) /\
  (forall line, exists ds,
     h _ line (K8sGet DaemonSets (Some "kube-system") "ebs-csi-node") = (ds, None) /\
     no_sidecar (PodSpec.Containers (ds_pod ds))).

End SpecFacts.

(** ** Further clusters *)

Module EdgeClusters.

Definition get_workload (deploy : Deployment.t) (ds : DaemonSet.t) {T : Type}
    (r : resource T) : T * error :=
  match r in resource T' return T' * error with
  | Deployments => (deploy, None)
  | DaemonSets => (ds, None)
  | Pods => (Examples.zero Pods, Some "not found")
  | Nodes => (Examples.zero Nodes, Some "not found")
  | Services => (Examples.zero Services, Some "not found")
  | ServiceAccounts => (Examples.zero ServiceAccounts, Some "not found")
  | PodDisruptionBudgets => (Examples.zero PodDisruptionBudgets, Some "not found")
  | ClusterRoles => (Examples.zero ClusterRoles, Some "not found")
  | StorageClasses => (Examples.zero StorageClasses, Some "not found")
  | CSIDrivers => (Examples.zero CSIDrivers, Some "not found")
  | Dynamic gvr => (Examples.zero (Dynamic gvr), Some "not found")
  end.

(** The cluster [Examples.cluster pods []] in which the controller
    Deployment and the node DaemonSet are found. *)
Definition workloads (pods : list Pod.t) (deploy : Deployment.t) (ds : DaemonSet.t)
    : handler :=
  fun R line e =>
    match e in apiE R return R with
    | K8sGet r _ _ => get_workload deploy ds r
    | K8sList r _ _ =>
        (match r in resource T return list T with
         | Pods => pods
         | _ => []
         end, None)
    | K8sWrite _ _ _ obj => (obj, Some "forbidden")
    | K8sDelete _ _ _ => Some "forbidden"
    | EC2DescribeVolumes _ => ({| DescribeVolumesOutput.Volumes := [] |}, None)
    | EC2Other _ _ => Some "unauthorized"
    | LoadDefaultConfig => None
    | TestsuiteRun _ _ => None
    end.

(** An API server that refuses every request. *)
Definition down : handler :=
  fun R line e =>
    match e in apiE R return R with
    | K8sGet r _ _ => (Examples.zero r, Some "connection refused")
    | K8sList _ _ _ => ([], Some "connection refused")
    | K8sWrite _ _ _ obj => (obj, Some "connection refused")
    | K8sDelete _ _ _ => Some "connection refused"
    | EC2DescribeVolumes _ => ({| DescribeVolumesOutput.Volumes := [] |}, None)
    | EC2Other _ _ => None
    | LoadDefaultConfig => None
    | TestsuiteRun _ _ => None
    end.

Definition deployment_of (replicas : option Z) (spec : PodSpec.t) : Deployment.t :=
  {| Deployment.Meta := Examples.zero_meta;
     Deployment.Spec :=
       {| DeploymentSpec.Replicas := replicas;
          DeploymentSpec.Template := {| PodTemplateSpec.Meta := Examples.zero_meta;
                                        PodTemplateSpec.Spec := spec |};
          DeploymentSpec.StrategyType := "";
          DeploymentSpec.RevisionHistoryLimit := None |} |}.

(** A pod security context that leaves [runAsNonRoot] unset. *)
Definition pod_with_security_context : PodSpec.t :=
  {| PodSpec.Volumes := []; PodSpec.InitContainers := []; PodSpec.Containers := [];
     PodSpec.TerminationGracePeriodSeconds := None; PodSpec.NodeSelector := ∅;
     PodSpec.ServiceAccountName := ""; PodSpec.HostNetwork := false;
     PodSpec.SecurityContext :=
       Some {| PodSecurityContext.SELinuxOptions := None;
               PodSecurityContext.RunAsNonRoot := None |};
     PodSpec.ImagePullSecrets := [];
     PodSpec.Affinity := None; PodSpec.Tolerations := []; PodSpec.PriorityClassName := "";
     PodSpec.DNSConfig := None; PodSpec.TopologySpreadConstraints := [] |}.

(** An [ebs-plugin] container whose security context leaves
    [readOnlyRootFilesystem] unset. *)
Definition plugin_with_security_context : Container.t :=
  {| Container.Name := "ebs-plugin"; Container.Image := ""; Container.Args := [];
     Container.Ports := []; Container.Env := [];
     Container.Resources := {| ResourceRequirements.Limits := ∅;
                               ResourceRequirements.Requests := ∅ |};
     Container.VolumeMounts := []; Container.ImagePullPolicy := "";
     Container.SecurityContext :=
       Some {| SecurityContext.ReadOnlyRootFilesystem := None |} |}.

(** For each unguarded dereference a cluster that reaches it. *)
Definition panicking (p : string) : handler :=
  let ds := Examples.zero DaemonSets in
  if p =? "controllerSecurityContext" then
    workloads [] (deployment_of (Some 3%Z) pod_with_security_context) ds
  else if p =? "controllerContainerSecurityContext" then
    workloads []
      (deployment_of (Some 3%Z)
         (with_containers Examples.zero_pod_spec [plugin_with_security_context])) ds
  else
    workloads [] (deployment_of None Examples.zero_pod_spec) ds.

(** Values for what the test file takes from other packages, and a test
    namespace. *)
Definition sample_externals : ParameterTests.externals :=
  {| ParameterTests.VolumeTypeKey := "type";
     ParameterTests.FSTypeKey := "csi.storage.k8s.io/fstype";
     ParameterTests.VolumeTypeGP3 := "gp3";
     ParameterTests.FSTypeExt4 := "ext4";
     ParameterTests.MinimumSizeForVolumeType := fun _ => "1Gi";
     ParameterTests.DefaultGeneratedVolumeMount := "/mnt/test";
     ParameterTests.PodCmdWriteToVolume := fun dir => "echo hello > " +:+ dir +:+ "/data" |}.

Definition sample_namespace : Namespace.t := {| Namespace.Name := "ebs-e2e" |}.

(** A cluster whose pods run one container that no spec looks for. *)
Definition other_pods : handler :=
  Examples.cluster [Examples.pod_of [Examples.container "aws-node" []]] [].

(** A cluster whose controller Deployment and node DaemonSet have an empty
    pod template. *)
Definition empty_workloads : handler :=
  workloads [] (deployment_of (Some 2%Z) Examples.zero_pod_spec) (Examples.zero DaemonSets).

End EdgeClusters.


(** ** Errors returned to a spec *)

Module ErrorFacts.

(** The Go [error] among the results of a request; [test.Run] returns
    none (it unwinds the spec itself). *)
Definition answer_error {R : Type} (e : apiE R) : R -> error :=
  match e in apiE R return R -> error with
  | K8sGet _ _ _ => snd
  | K8sList _ _ _ => snd
  | K8sWrite _ _ _ _ => snd
  | K8sDelete _ _ _ => id
  | EC2DescribeVolumes _ => snd
  | EC2Other _ _ => id
  | LoadDefaultConfig => id
  | TestsuiteRun _ _ => fun _ => None
  end.

(** The request of [ev] was answered with an error. *)
Definition errored (h : handler) (ev : event) : Prop :=
  is_Some (answer_error (ev_call ev) (h (ev_type ev) (ev_line ev) (ev_call ev))).

(** [t] is unwound whatever is answered to its requests. *)
Inductive Stops {A : Type} : Test A -> Prop :=
| Stops_Halt (v : verdict) : Stops (Halt v)
| Stops_Vis {R : Type} (line : nat) (e : apiE R) (k : R -> Test A) :
    (forall r, Stops (k r)) -> Stops (Vis line e k).

(** After every request of [t] that is answered with an error, [t] is
    unwound. *)
Inductive Heeds {A : Type} : Test A -> Prop :=
| Heeds_Ret (a : A) : Heeds (Ret a)
| Heeds_Halt (v : verdict) : Heeds (Halt v)
| Heeds_Vis {R : Type} (line : nat) (e : apiE R) (k : R -> Test A) :
    (forall r, Heeds (k r)) ->
    (forall r, is_Some (answer_error e r) -> Stops (k r)) ->
    Heeds (Vis line e k).

End ErrorFacts.


(** ** Further controllers *)

Module EdgeControllers.

(** A controller whose recorded call returns nothing ([Return()] without
    values). *)
Definition returning_nothing : Mock.Controller :=
  {| Mock.Call := fun _ _ => Mock.Returned [] |}.

End EdgeControllers.


(** ** Running bodies: basic equations *)

Lemma run_bind {A B} (h : handler) (m : Test A) (f : A -> Test B) :
  run h (m ≫= f) =
  match run h m with
  | (tr, inl a) => let '(tr', out) := run h (f a) in (tr ++ tr', out)
  | (tr, inr v) => (tr, inr v)
  end.
Proof.
  unfold mbind, Test_bind.
  induction m as [a | v | R line e k IH]; simpl.
  - destruct (run h (f a)); reflexivity.
  - reflexivity.
  - rewrite IH. destruct (run h (k (h R line e))) as [tr [a | v]].
    + destruct (run h (f a)); reflexivity.
    + reflexivity.
Qed.

Lemma run_pure {A} (h : handler) (c : Check A) :
  run h (pure c) = ([], match c with Ok a => inl a | Stop v => inr v end).
Proof. destruct c; reflexivity. Qed.

Lemma string_eqb_true (a b : string) : (a =? b) = true <-> a = b.
Proof. apply String.eqb_eq. Qed.

Lemma existsb_In {A} (p : A -> bool) (l : list A) :
  existsb p l = true <-> exists x, In x l /\ p x = true.
Proof. apply existsb_exists. Qed.

(** ** The [debugLogs] spec *)

Lemma range_ok {A} (l : list A) (body : A -> Check unit) :
  range l body = Ok tt <-> forall x, In x l -> body x = Ok tt.
Proof.
  induction l as [| x l IH]; simpl.
  - split; [intros _ y [] | reflexivity].
  - unfold mbind, Check_bind. destruct (body x) as [[] | v] eqn:E.
    + rewrite IH. split.
      * intros H y [<- | Hy]; [exact E | auto].
      * intros H y Hy. apply H. now right.
    + split; [discriminate |].
      intros H. specialize (H x (or_introl eq_refl)). congruence.
Qed.

Lemma range_ext {A B} (f : A -> B) (l : list A) (body : B -> Check unit) :
  range (map f l) body = range l (fun x => body (f x)).
Proof.
  induction l as [| x l IH]; simpl; [reflexivity |].
  unfold mbind, Check_bind. destruct (body (f x)); [apply IH | reflexivity].
Qed.

Lemma range_congr {A} (l : list A) (b1 b2 : A -> Check unit) :
  (forall x, In x l -> b1 x = b2 x) -> range l b1 = range l b2.
Proof.
  induction l as [| x l IH]; simpl; intros H; [reflexivity |].
  rewrite (H x (or_introl eq_refl)). unfold mbind, Check_bind.
  destruct (b2 x); [| reflexivity]. apply IH. intros y Hy. apply H. now right.
Qed.

Lemma has_v7_spec (container : Container.t) :
  existsb (fun arg => (arg =? "-v=7") || (arg =? "--v=7")) (Container.Args container) = true
  <-> has_v7 container.
Proof.
  rewrite existsb_In. unfold has_v7. split; intros (arg & Hin & H); exists arg; split; auto.
  - apply orb_true_iff in H. now rewrite !string_eqb_true in H.
  - apply orb_true_iff. now rewrite !string_eqb_true.
Qed.

Lemma debugLogs_checks_ok (pods : list Pod.t) :
  debugLogs_checks pods = Ok tt <->
  forall pod container,
    In pod pods -> In container (PodSpec.Containers (Pod.Spec pod)) ->
    Container.Name container = "ebs-plugin" -> has_v7 container.
Proof.
  unfold debugLogs_checks. rewrite range_ok. split.
  - intros H pod container Hp Hc Hn. specialize (H pod Hp).
    rewrite range_ok in H. specialize (H container Hc).
    apply string_eqb_true in Hn. rewrite Hn in H. unfold Expect in H.
    apply has_v7_spec. destruct (existsb _ _); [reflexivity | discriminate].
  - intros H pod Hp. apply range_ok. intros container Hc.
    destruct (Container.Name container =? "ebs-plugin") eqn:E; [| reflexivity].
    apply string_eqb_true in E. pose proof (H pod container Hp Hc E) as Hv.
    apply has_v7_spec in Hv. unfold Expect. now rewrite Hv.
Qed.

Lemma debugLogs_checks_rewrite (g : Container.t -> list string) (pods : list Pod.t) :
  debugLogs_checks (map (rewrite_pod g) pods) = debugLogs_checks pods.
Proof.
  unfold debugLogs_checks. rewrite range_ext. apply range_congr. intros pod _.
  simpl. rewrite range_ext. apply range_congr. intros c _.
  unfold rewrite_other_args. destruct (Container.Name c =? "ebs-plugin") eqn:E.
  - now rewrite E.
  - simpl. now rewrite E.
Qed.

Lemma run_debugLogs (h : handler) :
  run h ParameterTests.It_debugLogs =
  let '(pods, err) := h _ 971 debugLogs_request in
  ([Event 971 debugLogs_request],
   match err with
   | Some _ => inr (Failed 974 "")
   | None =>
       match pods with
       | [] => inr (Failed 975 "")
       | _ :: _ => match debugLogs_checks pods with Ok a => inl a | Stop v => inr v end
       end
   end).
Proof.
  unfold ParameterTests.It_debugLogs. simpl. fold debugLogs_request.
  destruct (h _ 971 debugLogs_request) as [pods [e |]]; simpl; [reflexivity |].
  destruct pods as [| pod pods]; [reflexivity |].
  cbn [BeEmpty negb Expect pure Test_bind_fix].
  change (range (pod :: pods) _) with (debugLogs_checks (pod :: pods)).
  destruct (debugLogs_checks (pod :: pods)) as [[] | v]; reflexivity.
Qed.

(** C8. The [param:debugLogs] spec ("should have maximum verbosity in all
    containers") issues the one pod list for [app=ebs-csi-controller] in
    [kube-system].  It passes exactly when that list succeeds, is not
    empty, and every container named [ebs-plugin] of every listed pod has
    the argument [-v=7] or [--v=7]; replacing the arguments of all
    containers with another name leaves the outcome unchanged. *)
Theorem debugLogs_inspects_only_ebs_plugin (h : handler) :
  let '(pods, err) := h _ 971 debugLogs_request in
  trace h ParameterTests.It_debugLogs = [Event 971 debugLogs_request] /\
  (passes h ParameterTests.It_debugLogs <->
     err = None /\ pods <> [] /\
     forall pod container,
       In pod pods -> In container (PodSpec.Containers (Pod.Spec pod)) ->
       Container.Name container = "ebs-plugin" -> has_v7 container) /\
  (forall (g : Container.t -> list string) (h' : handler),
     h' _ 971 debugLogs_request = (map (rewrite_pod g) pods, err) ->
     outcome h' ParameterTests.It_debugLogs = outcome h ParameterTests.It_debugLogs).
Proof.
  unfold passes, trace, outcome.
  pose proof (run_debugLogs h) as Hrun.
  destruct (h _ 971 debugLogs_request) as [pods err] eqn:Hh.
  rewrite Hrun. cbn [fst snd]. split; [reflexivity |]. split.
  - destruct err as [e |].
    + split; [discriminate | intros [? _]; discriminate].
    + destruct pods as [| pod pods].
      * split; [discriminate | intros (_ & H & _); now destruct H].
      * rewrite <- debugLogs_checks_ok.
        destruct (debugLogs_checks (pod :: pods)) as [[] | v].
        -- split; [intros _; repeat split; discriminate | reflexivity].
        -- split; [discriminate | intros (_ & _ & H); discriminate].
  - intros g h' Hh'. rewrite (run_debugLogs h'), Hh'. cbn [snd].
    destruct err; [reflexivity |].
    destruct pods as [| pod pods]; [reflexivity |].
    change (rewrite_pod g pod :: map (rewrite_pod g) pods)
      with (map (rewrite_pod g) (pod :: pods)).
    rewrite debugLogs_checks_rewrite.
    destruct (map (rewrite_pod g) (pod :: pods)) eqn:E; [discriminate | reflexivity].
Qed.

(** ** The AWS tag validations *)

Lemma run_call {R} (h : handler) (line : nat) (e : apiE R) :
  run h (call line e) = ([Event line e], inl (h R line e)).
Proof. reflexivity. Qed.

Lemma validation_shape (h : handler) (line l1 l2 : nat) (f : Filter.t) (m1 m2 : string) :
  has_prefix "tag:" (Filter.Name f) = true ->
  validates_by_tag h
    ('(result, err) ← call line (describe_by f);
     pure (Expect l1 (negb (HaveOccurred err)) m1) ;;
     pure (Expect l2 (1 <=? length (DescribeVolumesOutput.Volumes result))%nat m2)).
Proof.
  intros Hf. exists line, f. unfold trace, passes, outcome.
  rewrite run_bind, run_call.
  destruct (h _ line (describe_by f)) as [result err].
  rewrite run_bind, !run_pure. cbn [fst snd app].
  split; [now destruct err, (1 <=? _)%nat |]. split; [exact Hf |].
  destruct err as [e |]; cbn [HaveOccurred negb Expect].
  - split; [discriminate | intros [? _]; discriminate].
  - destruct (1 <=? length (DescribeVolumesOutput.Volumes result))%nat eqn:E;
      cbn [snd].
    + apply Nat.leb_le in E. split; [intros _; split; [reflexivity | exact E] | reflexivity].
    + apply Nat.leb_gt in E. split; [discriminate | intros [_ ?]; lia].
Qed.

(** C1. The specs that hand a validation closure to [test.Run] are the
    three AWS tag specs (extraCreateMetadata, k8sTagClusterId,
    extraVolumeTags); each closure calls [DescribeVolumes] once, with
    exactly one filter, a [tag:] filter, and passes if and only if the call
    returns no error and at least one volume. *)
Theorem tag_validation_describe_volumes
    (ext : ParameterTests.externals) (ns : Namespace.t) (h : handler) :
  map ParameterTests.param
    (filter (fun s => is_Some (ParameterTests.validate s)) (ParameterTests.suite ext ns))
    = ["extraCreateMetadata"; "k8sTagClusterId"; "extraVolumeTags"] /\
  omap ParameterTests.validate (ParameterTests.suite ext ns) = tag_validations ns /\
  Forall (validates_by_tag h) (tag_validations ns).
Proof.
  split; [reflexivity |]. split; [reflexivity |].
  repeat constructor; apply validation_shape; reflexivity.
Qed.

(** ** Properties of every code unit of the test file *)

Lemma AllCalls_trace (P : forall R : Type, nat -> apiE R -> Prop) {A} (t : Test A) :
  AllCalls P t ->
  forall h, Forall (fun ev => P (ev_type ev) (ev_line ev) (ev_call ev)) (trace h t).
Proof.
  intros Ht h. unfold trace. induction Ht as [a | v | R line e k HP _ IH]; simpl.
  - constructor.
  - constructor.
  - specialize (IH (h R line e)). destruct (run h (k (h R line e))) as [tr out].
    simpl in *. constructor; assumption.
Qed.

Lemma AllCalls_bind (P : forall R : Type, nat -> apiE R -> Prop) {A B}
    (m : Test A) (f : A -> Test B) :
  AllCalls P m -> (forall a, AllCalls P (f a)) -> AllCalls P (m ≫= f).
Proof.
  intros Hm Hf. unfold mbind, Test_bind.
  induction Hm as [a | v | R line e k HP _ IH]; simpl.
  - apply Hf.
  - constructor.
  - constructor; assumption.
Qed.

Lemma AllCalls_pure (P : forall R : Type, nat -> apiE R -> Prop) {A} (c : Check A) :
  AllCalls P (pure c).
Proof. destruct c; constructor. Qed.

Lemma AllCalls_call (P : forall R : Type, nat -> apiE R -> Prop) {R}
    (line : nat) (e : apiE R) :
  P R line e -> AllCalls P (call line e).
Proof. intros HP. constructor; [exact HP | intros r; constructor]. Qed.

Lemma Linear_bind {A B} (s1 s2 : list nat) (m : Test A) (f : A -> Test B) :
  Linear s1 m -> (forall a, Linear s2 (f a)) -> Linear (s1 ++ s2) (m ≫= f).
Proof.
  intros Hm Hf. unfold mbind, Test_bind.
  induction Hm as [a | s v | R line s e k _ IH]; simpl.
  - apply Hf.
  - constructor.
  - constructor. exact IH.
Qed.

Lemma Linear_pure {A} (c : Check A) : Linear [] (pure c).
Proof. destruct c; constructor. Qed.

Lemma Linear_call {R} (line : nat) (e : apiE R) : Linear [line] (call line e).
Proof. constructor. intros r. constructor. Qed.

Lemma Linear_trace {A} (sites : list nat) (t : Test A) :
  Linear sites t ->
  forall h, lines_of (trace h t) `prefix_of` sites /\
            (forall a, outcome h t = inl a -> lines_of (trace h t) = sites).
Proof.
  intros Ht h. unfold trace, outcome, lines_of.
  induction Ht as [a | s v | R line s e k _ IH]; simpl.
  - split; [apply prefix_nil | reflexivity].
  - split; [apply prefix_nil | discriminate].
  - specialize (IH (h R line e)). destruct (run h (k (h R line e))) as [tr out].
    simpl in *. destruct IH as [Hp He]. split.
    + now apply prefix_cons.
    + intros a Ha. f_equal. eauto.
Qed.

Ltac head_of t :=
  lazymatch t with
  | ?f _ => head_of f
  | _ => t
  end.

(** One step of the structural analysis of a spec body. *)
Ltac body_step bind_lemma pure_lemma call_lemma leaf :=
  lazymatch goal with
  | |- _ (mbind _ _) => apply bind_lemma; [| intros ?]
  | |- _ (pure _) => apply pure_lemma
  | |- _ (call _ _) => apply call_lemma; leaf
  | |- _ (Ret _) => constructor
  | |- _ (Halt _) => constructor
  | |- _ (match ?x with _ => _ end) => destruct x
  | |- _ ?t => let hd := head_of t in unfold hd; cbv beta zeta
  end.

Ltac all_calls leaf :=
  repeat body_step AllCalls_bind AllCalls_pure AllCalls_call leaf.

Ltac linear :=
  repeat body_step @Linear_bind @Linear_pure @Linear_call idtac.

Lemma read_only_Get {O} (r : resource O) (name : string) (line : nat) (ns : option string) :
  ns = None \/ ns = Some "kube-system" ->
  read_only_kube_system _ line (K8sGet r ns name).
Proof. intros [-> | ->]; split; simpl; auto. Qed.

Lemma suite_read_only (ext : ParameterTests.externals) (ns : Namespace.t) :
  Forall (AllCalls read_only_kube_system) (units (ParameterTests.suite ext ns)).
Proof.
  unfold units. apply Forall_app. split.
  - apply Forall_map. unfold ParameterTests.suite.
    repeat (apply List.Forall_cons; [cbn [ParameterTests.body ParameterTests.It] |]);
      [.. | apply List.Forall_nil];
      all_calls ltac:(split; simpl; auto).
  - change (omap ParameterTests.validate (ParameterTests.suite ext ns))
      with (tag_validations ns).
    unfold tag_validations.
    repeat (apply List.Forall_cons; [|]); [.. | apply List.Forall_nil];
      all_calls ltac:(split; simpl; auto).
Qed.

Lemma suite_tag_filters (ext : ParameterTests.externals) (ns : Namespace.t) :
  Forall (AllCalls describe_volumes_by_tag) (units (ParameterTests.suite ext ns)).
Proof.
  unfold units. apply Forall_app. split.
  - apply Forall_map. unfold ParameterTests.suite.
    repeat (apply List.Forall_cons; [cbn [ParameterTests.body ParameterTests.It] |]);
      [.. | apply List.Forall_nil];
      all_calls ltac:(exact I).
  - change (omap ParameterTests.validate (ParameterTests.suite ext ns))
      with (tag_validations ns).
    unfold tag_validations.
    repeat (apply List.Forall_cons; [|]); [.. | apply List.Forall_nil];
      all_calls ltac:(split; [reflexivity | repeat constructor]).
Qed.

Lemma suite_linear (ext : ParameterTests.externals) (ns : Namespace.t) :
  Forall (fun t => exists sites, increasing sites = true /\ Linear sites t)
    (units (ParameterTests.suite ext ns)).
Proof.
  unfold units. apply Forall_app. split.
  - apply Forall_map. unfold ParameterTests.suite.
    repeat (apply List.Forall_cons; [cbn [ParameterTests.body ParameterTests.It] |]);
      [.. | apply List.Forall_nil];
      (eexists; split; [| linear]; reflexivity).
  - change (omap ParameterTests.validate (ParameterTests.suite ext ns))
      with (tag_validations ns).
    unfold tag_validations.
    repeat (apply List.Forall_cons; [|]); [.. | apply List.Forall_nil];
      (eexists; split; [| linear]; reflexivity).
Qed.

(** C2. Whatever the cluster answers, every request that a spec body or a
    validation closure of the parameter test file issues is, when it is a
    Kubernetes request, a [Get] or a [List] (never Create, Update, Patch or
    Delete), and, when it names a namespace, names [kube-system]. *)
Theorem kubernetes_calls_read_only_kube_system
    (ext : ParameterTests.externals) (ns : Namespace.t) (h : handler) :
  Forall (fun t =>
            Forall (fun ev => read_only_kube_system (ev_type ev) (ev_line ev) (ev_call ev))
              (trace h t))
    (units (ParameterTests.suite ext ns)).
Proof.
  eapply Forall_impl; [apply suite_read_only |].
  intros t Ht. now apply AllCalls_trace.
Qed.

(** ** The release script: rules of the shell monad *)

Module ScriptRules.
Import ReleaseScript ScriptLogic.

Lemma wp_ret {A} (a : A) Q E s : Q a s -> wp (mret a) Q E s.
Proof. exact (fun H => H). Qed.

Lemma wp_bind {A B} (m : Sh A) (f : A -> Sh B) Q E s :
  wp m (fun a s' => wp (f a) Q E s') E s -> wp (m ≫= f) Q E s.
Proof.
  unfold wp, mbind, Sh_bind. destruct (m s) as [[a | n] s']; auto.
Qed.

Lemma wp_mono {A} (c : Sh A) (Q Q' : A -> state -> Prop) (E E' : Z -> state -> Prop) s :
  wp c Q' E' s -> (forall a s', Q' a s' -> Q a s') -> (forall n s', E' n s' -> E n s') ->
  wp c Q E s.
Proof. unfold wp. destruct (c s) as [[a | n] s']; auto. Qed.

Lemma wp_get Q E s : Q s s -> wp get Q E s.
Proof. exact (fun H => H). Qed.

Lemma wp_modify (f : state -> state) Q E s : Q tt (f s) -> wp (modify f) Q E s.
Proof. exact (fun H => H). Qed.

Lemma wp_exit {A} (n : Z) (Q : A -> state -> Prop) E s : E n s -> wp (exit n) Q E s.
Proof. exact (fun H => H). Qed.

Lemma wp_getvar (x v : string) Q E s :
  vars s !! x = Some v -> Q v s -> wp (getvar x) Q E s.
Proof. intros Hx HQ. unfold wp, getvar, mbind, Sh_bind, get. simpl. now rewrite Hx. Qed.

Lemma wp_setvar (x v : string) Q E s :
  Q tt (set_vars (<[x := v]> (vars s)) s) -> wp (setvar x v) Q E s.
Proof. exact (fun H => H). Qed.

Lemma wp_ran line name args status Q E s :
  Q tt (set_history (history s ++ [ {| c_line := line; c_name := name;
                                        c_args := args; c_status := status |} ]) s) ->
  wp (ran line name args status) Q E s.
Proof. exact (fun H => H). Qed.

Lemma wp_to_stderr msg Q E s :
  Q tt (set_stderr (stderr s ++ [msg]) s) -> wp (to_stderr msg) Q E s.
Proof. exact (fun H => H). Qed.

Lemma wp_call_function {A} (f : Sh A) Q E s :
  wp f (fun a s' => Q a (set_func_depth (Nat.pred (func_depth s')) s')) E
     (set_func_depth (S (func_depth s)) s) ->
  wp (call_function f) Q E s.
Proof.
  intros H. unfold call_function. apply wp_bind, wp_modify, wp_bind.
  eapply wp_mono; [exact H | | auto].
  intros a s' HQ. apply wp_bind, wp_modify, wp_ret. exact HQ.
Qed.

Lemma wp_for_in {A} (I : list A -> state -> Prop) (head : string) (l : list A)
    (body : A -> Sh unit) E s :
  I [] s ->
  (forall done x s', I done s' ->
     wp (body x) (fun _ s'' => I (done ++ [x]) s'') E (set_bash_command head s')) ->
  wp (for_in head l body) (fun _ s' => I l s') E s.
Proof.
  intros H0 Hbody.
  enough (forall done s, I done s ->
            wp (for_in head l body) (fun _ s' => I (done ++ l) s') E s)
    as H by exact (H [] s H0).
  clear s H0. induction l as [| x l IH]; intros done s Hs; simpl.
  - apply wp_ret. now rewrite app_nil_r.
  - apply wp_bind, wp_modify, wp_bind. eapply wp_mono; [apply Hbody, Hs | | auto].
    intros a s' Hs'. cbv beta in *. specialize (IH (done ++ [x]) s' Hs').
    now rewrite <- app_assoc in IH.
Qed.

End ScriptRules.
Module ScriptProofs.
Import ReleaseScript ScriptLogic ScriptRules.

Lemma wp_check_status lineno (st : Z) Q E s :
  (if (st =? 0)%Z then Q tt (set_last_status st s)
   else err_trap_fires s = false /\ errexit s = true /\ E st (set_last_status st s)) ->
  wp (check_status lineno st) Q E s.
Proof.
  intros Hst. unfold check_status. apply wp_bind, wp_modify.
  destruct (st =? 0)%Z; [apply wp_ret; exact Hst |].
  destruct Hst as (Hfire & Hexit & HE).
  apply wp_bind, wp_get, wp_bind.
  assert (Hfire' : err_trap_fires (set_last_status st s) = false) by exact Hfire.
  destruct (err_trap (set_last_status st s)); [rewrite Hfire' |];
    apply wp_ret, wp_bind, wp_get; cbn [errexit set_last_status]; rewrite Hexit;
    apply wp_exit; exact HE.
Qed.

Lemma wp_simple_command line text (cmd : Sh Z) Q E s :
  wp cmd (fun st s' =>
            if (st =? 0)%Z then Q tt (set_last_status st s')
            else err_trap_fires s' = false /\ errexit s' = true /\
                 E st (set_last_status st s')) E (set_bash_command text s) ->
  wp (simple_command line text cmd) Q E s.
Proof.
  intros H. unfold simple_command. apply wp_bind, wp_modify, wp_bind.
  eapply wp_mono; [exact H | | intros ? ? HE; exact HE].
  intros st s' Hst. cbv beta in *. now apply wp_check_status.
Qed.

Ltac state_simpl :=
  cbn [files vars stderr errexit nounset pipefail errtrace err_trap exit_trap
       func_depth last_status bash_command history
       set_files set_vars set_stderr set_options set_err_trap set_exit_trap
       set_func_depth set_last_status set_bash_command set_history Nat.pred] in *.

Ltac lookup_go :=
  first
    [ eassumption
    | reflexivity
    | rewrite lookup_insert_eq; reflexivity
    | rewrite lookup_insert_ne by done; lookup_go
    | match goal with
      | H : vars ?s = _ |- context [vars ?s] => rewrite H; lookup_go
      end ].

Ltac lookup := state_simpl; lookup_go.

Ltac sh_step :=
  lazymatch goal with
  | |- wp (mbind _ _) _ _ _ => apply wp_bind
  | |- wp (mret _) _ _ _ => apply wp_ret
  | |- wp get _ _ _ => apply wp_get
  | |- wp (modify _) _ _ _ => apply wp_modify
  | |- wp (setvar _ _) _ _ _ => apply wp_setvar
  | |- wp (ran _ _ _ _) _ _ _ => apply wp_ran
  | |- wp (to_stderr _) _ _ _ => apply wp_to_stderr
  | |- wp (exit _) _ _ _ => apply wp_exit
  | |- wp (exit_builtin _ _) _ _ _ => unfold exit_builtin
  | |- wp (builtin _ _) _ _ _ => unfold builtin
  | |- wp (simple_command _ _ _) _ _ _ => apply wp_simple_command
  | |- wp (call_function _) _ _ _ => apply wp_call_function
  | |- wp (getvar _) _ _ _ => eapply wp_getvar; [lookup |]
  end.

Ltac sh := repeat (sh_step; cbv beta).

Lemma forallb_snoc {A} (f : A -> bool) (l : list A) (x : A) :
  forallb f l = true -> f x = true -> forallb f (l ++ [x]) = true.
Proof. intros Hl Hx. rewrite forallb_app, Hl. simpl. now rewrite Hx. Qed.

Lemma quiet_clean (h : list command) :
  forallb succeeded h = true -> quiet_after_failure h = true.
Proof.
  induction h as [| c h IH]; simpl; [reflexivity |].
  intros H. apply andb_true_iff in H as [Hc Hh]. rewrite Hc. auto.
Qed.

Lemma quiet_clean_app (h l : list command) :
  forallb succeeded h = true -> quiet_after_failure (h ++ l) = quiet_after_failure l.
Proof.
  induction h as [| c h IH]; simpl; [reflexivity |].
  intros H. apply andb_true_iff in H as [Hc Hh]. rewrite Hc. auto.
Qed.

Lemma quiet_snoc_reporting (h : list command) (c : command) :
  quiet_after_failure h = true -> reporting c = true ->
  quiet_after_failure (h ++ [c]) = true.
Proof.
  intros Hh Hc. induction h as [| c0 h IH]; simpl in *.
  - destruct (succeeded c); [reflexivity | reflexivity].
  - destruct (succeeded c0); [auto |].
    rewrite forallb_app, Hh. simpl. now rewrite Hc, orb_true_r.
Qed.

(** Closing goals about a state obtained from a [running] one by the
    setters. *)
Ltac side :=
  state_simpl;
  first
    [ assumption
    | reflexivity
    | discriminate
    | lia
    | match goal with
      | H : ?x = S _ |- context [?x] => rewrite H; first [reflexivity | lia]
      end
    | rewrite lookup_insert_ne by done; assumption
    | rewrite lookup_insert_ne by done; rewrite lookup_insert_ne by done; assumption
    | match goal with
      | |- is_Some (<[_ := _]> _ !! _) =>
          first [ repeat (rewrite lookup_insert_ne by done); first [assumption | eexists; lookup]
                | repeat (apply lookup_insert_is_Some'; right);
                  repeat match goal with
                         | H : files ?s = _, H' : is_Some (files ?s !! _) |- _ =>
                             rewrite H in H'
                         end;
                  assumption ]
      | |- is_Some _ => first [assumption | eexists; lookup]
      | |- _ !! _ = Some _ => lookup
      | |- forallb _ (_ ++ [_]) = true =>
          apply forallb_snoc; [side | reflexivity]
      | |- forallb _ ((_ ++ [_]) ++ [_]) = true =>
          apply forallb_snoc; [side | reflexivity]
      | |- quiet_after_failure _ = true =>
          first [ apply quiet_clean; side
                | rewrite <- ?app_assoc; rewrite quiet_clean_app by assumption; reflexivity
                | apply quiet_snoc_reporting; [side | reflexivity] ]
      | |- Forall _ (_ ++ [_]) =>
          apply Forall_app; split; [side | repeat constructor; eexists; reflexivity]
      end ].

Ltac open_running :=
  match goal with
  | H : running _ _ _ _ _ |- _ =>
      let H' := fresh in
      pose proof H as H'; destruct H'; clear H
  end.

Ltac keep_running := constructor; side.

Ltac status_simpl :=
  change (0 =? 0)%Z with true in *; change (1 =? 0)%Z with false in *; cbv iota;
  state_simpl.

(** A failed simple command inside a function: the [ERR] trap is not in
    force there, and [set -e] ends the shell. *)
Ltac fails_inside :=
  split; [unfold err_trap_fires; state_simpl;
          repeat match goal with
                 | H : err_trap _ = _ |- _ => rewrite H
                 | H : ?x = S _ |- context [?x] => rewrite H
                 | H : errtrace _ = _ |- _ => rewrite H
                 end; reflexivity |];
  split; [side | keep_running].

Section Specs.
Context (version_le : string -> string -> bool) (w : world) (out p : string).

Lemma log_spec (msg : string) (d : nat) (s : state) :
  running w out p d s ->
  wp (log w msg)
     (fun _ s' => running w out p d s' /\ files s' = files s /\ vars s' = vars s)
     (exiting w p) s.
Proof.
  intros H. open_running. unfold log. sh. status_simpl.
  split; [| split; reflexivity]. keep_running.
Qed.

Lemma running_text (text : string) (d : nat) (s : state) :
  running w out p d s -> running w out p d (set_bash_command text s).
Proof. intros H. open_running. keep_running. Qed.

Lemma running_enter (text : string) (d : nat) (s : state) :
  running w out p d s ->
  running w out p (S d) (set_func_depth (S (func_depth s)) (set_bash_command text s)).
Proof. intros H. open_running. keep_running. Qed.

Lemma running_leave (d : nat) (s : state) :
  running w out p (S d) s -> running w out p d (set_func_depth (Nat.pred (func_depth s)) s).
Proof. intros H. open_running. keep_running. Qed.

(** A function called as a simple command: [f] then [$?]. *)
Lemma wp_function_call line text (f : Sh unit) (Q : state -> Prop) (d : nat) (s : state) :
  running w out p d s ->
  wp f (fun _ s' => running w out p (S d) s' /\
                    Q (set_last_status 0 (set_func_depth (Nat.pred (func_depth s')) s')))
     (exiting w p) (set_func_depth (S (func_depth s)) (set_bash_command text s)) ->
  wp (function_call line text f) (fun _ s' => running w out p d s' /\ Q s') (exiting w p) s.
Proof.
  intros H Hf. unfold function_call. sh.
  eapply wp_mono; [apply Hf | | intros ? ? HE; exact HE].
  intros _ s' (H' & HQ). cbv beta. sh. state_simpl.
  apply running_leave in H'. open_running. state_simpl.
  match goal with H : last_status s' = _ |- _ => rewrite H end. status_simpl.
  split; [keep_running | exact HQ].
Qed.

Lemma log_call_spec line text (msg : string) (d : nat) (s : state) :
  running w out p d s ->
  wp (function_call line text (log w msg))
     (fun _ s' => running w out p d s' /\ files s' = files s /\ vars s' = vars s)
     (exiting w p) s.
Proof.
  intros H.
  apply (wp_function_call line text _ (fun s' => files s' = files s /\ vars s' = vars s) d s H).
  eapply wp_mono; [apply log_spec, running_enter, H | | intros ? ? HE; exact HE].
  intros _ s' (H' & Hf & Hv). cbv beta. split; [exact H' |]. now state_simpl.
Qed.

Lemma check_dependencies_spec (d : nat) (s : state) :
  running w out p d s ->
  wp (check_dependencies w)
     (fun _ s' => running w out p d s' /\ files s' = files s /\ vars s' = vars s)
     (exiting w p) s.
Proof.
  intros H. unfold check_dependencies. sh. status_simpl.
  eapply wp_mono;
    [apply (wp_for_in (fun _ s' => running w out p d s' /\ files s' = files s /\
                                   vars s' = vars s))
    | intros a s' Hs'; exact Hs' | intros ? ? HE; exact HE].
  - split; [| split; reflexivity]. open_running. keep_running.
  - clear H. intros _ cmd s' (H & Hf & Hv).
    destruct (command_v w cmd) eqn:Hcmd; sh; cbn [negb]; sh.
    + open_running. split; [keep_running | now state_simpl].
    + unfold function_call, log. sh. status_simpl. sh. status_simpl. sh.
      open_running. keep_running.
Qed.

Lemma generate_image_digests_file_spec (d : nat) (s : state) (sp : string) :
  running w out p d s ->
  vars s !! "SCRIPT_PATH" = Some sp ->
  wp generate_image_digests_file
     (fun _ s' => running w out p d s' /\ vars s' = vars s /\
                  exists c, files s !! (sp +:+ "/image-digests-template.yaml") = Some c /\
                            files s' = <[out := c]> (files s))
     (exiting w p) s.
Proof.
  intros H Hsp. open_running. unfold generate_image_digests_file. sh. state_simpl.
  destruct (files s !! (sp +:+ "/image-digests-template.yaml")) as [c |] eqn:Hc;
    [destruct (String.eqb _ out) |]; sh; status_simpl.
  - fails_inside.
  - split; [keep_running |]. split; [reflexivity |]. eauto.
  - fails_inside.
Qed.

Lemma crane_get_latest_image_tag_spec (image : string) (d : nat) (s : state) :
  running w out p d s ->
  wp (crane_get_latest_image_tag version_le w image)
     (fun _ s' => running w out p d s' /\ files s' = files s /\
                  exists tags, crane_ls w image = Some tags /\
                    vars s' = <["TAG" := latest_tag version_le tags]>
                                (<["image" := image]> (vars s)))
     (exiting w p) s.
Proof.
  intros H. open_running. unfold crane_get_latest_image_tag. sh. status_simpl. sh.
  status_simpl. sh.
  destruct (crane_ls w image) as [tags |] eqn:Htags; cbv zeta; sh; state_simpl;
    match goal with H : pipefail s = _ |- _ => rewrite H end.
  - change (pipeline_status true [0; 0; 0; 0]%Z) with 0%Z. status_simpl.
    split; [keep_running |]. split; [reflexivity |]. eauto.
  - change (pipeline_status true [1; 0; 0; 0]%Z) with 1%Z. status_simpl.
    fails_inside.
Qed.

Lemma update_sidecar_spec (key : string) (doc : gmap string (gmap string string))
    (d : nat) (s : state) :
  running w out p d s ->
  files s !! out = Some (Yaml doc) ->
  wp (update_sidecar version_le w key)
     (fun _ s' => running w out p d s' /\
                  exists doc', update_doc version_le w key doc = Some doc' /\
                               files s' = <[out := Yaml doc']> (files s))
     (exiting w p) s.
Proof.
  intros H Hdoc. unfold update_sidecar.
  apply wp_bind. eapply wp_getvar; [apply H |]. apply wp_bind.
  eapply wp_mono; [apply log_call_spec, H | | intros ? ? HE; exact HE].
  clear H. intros _ s1 (H & Hf1 & Hv1). cbv beta. open_running. sh. state_simpl.
  rewrite Hf1, Hdoc. cbn [yq_read]. sh. status_simpl. sh. status_simpl. sh.
  (* line 74 *)
  match goal with
  | |- wp (function_call _ _ _) _ _ ?s0 => assert (H2 : running w out p d s0) by keep_running
  end.
  eapply wp_mono;
    [apply (wp_function_call 74 _ _
              (fun s' => files s' = files s /\
                         exists tags,
                           crane_ls w (default "null" (doc !! key ≫= fun fs => fs !! "image"))
                             = Some tags /\
                           vars s' = <["TAG" := latest_tag version_le tags]>
                                       (<["image" := default "null"
                                                       (doc !! key ≫= fun fs => fs !! "image")]>
                                          (<["image" := default "null"
                                                          (doc !! key ≫= fun fs => fs !! "image")]>
                                             (vars s1)))) d _ H2)
    | | intros ? ? HE; exact HE].
  { eapply wp_mono; [eapply crane_get_latest_image_tag_spec, running_enter, H2
                    | | intros ? ? HE; exact HE].
    intros _ s' (H' & Hf & tags & Htags & Hv). cbv beta. split; [exact H' |]. state_simpl.
    split; [congruence |]. exists tags. split; [exact Htags | exact Hv]. }
  clear H2. intros _ s2 (H & Hf2 & tags & Htags & Hv2). cbv beta. open_running.
  sh. state_simpl. rewrite Hf2, Hdoc. cbn [yq_assign].
  (* line 75: yq refuses an empty TAG *)
  destruct (latest_tag version_le tags =? "") eqn:Etag; sh; status_simpl;
    [fails_inside |].
  sh. status_simpl. sh.
  (* line 78 *)
  destruct (crane_digest w _) as [digest |] eqn:Hdigest; sh; status_simpl;
    [| fails_inside].
  sh. state_simpl. rewrite lookup_insert_eq. cbn [yq_assign].
  (* line 79: yq refuses an empty DIGEST *)
  destruct (digest =? "") eqn:Edigest; sh; status_simpl; [fails_inside |].
  split; [keep_running |].
  unfold update_doc. rewrite Htags. cbn [mbind option_bind]. cbv zeta.
  rewrite Etag, Hdigest. cbn [mbind option_bind]. rewrite Edigest.
  eexists. split; [reflexivity |].
  rewrite insert_insert_eq. reflexivity.
Qed.

Lemma update_all_snoc (done : list string) (key : string)
    (doc : gmap string (gmap string string)) :
  update_all version_le w (done ++ [key]) doc =
  update_all version_le w done doc ≫= update_doc version_le w key.
Proof.
  revert doc. induction done as [| k done IH]; intros doc; simpl.
  - now destruct (update_doc version_le w key doc).
  - destruct (update_doc version_le w k doc) as [doc' |]; simpl; [apply IH | reflexivity].
Qed.

Lemma update_sidecars_source_of_truth_spec (c : content) (d : nat) (s : state) :
  running w out p d s ->
  files s !! out = Some c ->
  wp (update_sidecars_source_of_truth version_le w)
     (fun _ s' =>
        running w out p d s' /\
        exists doc0 doc',
          c = Yaml doc0 /\ p <> out /\
          update_all version_le w (flat_map word_split (map_to_list doc0).*1) doc0
            = Some doc' /\
          files s' = <[out := Yaml doc']> (<[p := Lines ((map_to_list doc0).*1)]> (files s)))
     (exiting w p) s.
Proof.
  intros H Hc. open_running. unfold update_sidecars_source_of_truth. sh. state_simpl.
  destruct (decide (p = out)) as [-> | Hne].
  { rewrite lookup_insert_eq. cbn [yq_keys]. sh. status_simpl. fails_inside. }
  rewrite lookup_insert_ne, Hc by done.
  destruct c as [l | doc0]; cbn [yq_keys]; sh; status_simpl; [fails_inside |].
  sh. state_simpl. rewrite insert_insert_eq, lookup_insert_eq.
  set (keys := (map_to_list doc0).*1).
  set (F := <[p := Lines keys]> (files s)).
  assert (HF : F !! out = Some (Yaml doc0)) by (unfold F; now rewrite lookup_insert_ne).
  assert (HFp : is_Some (F !! p)) by (unfold F; rewrite lookup_insert_eq; eauto).
  eapply wp_mono;
    [apply (wp_for_in (fun done s' =>
              running w out p d s' /\
              exists doc', update_all version_le w done doc0 = Some doc' /\
                           files s' = <[out := Yaml doc']> F)) | | intros ? ? HE; exact HE].
  - split; [keep_running |]. exists doc0. split; [reflexivity |].
    state_simpl. now rewrite insert_id.
  - intros done key s' (H & doc' & Hall & Hf).
    eapply wp_mono; [eapply (update_sidecar_spec key doc'); [apply running_text, H |]
                    | | intros ? ? HE; exact HE].
    + state_simpl. now rewrite Hf, lookup_insert_eq.
    + intros _ s'' (H' & doc'' & Hup & Hf'). cbv beta. split; [exact H' |].
      exists doc''. split.
      * now rewrite update_all_snoc, Hall.
      * state_simpl. now rewrite Hf', Hf, insert_insert_eq.
  - intros _ s' (H & doc' & Hall & Hf). cbv beta. split; [exact H |].
    exists doc0, doc'. repeat split; auto.
Qed.

Lemma main_spec (sp : string) (d : nat) (s : state) :
  running w out p d s ->
  vars s !! "SCRIPT_PATH" = Some sp ->
  wp (main version_le w)
     (fun _ s' =>
        running w out p d s' /\
        exists doc0 doc',
          p <> out /\
          files s !! (sp +:+ "/image-digests-template.yaml") = Some (Yaml doc0) /\
          update_all version_le w (flat_map word_split (map_to_list doc0).*1) doc0
            = Some doc' /\
          files s' !! out = Some (Yaml doc'))
     (exiting w p) s.
Proof.
  intros H Hsp. unfold main.
  apply wp_bind.
  eapply wp_mono;
    [apply (wp_function_call 84 _ _ (fun s' => files s' = files s /\ vars s' = vars s) d s H)
    | | intros ? ? HE; exact HE].
  { eapply wp_mono; [apply check_dependencies_spec, running_enter, H
                    | | intros ? ? HE; exact HE].
    intros _ s' (H' & Hf & Hv). cbv beta. split; [exact H' |]. now state_simpl. }
  clear H. intros _ s1 (H & Hf1 & Hv1). cbv beta.
  apply wp_bind.
  eapply wp_mono;
    [apply (wp_function_call 85 _ _
              (fun s' => vars s' = vars s /\
                         exists c, files s !! (sp +:+ "/image-digests-template.yaml") = Some c /\
                                   files s' = <[out := c]> (files s)) d s1 H)
    | | intros ? ? HE; exact HE].
  { eapply wp_mono; [eapply (generate_image_digests_file_spec _ _ sp);
                       [apply running_enter, H | state_simpl; now rewrite Hv1]
                    | | intros ? ? HE; exact HE].
    intros _ s' (H' & Hv & c & Hc & Hf). cbv beta. split; [exact H' |]. state_simpl.
    split; [congruence |]. exists c. rewrite Hf1 in Hc. split; [exact Hc |].
    now rewrite Hf, Hf1. }
  clear H. intros _ s2 (H & Hv2 & c & Hc & Hf2). cbv beta.
  eapply wp_mono;
    [apply (wp_function_call 86 _ _
              (fun s' => exists doc0 doc',
                   p <> out /\
                   c = Yaml doc0 /\
                   update_all version_le w (flat_map word_split (map_to_list doc0).*1) doc0
                     = Some doc' /\
                   files s' !! out = Some (Yaml doc')) d s2 H)
    | | intros ? ? HE; exact HE].
  { eapply wp_mono; [eapply (update_sidecars_source_of_truth_spec c);
                       [apply running_enter, H
                       | state_simpl; now rewrite Hf2, lookup_insert_eq]
                    | | intros ? ? HE; exact HE].
    intros _ s' (H' & doc0 & doc' & -> & Hne & Hall & Hf). cbv beta.
      split; [exact H' |]. state_simpl. exists doc0, doc'.
      split; [exact Hne |]. split; [reflexivity |]. split; [exact Hall |].
      now rewrite Hf, lookup_insert_eq. }
  intros _ s3 (H3 & doc0 & doc' & Hne & -> & Hall & Hf). cbv beta.
  split; [exact H3 |]. exists doc0, doc'. auto.
Qed.

End Specs.

Section Top.
Context (version_le : string -> string -> bool) (w : world).

Ltac abort_now :=
  split; [reflexivity |]; split; [reflexivity |];
  constructor; state_simpl;
  [ discriminate | reflexivity | reflexivity | reflexivity | constructor
  | left; split; reflexivity ].

Lemma script_spec :
  wp (script version_le w)
     (fun _ s => exists out p, completed version_le w out p s /\ func_depth s = 0%nat)
     (aborted w) (init w).
Proof.
  unfold script, init. sh. status_simpl. sh. status_simpl.
  destruct (script_dir w) as [dir |] eqn:Hdir; sh; status_simpl; [| abort_now].
  sh. status_simpl. sh. status_simpl.
  match goal with
  | |- context [<["OUTPUT_FILEPATH" := ?v]> _] => set (out := v)
  end.
  destruct (mktemp w) as [p |] eqn:Hp; sh; status_simpl; [| abort_now].
  sh. status_simpl. sh. status_simpl. unfold function_call. sh. state_simpl.
  match goal with |- wp _ _ _ ?s0 => set (s1 := s0) end.
  assert (H1 : running w out p 0 s1).
  { subst s1. constructor; state_simpl; try reflexivity; try lookup.
    - rewrite lookup_insert_eq. eauto.
    - eexists; lookup.
    - constructor. }
  eapply wp_mono; [eapply (main_spec version_le w out p dir 0 s1 H1) | |].
  - subst s1. lookup.
  - intros _ s' (H' & doc0 & doc' & Hne & Htpl & Hall & Hf). cbv beta. sh. state_simpl.
    destruct H'. state_simpl.
    match goal with H : last_status s' = _ |- _ => rewrite H end. status_simpl.
    match goal with H : func_depth s' = _ |- _ => rewrite H end.
    exists out, p. split; [| reflexivity].
    constructor; state_simpl; eauto.
    exists doc0, doc'. split; [| auto].
    subst s1. state_simpl.
    apply lookup_insert_Some in Htpl as [[_ [=]] | [_ Htpl]].
    unfold template. rewrite Hdir. exact Htpl.
  - intros n s' [? ? ? ? ? ? ? ? ?]. constructor; eauto.
    right. exists p. auto.
Qed.

Lemma quiet_app_reporting (h extra : list command) :
  quiet_after_failure h = true -> forallb reporting extra = true ->
  quiet_after_failure (h ++ extra) = true.
Proof.
  revert h. induction extra as [| c extra IH]; intros h Hh Hex; simpl in *.
  - now rewrite app_nil_r.
  - apply andb_true_iff in Hex as [Hc Hex].
    change (c :: extra) with ([c] ++ extra). rewrite app_assoc.
    apply IH; [now apply quiet_snoc_reporting | exact Hex].
Qed.

Lemma check_status_history (lineno : nat) (st : Z) (s : state) :
  exists r s' extra,
    check_status lineno st s = (r, s') /\ history s' = history s ++ extra /\
    forallb is_tool extra = true /\ forallb reporting extra = true /\
    match r with
    | Done _ => extra = [] /\ (errexit s = true -> st = 0%Z)
    | Exited n => n <> 0%Z
    end.
Proof.
  unfold check_status, on_ERR, call_function, error_handler, ran, to_stderr,
    modify, get, exit, mbind, mret, Sh_bind, Sh_ret.
  destruct (st =? 0)%Z eqn:Hst; cbn.
  { apply Z.eqb_eq in Hst. eexists _, _, []. rewrite app_nil_r. auto 10. }
  apply Z.eqb_neq in Hst.
  destruct (err_trap s) as [[] |] eqn:Htrap; cbn;
    [destruct (err_trap_fires _) eqn:Hfires; cbn |].
  - eexists _, _, [_]. split; [reflexivity |]. cbn. auto.
  - destruct (errexit s); eexists _, _, []; rewrite app_nil_r;
      repeat split; auto; discriminate.
  - destruct (errexit s); eexists _, _, []; rewrite app_nil_r;
      repeat split; auto; discriminate.
Qed.

(** The [EXIT] trap in any state: it runs [rm] and, when [rm] fails where
    the [ERR] trap is in force, the [printf] of [error_handler]. *)
Lemma rm_tmp_history (s : state) :
  exists r s' extra,
    rm_tmp s = (r, s') /\ history s' = history s ++ extra /\ trap_outcome s r extra.
Proof.
  unfold trap_outcome, rm_tmp, getvar, trap_command, mbind, Sh_bind, get. cbn.
  destruct (vars s !! "tmp_filename") as [tmp |]; cbn.
  2: destruct (nounset s); cbn.
  2: { eexists _, _, []. rewrite app_nil_r. auto. }
  - destruct (rm (word_split tmp) (files s)) as [fs status]. cbn.
    match goal with
    | |- context [check_status 1 status ?s0] =>
        destruct (check_status_history 1 status s0)
          as (r & s' & extra & -> & Hh & Ht & Hr & Hend)
    end.
    eexists r, s', (_ :: extra). split; [reflexivity |].
    rewrite Hh. cbn. rewrite <- app_assoc. split; [reflexivity |].
    rewrite Ht, Hr. repeat split.
    destruct r as [[] | n]; [| exact Hend].
    destruct Hend as [-> Hst]. intros He. cbn. unfold succeeded. cbn.
    rewrite (Hst He). reflexivity.
  - match goal with
    | |- context [check_status 1 1 ?s0] =>
        destruct (check_status_history 1 1 s0)
          as (r & s' & extra & -> & Hh & Ht & Hr & Hend)
    end.
    eexists r, s', (_ :: extra). split; [reflexivity |].
    rewrite Hh. cbn. rewrite <- app_assoc. split; [reflexivity |].
    rewrite Ht, Hr. repeat split.
    destruct r as [[] | n]; [| exact Hend].
    destruct Hend as [_ Hst]. intros He. now specialize (Hst He).
Qed.

Lemma shell_word_split (p : string) : shell_word p = true -> word_split p = [p].
Proof.
  unfold shell_word. destruct p as [| c p]; [discriminate |]. cbn [String.eqb negb andb].
  revert c. induction p as [| c' p IH]; intros c; cbn [list_ascii_of_string forallb].
  - rewrite andb_true_r, negb_true_iff, orb_false_iff. intros [Hc _].
    cbn [word_split]. now rewrite Hc.
  - intros H. apply andb_true_iff in H as [Hc H].
    apply negb_true_iff, orb_false_iff in Hc as [Hc _].
    specialize (IH c' H).
    apply andb_true_iff in H as [Hc' _].
    apply negb_true_iff, orb_false_iff in Hc' as [Hc' _].
    change (word_split (String c (String c' p)))
      with (if is_IFS c then word_split (String c' p)
            else if is_IFS c' then String c EmptyString :: word_split (String c' p)
                 else match word_split (String c' p) with
                      | word :: rest => String c word :: rest
                      | [] => [String c EmptyString]
                      end).
    now rewrite Hc, Hc', IH.
Qed.

Lemma key_char_plain (c : ascii) :
  is_key_char c = true -> negb (is_IFS c || is_glob c) = true.
Proof.
  destruct c as [[] [] [] [] [] [] [] []]; vm_compute; congruence.
Qed.

Lemma identifier_shell_word (k : string) : identifier k = true -> shell_word k = true.
Proof.
  unfold identifier, shell_word. intros H. apply andb_true_iff in H as [Hne Hall].
  rewrite Hne. cbn [andb]. rewrite forallb_forall in *.
  intros c Hc. apply key_char_plain. auto.
Qed.

Lemma word_split_plain (l : list string) :
  forallb identifier l = true -> flat_map word_split l = l.
Proof.
  induction l as [| k l IH]; cbn [forallb flat_map]; [reflexivity |].
  intros H. apply andb_true_iff in H as [Hk Hl].
  now rewrite (shell_word_split k (identifier_shell_word k Hk)), IH.
Qed.

(** With a one-word name that exists, the [EXIT] trap removes that file
    and nothing else. *)
Lemma rm_tmp_word (s : state) (p : string) :
  vars s !! "tmp_filename" = Some p ->
  shell_word p = true ->
  is_Some (files s !! p) ->
  rm_tmp s =
  (Done tt,
   set_last_status 0
     (set_history (history s ++ [ {| c_line := 53; c_name := "rm"; c_args := [p];
                                     c_status := 0 |} ])
        (set_files (delete p (files s)) s))).
Proof.
  intros Hp Hw [c Hc]. unfold rm_tmp, getvar, trap_command, mbind, Sh_bind, get. cbn.
  rewrite Hp. cbn. rewrite (shell_word_split p Hw). unfold rm. cbn. rewrite Hc. reflexivity.
Qed.

(** The whole run: what holds of the final state of the shell process. *)
Lemma run_script_spec :
  let '(n, s) := run_script version_le w in
  forallb is_tool (history s) = true /\
  quiet_after_failure (history s) = true /\
  (n = 0%Z -> forallb succeeded (history s) = true) /\
  (plain_tmp w = true ->
   forallb outside_handler (history s) = true /\
   Forall (is_info w) (stderr s) /\
   (forall p, mktemp w = Some p -> disk w !! p = None -> files s !! p = None) /\
   (n = 0%Z ->
    exists out doc0 doc',
      template w = Some (Yaml doc0) /\
      update_all version_le w (flat_map word_split (map_to_list doc0).*1) doc0
        = Some doc' /\
      vars s !! "OUTPUT_FILEPATH" = Some out /\
      files s !! out = Some (Yaml doc'))).
Proof.
  unfold run_script. pose proof script_spec as H. unfold wp in H.
  destruct (script version_le w (init w)) as [[[] | n] s].
  - destruct H as (out & p &
                   [Hmk Hexit Htrap Htmp Hfile Hout Hst Hne Htools Hclean Hh Herr Hdoc]
                   & Hdepth).
    rewrite Htrap. cbn [on_EXIT].
    destruct (rm_tmp_history s) as (r & s' & extra & Hrm & Hhist & Ht & Hr & Hend).
    rewrite Hrm.
    assert (Hgen : forallb is_tool (history s') = true /\
                   quiet_after_failure (history s') = true).
    { rewrite Hhist, forallb_app, Htools, Ht. split; [reflexivity |].
      apply quiet_app_reporting; [now apply quiet_clean | exact Hr]. }
    assert (Hplain : plain_tmp w = true ->
              r = Done tt /\
              s' = set_last_status 0
                     (set_history (history s ++ [ {| c_line := 53; c_name := "rm";
                                                     c_args := [p]; c_status := 0 |} ])
                        (set_files (delete p (files s)) s))).
    { unfold plain_tmp. rewrite Hmk. intros Hw.
      rewrite (rm_tmp_word s p Htmp Hw Hfile) in Hrm. now injection Hrm as <- <-. }
    destruct r as [[] | n'];
      (split; [apply Hgen |]; split; [apply Hgen |]; split;
       [| intros Hw; destruct (Hplain Hw) as [Hr' ->]; [idtac]]);
      [| | contradiction | discriminate].
    + intros _. rewrite Hhist, forallb_app, Hclean. now apply Hend.
    + state_simpl.
      split; [now apply forallb_snoc |]. split; [exact Herr |]. split.
      * intros p' Hp' _. assert (p' = p) as -> by congruence. apply lookup_delete_eq.
      * intros _. destruct Hdoc as (doc0 & doc' & Htpl & Hall & Hf).
        exists out, doc0, doc'. split; [exact Htpl |]. split; [exact Hall |].
        split; [exact Hout |]. now rewrite lookup_delete_ne.
  - destruct H as [Hn Htools Hquiet Hh Herr
                     [[Htrap Hf] | (p & Hmk & Htrap & Htmp & Hfile & Hdepth)]].
    + rewrite Htrap. split; [exact Htools |]. split; [exact Hquiet |].
      split; [contradiction |]. intros _.
      split; [exact Hh |]. split; [exact Herr |]. split.
      * intros p Hp Hfresh. now rewrite Hf.
      * contradiction.
    + rewrite Htrap. cbn [on_EXIT].
      destruct (rm_tmp_history s) as (r & s' & extra & Hrm & Hhist & Ht & Hr & Hend).
      rewrite Hrm.
      assert (Hgen : forallb is_tool (history s') = true /\
                     quiet_after_failure (history s') = true).
      { rewrite Hhist, forallb_app, Htools, Ht. split; [reflexivity |].
        apply quiet_app_reporting; [exact Hquiet | exact Hr]. }
      assert (Hplain : plain_tmp w = true ->
                r = Done tt /\
                s' = set_last_status 0
                       (set_history (history s ++ [ {| c_line := 53; c_name := "rm";
                                                       c_args := [p]; c_status := 0 |} ])
                          (set_files (delete p (files s)) s))).
      { unfold plain_tmp. rewrite Hmk. intros Hw.
        rewrite (rm_tmp_word s p Htmp Hw Hfile) in Hrm. now injection Hrm as <- <-. }
      destruct r as [[] | n'];
        (split; [apply Hgen |]; split; [apply Hgen |]; split;
         [| intros Hw; destruct (Hplain Hw) as [Hr' ->]; [idtac]]);
        [contradiction | | contradiction | discriminate].
      state_simpl.
      split; [now apply forallb_snoc |]. split; [exact Herr |]. split.
      * intros p' Hp' _. assert (p' = p) as -> by congruence. apply lookup_delete_eq.
      * contradiction.
Qed.

End Top.
(** *** Substrings and [sed '/latest/d'] *)

Lemma has_prefix_spec (p s : string) :
  has_prefix p s = true <-> exists b, s = p +:+ b.
Proof.
  revert s. induction p as [| a p IH]; intros s; simpl.
  - split; [intros _; now exists s | reflexivity].
  - destruct s as [| c s]; [split; [discriminate | intros [b Hb]; discriminate] |].
    rewrite andb_true_iff, IH. split.
    + intros [Ha [b ->]]. apply Ascii.eqb_eq in Ha. subst c. now exists b.
    + intros [b [= -> ->]]. split; [apply Ascii.eqb_refl | now exists b].
Qed.

Lemma ContainSubstring_spec (sub s : string) :
  ContainSubstring sub s = true <-> contains sub s.
Proof.
  unfold contains. induction s as [| c s IH]; simpl.
  - rewrite orb_false_r, has_prefix_spec. split.
    + intros [b Hb]. exists "", b. exact Hb.
    + intros (a & b & H). destruct a as [| c a]; [now exists b | discriminate].
  - rewrite orb_true_iff, IH, has_prefix_spec. split.
    + intros [[b Hb] | (a & b & ->)].
      * exists "", b. exact Hb.
      * now exists (String c a), b.
    + intros (a & b & H). destruct a as [| c' a].
      * left. now exists b.
      * right. injection H as _ ->. now exists a, b.
Qed.

(** What [sed '/latest/d'] keeps: the lines that do not contain the text. *)
Lemma sed_delete_In (pat t : string) (lines : list string) :
  In t (sed_delete pat lines) <-> In t lines /\ ~ contains pat t.
Proof.
  unfold sed_delete. rewrite <- !list_elem_of_In, list_elem_of_filter.
  rewrite <- ContainSubstring_spec. destruct (ContainSubstring pat t); intuition congruence.
Qed.

Section Pure.
Context (version_le : string -> string -> bool) (w : world).
Hypothesis version_le_total : forall a b, version_le a b = true \/ version_le b a = true.
Hypothesis version_le_trans :
  forall a b c, version_le a b = true -> version_le b c = true -> version_le a c = true.

Let R (a b : string) : Prop := version_le a b = true.

Lemma insert_V_In (x a : string) (l : list string) :
  In x (insert_V version_le a l) <-> x = a \/ In x l.
Proof.
  induction l as [| y l IH]; simpl.
  - intuition.
  - destruct (version_le a y); simpl; [intuition |]. rewrite IH. intuition.
Qed.

Lemma sort_V_In (x : string) (l : list string) :
  In x (sort_V version_le l) <-> In x l.
Proof.
  unfold sort_V. induction l as [| a l IH]; simpl; [reflexivity |].
  rewrite insert_V_In, IH. intuition.
Qed.

Lemma insert_V_sorted (a : string) (l : list string) :
  StronglySorted R l -> StronglySorted R (insert_V version_le a l).
Proof.
  induction 1 as [| y l Hl IH Hy]; simpl.
  - repeat constructor.
  - destruct (version_le a y) eqn:E.
    + constructor; [constructor; assumption |].
      constructor; [exact E |].
      eapply List.Forall_impl; [| exact Hy]. intros c Hc. exact (version_le_trans _ _ _ E Hc).
    + constructor; [exact IH |].
      apply List.Forall_forall. intros c Hc. apply insert_V_In in Hc as [-> | Hc].
      * destruct (version_le_total a y) as [H | H]; [congruence | exact H].
      * rewrite List.Forall_forall in Hy. auto.
Qed.

Lemma sort_V_sorted (l : list string) : StronglySorted R (sort_V version_le l).
Proof.
  unfold sort_V. induction l as [| a l IH]; simpl; [constructor |].
  now apply insert_V_sorted.
Qed.

Lemma last_of_sorted (l : list string) (t : string) :
  StronglySorted R l -> last l = Some t ->
  In t l /\ forall c, In c l -> R c t.
Proof.
  induction 1 as [| y l Hl IH Hy]; simpl; [discriminate |].
  destruct l as [| z l].
  - intros [= ->]. split; [now left |]. intros c [-> | []].
    destruct (version_le_total c c); assumption.
  - intros Hlast. specialize (IH Hlast) as [Hin Hmax]. split; [now right |].
    intros c [-> | Hc]; [| auto].
    rewrite List.Forall_forall in Hy. auto.
Qed.

Lemma latest_tag_greatest (tags : list string) :
  greatest version_le (latest_tag version_le tags) (sed_delete "latest" tags).
Proof.
  unfold latest_tag, tail_1, greatest.
  set (cands := sed_delete "latest" tags).
  destruct (last (sort_V version_le cands)) as [t |] eqn:E; simpl.
  - right. destruct (last_of_sorted _ _ (sort_V_sorted cands) E) as [Hin Hmax].
    split; [now apply sort_V_In |]. intros c Hc. apply Hmax. now apply sort_V_In.
  - left. split; [| reflexivity].
    apply last_None in E. destruct cands as [| c cands]; [reflexivity |].
    assert (Hc : In c (sort_V version_le (c :: cands))) by (apply sort_V_In; now left).
    rewrite E in Hc. destruct Hc.
Qed.

Lemma update_doc_spec (key : string) (doc doc' : gmap string (gmap string string)) :
  update_doc version_le w key doc = Some doc' ->
  (exists fields, doc' !! key = Some fields /\ up_to_date version_le w fields) /\
  (forall k, k <> key -> doc' !! k = doc !! k).
Proof.
  unfold update_doc.
  set (image := default "null" (doc !! key ≫= fun fs => fs !! "image")).
  destruct (crane_ls w image) as [tags |] eqn:Htags; [| discriminate].
  cbn [mbind option_bind]. cbv zeta.
  destruct (latest_tag version_le tags =? "") eqn:Etag; [discriminate |].
  destruct (crane_digest w _) as [digest |] eqn:Hdigest; [| discriminate].
  cbn [mbind option_bind].
  destruct (digest =? "") eqn:Edigest; [discriminate |].
  intros [= <-]. split.
  - eexists. split; [apply lookup_insert_eq |].
    rewrite lookup_insert_eq. cbn [from_option id].
    set (fields0 := default ∅ (doc !! key)).
    assert (Himage : default "null"
              (<["manifestDigest" := digest]> (<["tag" := latest_tag version_le tags]> fields0)
                 !! "image") = image).
    { rewrite !lookup_insert_ne by done. unfold image, fields0.
      destruct (doc !! key) as [fs |]; reflexivity. }
    unfold up_to_date. cbv zeta. rewrite Himage.
    exists tags, (latest_tag version_le tags), digest.
    split; [exact Htags |].
    destruct (latest_tag_greatest tags) as [[_ Hempty] | [Hin Hmax]].
    { rewrite Hempty in Etag. discriminate. }
    apply sed_delete_In in Hin. destruct Hin as [Hin Hno].
    split; [exact Hin |]. split; [exact Hno |].
    split; [intros c Hc Hcno; apply Hmax; now apply sed_delete_In |].
    split; [now rewrite lookup_insert_ne, lookup_insert_eq by done |].
    split; [exact Hdigest |]. apply lookup_insert_eq.
  - intros k Hk. now rewrite !lookup_insert_ne by done.
Qed.

Lemma update_all_spec (keys : list string) (doc doc' : gmap string (gmap string string)) :
  List.NoDup keys ->
  update_all version_le w keys doc = Some doc' ->
  forall k,
    (In k keys -> exists fields, doc' !! k = Some fields /\ up_to_date version_le w fields) /\
    (~ In k keys -> doc' !! k = doc !! k).
Proof.
  intros Hnd. revert doc. induction Hnd as [| key keys Hnotin Hnd IH]; intros doc; simpl.
  - intros [= <-] k. split; [intros [] | reflexivity].
  - destruct (update_doc version_le w key doc) as [doc1 |] eqn:Hup; [| discriminate].
    cbn [mbind option_bind]. intros Hall k.
    destruct (update_doc_spec _ _ _ Hup) as [Hkey Hother].
    specialize (IH doc1 Hall). split.
    + intros [<- | Hk].
      * destruct (IH key) as [_ Hsame]. rewrite (Hsame Hnotin). exact Hkey.
      * now apply IH.
    + intros Hk. destruct (IH k) as [_ Hsame].
      rewrite Hsame by tauto. apply Hother. intros ->. apply Hk. now left.
Qed.

End Pure.

End ScriptProofs.

(** ** The models at work on concrete inputs *)

Example debugLogs_passes_with_quiet_sidecar :
  outcome (Examples.cluster
             [Examples.pod_of [Examples.container "ebs-plugin" ["--endpoint=x"; "--v=7"];
                               Examples.container "csi-provisioner" ["--v=2"]]] [])
    ParameterTests.It_debugLogs = inl tt.
Proof. reflexivity. Qed.

Example debugLogs_fails_on_ebs_plugin :
  outcome (Examples.cluster
             [Examples.pod_of [Examples.container "ebs-plugin" ["-v=4"];
                               Examples.container "csi-provisioner" ["--v=7"]]] [])
    ParameterTests.It_debugLogs
  = inr (Failed 987 "Controller ebs-plugin should have -v=7 arg when debugLogs=true").
Proof. reflexivity. Qed.

Example debugLogs_fails_without_pods :
  outcome (Examples.cluster [] []) ParameterTests.It_debugLogs = inr (Failed 975 "").
Proof. reflexivity. Qed.

Example extraVolumeTags_validation_run :
  run (Examples.cluster [] [ {| EC2Volume.VolumeId := "vol-1"; EC2Volume.Tags := [] |} ])
    ParameterTests.ValidateFunc_extraVolumeTags
  = ([Event 203 (describe_by {| Filter.Name := "tag:TestKey";
                                Filter.Values := ["TestValue"] |})], inl tt).
Proof. reflexivity. Qed.

Example customLabels_stops_at_first_failure :
  run (Examples.cluster [] []) ParameterTests.It_customLabels
  = ([Event 1906 (K8sGet Deployments (Some "kube-system") "ebs-csi-controller")],
     inr (Failed 1907 "")).
Proof. reflexivity. Qed.

Example release_run_updates_sidecars :
  let '(n, s) := ReleaseScript.run_script Examples.by_length Examples.world_ok in
  n = 0%Z /\
  match ReleaseScript.files s !! "/repo/out.yaml" with
  | Some (ReleaseScript.Yaml doc) =>
      (doc !! "attacher" ≫= fun fs => fs !! "tag") = Some "v5.10.0" /\
      (doc !! "attacher" ≫= fun fs => fs !! "manifestDigest")
        = Some "sha256:registry.k8s.io/sig-storage/csi-attacher:v5.10.0" /\
      (doc !! "provisioner" ≫= fun fs => fs !! "tag") = Some "v5.10.0"
  | _ => False
  end /\
  ReleaseScript.files s !! "/tmp/tmp.k3J9xQ" = None.
Proof. vm_compute. repeat split; reflexivity. Qed.

Example focus_of_debug_set :
  option_map Makefile.lang
    (Makefile.compile "\[ebs-csi-e2e\] \[single-az\] \[param:(debugLogs|sdkDebugLog)\]")
  = Some ["[ebs-csi-e2e] [single-az] [param:debugLogs]";
          "[ebs-csi-e2e] [single-az] [param:sdkDebugLog]"].
Proof. reflexivity. Qed.

Example unescaped_bracket_is_rejected :
  Makefile.compile "[param:fips]" = None.
Proof. reflexivity. Qed.

Example one_valued_assertion_would_panic :
  Mock.type_assert1 (Some Examples.stray) Mock.CoreV1Interface
  = Mock.Panic "interface conversion".
Proof. reflexivity. Qed.

Example release_run_without_template :
  let '(n, s) :=
    ReleaseScript.run_script Examples.by_length Examples.world_without_template in
  n = 1%Z /\
  ReleaseScript.bash_command s
    = "cp " +:+ ReleaseScript.q "${SCRIPT_PATH}/image-digests-template.yaml" +:+ " "
      +:+ ReleaseScript.q "${OUTPUT_FILEPATH}" /\
  last (ReleaseScript.history s)
    = Some {| ReleaseScript.c_line := 53; ReleaseScript.c_name := "rm";
              ReleaseScript.c_args := ["/tmp/tmp.k3J9xQ"]; ReleaseScript.c_status := 0 |}.
Proof. vm_compute. repeat split; reflexivity. Qed.

(** A temporary name of two words: [rm] gets two operands that do not
    exist, the file stays, and the failure of [rm] at top level takes the
    [ERR] trap although the work was done. *)
Example temp_name_of_two_words :
  let '(n, s) :=
    ReleaseScript.run_script Examples.by_length Examples.world_with_blank_tmpdir in
  n = 1%Z /\
  ReleaseScript.files s !! "/tmp/release files/tmp.k3J9xQ"
    = Some (ReleaseScript.Lines ["attacher"; "provisioner"]) /\
  map Examples.summary (drop 29 (ReleaseScript.history s))
    = [ (53, "rm", 1%Z); (46, "printf", 0%Z) ].
Proof. vm_compute. repeat split; reflexivity. Qed.
(** ** The release script: the claims *)

(** C5. When the script ends with status 0 and the sidecar keys of the
    template are plain (letters, digits and [_]), the output file is a
    document in which every sidecar key has its [tag] set to the greatest
    tag, in version order, among those [crane ls] lists for its image
    that do not contain [latest], and its [manifestDigest] set to what
    [crane digest] reports for [image:tag].  The loop of line 69 goes
    over the blank-separated words of the key list, and lines 71-79 put
    each word into a yq path: a key with a blank is never updated itself.
    (Version order is any total and transitive order given to [sort -V];
    the name of the temporary file is one word, the case in which the
    unquoted [rm] of line 53 removes that file and no other.) *)
Theorem sidecars_get_latest_tag_and_digest
    (version_le : string -> string -> bool) (w : ReleaseScript.world)
    (total : forall a b, version_le a b = true \/ version_le b a = true)
    (trans : forall a b c,
        version_le a b = true -> version_le b c = true -> version_le a c = true) :
  ScriptLogic.plain_tmp w = true ->
  ScriptLogic.plain_keys w = true ->
  fst (ReleaseScript.run_script version_le w) = 0%Z ->
  exists out doc,
    ReleaseScript.vars (snd (ReleaseScript.run_script version_le w)) !! "OUTPUT_FILEPATH"
      = Some out /\
    ReleaseScript.files (snd (ReleaseScript.run_script version_le w)) !! out
      = Some (ReleaseScript.Yaml doc) /\
    forall key fields,
      doc !! key = Some fields -> ScriptLogic.up_to_date version_le w fields.
Proof.
  pose proof (ScriptProofs.run_script_spec version_le w) as H.
  destruct (ReleaseScript.run_script version_le w) as [n s]. cbn [fst snd].
  intros Htmp Hkeys Hn.
  destruct H as (_ & _ & _ & H). destruct (H Htmp) as (_ & _ & _ & Hdone).
  destruct (Hdone Hn) as (out & doc0 & doc' & Htpl & Hall & Hout & Hf).
  unfold ScriptLogic.plain_keys in Hkeys. rewrite Htpl in Hkeys.
  rewrite (ScriptProofs.word_split_plain _ Hkeys) in Hall.
  exists out, doc'. split; [exact Hout |]. split; [exact Hf |].
  intros key fields Hkey.
  assert (Hnd : List.NoDup (map_to_list doc0).*1).
  { apply NoDup_ListNoDup, NoDup_fst_map_to_list. }
  destruct (ScriptProofs.update_all_spec version_le w total trans _ _ _ Hnd Hall key)
    as [Hin Hout'].
  destruct (doc0 !! key) as [fields0 |] eqn:H0.
  - destruct Hin as (fields' & Hf' & Hup).
    + apply list_elem_of_In, list_elem_of_fmap. exists (key, fields0).
      split; [reflexivity |]. now apply elem_of_map_to_list.
    + congruence.
  - assert (Hno : ~ In key (map_to_list doc0).*1).
    { intros Hi. apply list_elem_of_In, list_elem_of_fmap in Hi as ([k v] & -> & Hkv).
      apply elem_of_map_to_list in Hkv. simpl in H0. congruence. }
    rewrite (Hout' Hno) in Hkey. congruence.
Qed.

Lemma by_length_total (a b : string) :
  Examples.by_length a b = true \/ Examples.by_length b a = true.
Proof.
  unfold Examples.by_length.
  destruct (Nat.le_ge_cases (String.length a) (String.length b)) as [H | H];
    [left | right]; now apply Nat.leb_le.
Defined.

Lemma by_length_trans (a b c : string) :
  Examples.by_length a b = true -> Examples.by_length b c = true ->
  Examples.by_length a c = true.
Proof.
  unfold Examples.by_length. rewrite !Nat.leb_le. lia.
Defined.

Lemma sidecars_get_latest_tag_and_digest_witness :
  exists out doc,
    ReleaseScript.vars (snd (ReleaseScript.run_script Examples.by_length Examples.world_ok))
      !! "OUTPUT_FILEPATH" = Some out /\
    ReleaseScript.files (snd (ReleaseScript.run_script Examples.by_length Examples.world_ok))
      !! out = Some (ReleaseScript.Yaml doc) /\
    forall key fields,
      doc !! key = Some fields ->
      ScriptLogic.up_to_date Examples.by_length Examples.world_ok fields.
Proof.
  apply (sidecars_get_latest_tag_and_digest Examples.by_length Examples.world_ok
           by_length_total by_length_trans).
  - reflexivity.
  - vm_compute. reflexivity.
  - vm_compute. reflexivity.
Defined.

(** A template with the keys [attacher], [provisioner] and
    [attacher provisioner]: the run ends with status 0, the first two
    keys are updated twice, and the third is in the output file as it was
    in the template, without a tag. *)
Lemma key_with_blank_is_not_updated :
  fst (ReleaseScript.run_script Examples.by_length EdgeWorlds.world_with_blank_key) = 0%Z /\
  exists doc fields,
    ReleaseScript.vars
      (snd (ReleaseScript.run_script Examples.by_length EdgeWorlds.world_with_blank_key))
      !! "OUTPUT_FILEPATH" = Some "/repo/out.yaml" /\
    ReleaseScript.files
      (snd (ReleaseScript.run_script Examples.by_length EdgeWorlds.world_with_blank_key))
      !! "/repo/out.yaml" = Some (ReleaseScript.Yaml doc) /\
    doc !! "attacher provisioner" = Some fields /\
    fields !! "tag" = None /\
    fields !! "manifestDigest" = None /\
    ~ ScriptLogic.up_to_date Examples.by_length EdgeWorlds.world_with_blank_key fields.
Proof.
  split; [vm_compute; reflexivity |].
  eexists _, _. split; [vm_compute; reflexivity |]. split; [vm_compute; reflexivity |].
  split; [vm_compute; reflexivity |]. split; [vm_compute; reflexivity |].
  split; [vm_compute; reflexivity |].
  intros (tags & TAG & digest & _ & _ & _ & _ & Htag & _).
  vm_compute in Htag. discriminate Htag.
Qed.

(** With a temporary name of one word (no blank and no pattern
    character), the file that [mktemp] created is gone when the shell
    process ends, however the script ended. *)
Lemma temp_removed_when_one_word
    (version_le : string -> string -> bool) (w : ReleaseScript.world) (p : string) :
  ReleaseScript.mktemp w = Some p ->
  ScriptLogic.shell_word p = true ->
  ReleaseScript.disk w !! p = None ->
  ReleaseScript.files (snd (ReleaseScript.run_script version_le w)) !! p = None.
Proof.
  pose proof (ScriptProofs.run_script_spec version_le w) as H.
  destruct (ReleaseScript.run_script version_le w) as [n s]. cbn [snd].
  intros Hp Hword Hfresh.
  destruct H as (_ & _ & _ & H).
  assert (Hplain : ScriptLogic.plain_tmp w = true).
  { unfold ScriptLogic.plain_tmp. now rewrite Hp. }
  destruct (H Hplain) as (_ & _ & Hrm & _). now apply Hrm.
Qed.

(** C10. The [EXIT] trap of line 53 is [rm $tmp_filename], the expansion
    unquoted, where lines 67 and 69 quote it.  With [TMPDIR] set to
    [/tmp/release files], [mktemp] creates [/tmp/release files/tmp.k3J9xQ];
    the script does all its work, and at the end [rm] gets the two
    operands [/tmp/release] and [files/tmp.k3J9xQ], removes nothing and
    fails: the temporary file is still there when the shell process ends,
    and the status is 1.  Where the name is one word, the file that
    [mktemp] created is gone however the script ended: by reaching its
    last line, by the [exit 1] of the dependency check, or by a failing
    command. *)
Theorem temporary_file_survives_blank_in_name :
  (let '(n, s) :=
     ReleaseScript.run_script Examples.by_length Examples.world_with_blank_tmpdir in
   n = 1%Z /\
   ReleaseScript.mktemp Examples.world_with_blank_tmpdir
     = Some "/tmp/release files/tmp.k3J9xQ" /\
   ReleaseScript.disk Examples.world_with_blank_tmpdir
     !! "/tmp/release files/tmp.k3J9xQ" = None /\
   is_Some (ReleaseScript.files s !! "/tmp/release files/tmp.k3J9xQ") /\
   List.find (fun c => ReleaseScript.c_name c =? "rm") (ReleaseScript.history s)
     = Some {| ReleaseScript.c_line := 53; ReleaseScript.c_name := "rm";
               ReleaseScript.c_args := ["/tmp/release"; "files/tmp.k3J9xQ"];
               ReleaseScript.c_status := 1 |}) /\
  (forall (version_le : string -> string -> bool) (w : ReleaseScript.world) (p : string),
     ReleaseScript.mktemp w = Some p ->
     ScriptLogic.shell_word p = true ->
     ReleaseScript.disk w !! p = None ->
     ReleaseScript.files (snd (ReleaseScript.run_script version_le w)) !! p = None).
Proof.
  split; [| exact temp_removed_when_one_word].
  vm_compute. repeat split; try reflexivity. eexists. reflexivity.
Qed.

Lemma temporary_file_survives_blank_in_name_witness :
  ReleaseScript.files
    (snd (ReleaseScript.run_script Examples.by_length Examples.world_without_template))
    !! "/tmp/tmp.k3J9xQ" = None.
Proof.
  destruct temporary_file_survives_blank_in_name as [_ H].
  apply (H Examples.by_length Examples.world_without_template "/tmp/tmp.k3J9xQ");
    reflexivity.
Defined.

(** C4. With every tool installed but the template file missing, [cp]
    (line 56, inside [generate_image_digests_file]) fails: the script ends
    with status 1, yet [error_handler] has not run and nothing has been
    written to stderr.  The [ERR] trap is not in force inside functions,
    and all the work is done inside [main]: whatever fails, in no world
    where the temporary file has a one-word name does the [printf] of
    [error_handler] run, and stderr holds nothing but the lines of [log].
    The exit status is as claimed: it is not 0 when a command has failed.
    Taken by hand after a failure of [main] at line 89, the trap puts the
    line number after [script:] and the exit status after [at line:]. *)
Theorem failure_inside_function_skips_error_handler
    (version_le : string -> string -> bool) :
  (let '(n, s) := ReleaseScript.run_script version_le Examples.world_without_template in
   n = 1%Z /\
   ReleaseScript.stderr s = [] /\
   map Examples.summary (ReleaseScript.history s) =
     [ (23, "realpath", 0%Z); (23, "dirname", 0%Z); (27, "mktemp", 0%Z);
       (38, "command", 0%Z); (38, "command", 0%Z); (38, "command", 0%Z);
       (56, "cp", 1%Z); (53, "rm", 0%Z) ]) /\
  (forall w : ReleaseScript.world,
     ScriptLogic.plain_tmp w = true ->
     forallb ScriptLogic.outside_handler
       (ReleaseScript.history (snd (ReleaseScript.run_script version_le w))) = true /\
     Forall (ScriptLogic.is_info w)
       (ReleaseScript.stderr (snd (ReleaseScript.run_script version_le w)))) /\
  (forall w : ReleaseScript.world,
     forallb ScriptLogic.succeeded
       (ReleaseScript.history (snd (ReleaseScript.run_script version_le w))) = false ->
     fst (ReleaseScript.run_script version_le w) <> 0%Z) /\
  ReleaseScript.stderr
    (snd (ReleaseScript.on_ERR ReleaseScript.ErrorHandlerTrap 89
            (ReleaseScript.set_bash_command "main"
               (ReleaseScript.set_last_status 1
                  (ReleaseScript.init Examples.world_without_template)))))
    = ["Error occurred in script: 89, at line: 1. Command: main. Error: main"].
Proof.
  split; [vm_compute; repeat split; reflexivity |].
  split; [| split; [| vm_compute; reflexivity]].
  - intros w Hw. pose proof (ScriptProofs.run_script_spec version_le w) as H.
    destruct (ReleaseScript.run_script version_le w) as [n s]. cbn [snd].
    destruct H as (_ & _ & _ & H). destruct (H Hw) as (H1 & H2 & _). now split.
  - intros w. pose proof (ScriptProofs.run_script_spec version_le w) as H.
    destruct (ReleaseScript.run_script version_le w) as [n s]. cbn [fst snd].
    destruct H as (_ & _ & H & _). intros Hfail ->. rewrite H in Hfail by reflexivity.
    discriminate.
Qed.


(** ** No retry, no recovery *)

Lemma halt_is_final {A B} (h : handler) (m : Test A) (f : A -> Test B) (v : verdict) :
  outcome h m = inr v -> run h (m ≫= f) = (trace h m, inr v).
Proof.
  unfold outcome, trace. rewrite run_bind.
  destruct (run h m) as [tr [a | v']]; simpl; [discriminate | congruence].
Qed.

(** C6. Every spec body and validation closure issues its requests at
    fixed source lines, in increasing line order and at most once each; a
    run that passes has issued every one of them exactly once; once an
    assertion has failed (or the spec was skipped, or panicked) nothing
    that follows in the body runs.  The release script runs only its fixed
    set of tools (no [sleep]), and after the first command that fails only
    the rest of that command's own line and the reporting and clean-up
    commands ([date], [printf], [rm]) run. *)
Theorem no_retry_no_recovery :
  (forall (ext : ParameterTests.externals) (ns : Namespace.t),
     Forall (fun t =>
               exists sites,
                 increasing sites = true /\
                 forall h : handler,
                   lines_of (trace h t) `prefix_of` sites /\
                   (passes h t -> lines_of (trace h t) = sites))
       (units (ParameterTests.suite ext ns))) /\
  (forall (A B : Type) (h : handler) (m : Test A) (f : A -> Test B) (v : verdict),
     outcome h m = inr v -> run h (m ≫= f) = (trace h m, inr v)) /\
  (forall (version_le : string -> string -> bool) (w : ReleaseScript.world),
     let history := ReleaseScript.history (snd (ReleaseScript.run_script version_le w)) in
     forallb ScriptLogic.is_tool history = true /\
     ScriptLogic.quiet_after_failure history = true) /\
  existsb (String.eqb "sleep") ScriptLogic.tools = false.
Proof.
  split; [| split; [| split]].
  - intros ext ns. eapply Forall_impl; [apply suite_linear |].
    intros t (sites & Hinc & Hlin). exists sites. split; [exact Hinc |].
    intros h. destruct (Linear_trace sites t Hlin h) as [Hp He].
    split; [exact Hp |]. intros Hpass. exact (He tt Hpass).
  - intros A B h m f v. apply halt_is_final.
  - intros version_le w.
    pose proof (ScriptProofs.run_script_spec version_le w) as H.
    destruct (ReleaseScript.run_script version_le w) as [n s]. cbn [snd].
    destruct H as (Ht & Hq & _). split; assumption.
  - reflexivity.
Qed.

(** C3. Whatever the cluster and the cloud answer, every EC2 request that
    a spec body or a validation closure of the test file issues is
    [DescribeVolumes] and each of its filters is a [tag:] filter; the
    release script runs only its fixed tools, none of which is an AWS
    client. *)
Theorem ec2_calls_describe_volumes_by_tag :
  (forall (ext : ParameterTests.externals) (ns : Namespace.t) (h : handler),
     Forall (fun t =>
               Forall (fun ev =>
                         describe_volumes_by_tag (ev_type ev) (ev_line ev) (ev_call ev))
                 (trace h t))
       (units (ParameterTests.suite ext ns))) /\
  (forall (version_le : string -> string -> bool) (w : ReleaseScript.world),
     forallb ScriptLogic.is_tool
       (ReleaseScript.history (snd (ReleaseScript.run_script version_le w))) = true) /\
  existsb (String.eqb "aws") ScriptLogic.tools = false.
Proof.
  split; [| split].
  - intros ext ns h. eapply Forall_impl; [apply suite_tag_filters |].
    intros t Ht. now apply AllCalls_trace.
  - intros version_le w.
    pose proof (ScriptProofs.run_script_spec version_le w) as H.
    destruct (ReleaseScript.run_script version_le w) as [n s]. cbn [snd].
    now destruct H as (Ht & _).
  - reflexivity.
Qed.

(** ** The generated mock *)

Lemma mocks_base_method_total (m : Mock.MockKubernetesClient) (name : string)
    (I : Mock.iface) (ret : list Mock.any) (x : Mock.any) :
  Mock.Call (Mock.ctrl m) name [] = Mock.Returned ret ->
  ret !! 0%nat = Some x ->
  Mock.mocks_base_method m name I = Mock.Returned (if has_type x I then x else None).
Proof.
  intros Hcall Hx. unfold Mock.mocks_base_method, Mock.index. rewrite Hcall.
  cbn [mbind Mock.go_bind]. rewrite Hx. cbn [mbind Mock.go_bind].
  unfold Mock.type_assert2, has_type. destruct x as [d |]; [| reflexivity].
  destruct (Mock.implements d I); reflexivity.
Qed.

(** C9. Each of the 54 mocked methods of [MockKubernetesClient] hands the
    call to the controller under its own name and, given the recorded
    results, returns the first one when it is of the declared interface
    type and the nil interface otherwise; it does not panic on a value of
    another type. *)
Theorem mocked_methods_return_zero_value_on_type_mismatch
    (name : string) (I : Mock.iface) (method : Mock.MockKubernetesClient -> Mock.go Mock.any)
    (m : Mock.MockKubernetesClient) (ret : list Mock.any) (x : Mock.any) :
  In (name, I, method) Mock.methods ->
  Mock.Call (Mock.ctrl m) name [] = Mock.Returned ret ->
  ret !! 0%nat = Some x ->
  method m = Mock.Returned (if has_type x I then x else None) /\
  (has_type x I = false -> method m = Mock.Returned None).
Proof.
  intros Hin Hcall Hx.
  assert (H : method m = Mock.Returned (if has_type x I then x else None)).
  { unfold Mock.methods in Hin. simpl in Hin.
    repeat (destruct Hin as [[= <- <- <-] | Hin];
            [now apply (mocks_base_method_total m _ _ ret x) |]).
    destruct Hin. }
  split; [exact H |]. intros Hty. now rewrite H, Hty.
Qed.

Lemma mocked_methods_return_zero_value_on_type_mismatch_witness :
  Mock.CoreV1 (Mock.NewMockKubernetesClient (Examples.controller_returning (Some Examples.stray)))
  = Mock.Returned None.
Proof.
  apply (mocked_methods_return_zero_value_on_type_mismatch
           "CoreV1" Mock.CoreV1Interface Mock.CoreV1
           (Mock.NewMockKubernetesClient (Examples.controller_returning (Some Examples.stray)))
           [Some Examples.stray] (Some Examples.stray)).
  - unfold Mock.methods. simpl. tauto.
  - reflexivity.
  - reflexivity.
  - reflexivity.
Defined.

(** ** The Makefile target *)

Lemma unknown_param_set (ps : option string) :
  ~ In (Makefile.expand ps) Makefile.recognized ->
  exists msg, Makefile.make (Makefile.e2e_parameters ps) = Makefile.MakeError msg.
Proof.
  intros Hno. unfold Makefile.e2e_parameters, Makefile.make.
  destruct (Makefile.ifndef ps); [eexists; reflexivity |].
  cbn [app]. unfold Makefile.ifeq.
  repeat match goal with
         | |- context [Makefile.expand ps =? ?name] =>
             let E := fresh "E" in
             destruct (Makefile.expand ps =? name) eqn:E;
             [ apply String.eqb_eq in E; exfalso; apply Hno; rewrite E;
               vm_compute; tauto |]
         end.
  eexists. reflexivity.
Qed.

(** C7. The target [e2e/parameters] stops with an error when [PARAM_SET]
    is undefined (or empty) and when it is none of the twelve recognized
    names.  For each recognized name it runs [./hack/e2e/run.sh] exactly
    once, with a [GINKGO_FOCUS] that selects, among the specs of the test
    file, exactly those carrying a [param:] label of that parameter set. *)
Theorem e2e_parameters_target :
  (forall ps, Makefile.ifndef ps = true ->
     exists msg, Makefile.make (Makefile.e2e_parameters ps) = Makefile.MakeError msg) /\
  (forall ps, ~ In (Makefile.expand ps) Makefile.recognized ->
     exists msg, Makefile.make (Makefile.e2e_parameters ps) = Makefile.MakeError msg) /\
  (forall (ext : ParameterTests.externals) (ns : Namespace.t),
     Forall (fun set => runs_param_set (ParameterTests.suite ext ns) (fst set) (snd set))
       Makefile.param_sets).
Proof.
  split; [| split].
  - intros ps Hps. unfold Makefile.e2e_parameters, Makefile.make. rewrite Hps.
    eexists. reflexivity.
  - apply unknown_param_set.
  - intros ext ns. unfold Makefile.param_sets.
    repeat (apply List.Forall_cons; [|]); [.. | apply List.Forall_nil];
      (eexists _, _, _;
       split; [reflexivity |]; split; [reflexivity |];
       split; [vm_compute; reflexivity |];
       split; [vm_compute; reflexivity |];
       split; vm_compute; reflexivity).
Qed.

(** ** The Makefile: which specs the targets reach *)

Lemma e2e_parameters_ran (ps : option string) cmds :
  Makefile.make (Makefile.e2e_parameters ps) = Makefile.Ran cmds ->
  exists name, In name Makefile.recognized /\ ps = Some name.
Proof.
  intros Hran.
  destruct (in_dec string_dec (Makefile.expand ps) Makefile.recognized) as [Hin | Hno].
  - destruct ps as [name |]; [exists name; split; [exact Hin | reflexivity] |].
    vm_compute in Hran. discriminate.
  - destruct (unknown_param_set ps Hno) as [msg Hmsg]. congruence.
Qed.

(** X1. No value of [PARAM_SET] makes [e2e/parameters] run one of the
    seventeen specs of [Targets.unreached]; every other spec of the test
    file is run by exactly one recognized parameter set, except the three
    storage-class specs, which [standard] and [storage-classes] both run. *)
Theorem parameter_sets_reach (ext : ParameterTests.externals) (ns : Namespace.t) :
  (forall (ps : option string) (s : ParameterTests.spec),
     In s (ParameterTests.suite ext ns) ->
     In (ParameterTests.param s) Targets.unreached ->
     Targets.runs (Makefile.make (Makefile.e2e_parameters ps)) s = false) /\
  Forall (fun s =>
            Targets.times_run s =
            if existsb (String.eqb (ParameterTests.param s)) Targets.unreached then 0%nat
            else if existsb (String.eqb (ParameterTests.param s)) Targets.run_twice then 2%nat
            else 1%nat)
    (ParameterTests.suite ext ns).
Proof.
  split.
  - intros ps s Hs Hun.
    destruct (Makefile.make (Makefile.e2e_parameters ps)) as [msg | cmds] eqn:Hmake;
      [reflexivity |].
    destruct (e2e_parameters_ran ps cmds Hmake) as (name & Hname & ->).
    rewrite <- Hmake. clear Hmake cmds.
    assert (Hall : forallb (fun name =>
                      forallb (fun s =>
                                 negb (existsb (String.eqb (ParameterTests.param s))
                                         Targets.unreached)
                                 || negb (Targets.runs
                                            (Makefile.make (Makefile.e2e_parameters (Some name))) s))
                        (ParameterTests.suite ext ns))
                     Makefile.recognized = true) by (vm_compute; reflexivity).
    rewrite forallb_forall in Hall. specialize (Hall name Hname).
    rewrite forallb_forall in Hall. specialize (Hall s Hs).
    assert (Hex : existsb (String.eqb (ParameterTests.param s)) Targets.unreached = true).
    { apply existsb_exists. exists (ParameterTests.param s). split; [exact Hun |].
      apply String.eqb_refl. }
    rewrite Hex in Hall. cbn [negb orb] in Hall. now apply negb_true_iff in Hall.
  - apply List.Forall_forall. intros s Hs.
    assert (Hall : forallb (fun s =>
               Nat.eqb (Targets.times_run s)
                 (if existsb (String.eqb (ParameterTests.param s)) Targets.unreached then 0
                  else if existsb (String.eqb (ParameterTests.param s)) Targets.run_twice then 2
                  else 1)%nat)
              (ParameterTests.suite ext ns) = true) by (vm_compute; reflexivity).
    rewrite forallb_forall in Hall. now apply Nat.eqb_eq, Hall.
Qed.


(** X2. [e2e/parameters-all] passes recognized parameter sets only: none of its
    sub-makes stops with an error, and it runs [run.sh] eight times.  A
    spec is run by it exactly when a parameter set other than
    [metadata-labeler], [legacy-compat], [selinux] and [fips] runs it. *)
Theorem parameters_all_runs (ext : ParameterTests.externals) (ns : Namespace.t) :
  exists cmds,
    Targets.run_all Targets.e2e_parameters_all = Makefile.Ran cmds /\
    map snd cmds = repeat "./hack/e2e/run.sh" 8 /\
    Forall (fun s =>
              Targets.runs (Makefile.Ran cmds) s =
              existsb (fun name =>
                         negb (existsb (String.eqb name) Targets.left_out) &&
                         Targets.runs (Makefile.make (Makefile.e2e_parameters (Some name))) s)
                Makefile.recognized)
      (ParameterTests.suite ext ns).
Proof.
  eexists. split; [vm_compute; reflexivity |]. split; [reflexivity |].
  apply List.Forall_forall. intros s Hs.
  match goal with
  | |- Targets.runs ?r s = existsb ?f Makefile.recognized =>
      assert (Hall : forallb (fun s => Bool.eqb (Targets.runs r s)
                                         (existsb (fun name =>
                         negb (existsb (String.eqb name) Targets.left_out) &&
                         Targets.runs (Makefile.make (Makefile.e2e_parameters (Some name))) s)
                                            Makefile.recognized))
                       (ParameterTests.suite ext ns) = true) by (vm_compute; reflexivity)
  end.
  rewrite forallb_forall in Hall. now apply Bool.eqb_prop, Hall.
Qed.

(** X3. The targets [e2e/single-az], [e2e/multi-az] and [e2e/disruptive] run no
    spec of the parameter test file: the focus of [e2e/single-az] matches
    every one of them and its skip expression removes them all; the focus
    of the other two matches none. *)
Theorem other_targets_skip_parameter_specs
    (ext : ParameterTests.externals) (ns : Namespace.t) :
  Forall (fun s =>
            Targets.line_selects Targets.e2e_single_az s = Some false /\
            Makefile.selects "\[ebs-csi-e2e\] \[single-az\]" (ParameterTests.full_text s) = true /\
            Makefile.selects "\[param:" (ParameterTests.full_text s) = true /\
            Targets.line_selects Targets.e2e_multi_az s = Some false /\
            Targets.line_selects Targets.e2e_disruptive s = Some false)
    (ParameterTests.suite ext ns).
Proof.
  apply List.Forall_forall. intros s Hs.
  assert (Hall : forallb (fun s =>
            match Targets.line_selects Targets.e2e_single_az s,
                  Targets.line_selects Targets.e2e_multi_az s,
                  Targets.line_selects Targets.e2e_disruptive s with
            | Some false, Some false, Some false =>
                Makefile.selects "\[ebs-csi-e2e\] \[single-az\]" (ParameterTests.full_text s)
                && Makefile.selects "\[param:" (ParameterTests.full_text s)
            | _, _, _ => false
            end) (ParameterTests.suite ext ns) = true) by (vm_compute; reflexivity).
  rewrite forallb_forall in Hall. specialize (Hall s Hs).
  destruct (Targets.line_selects Targets.e2e_single_az s) as [[] |]; try discriminate.
  destruct (Targets.line_selects Targets.e2e_multi_az s) as [[] |]; try discriminate.
  destruct (Targets.line_selects Targets.e2e_disruptive s) as [[] |]; try discriminate.
  apply andb_true_iff in Hall as [H1 H2]. auto.
Qed.


(** ** The image targets of the Makefile *)

Section MakeWords.
Import ImageTargets.

Lemma append_cons (c : ascii) (a b : string) : String c a +:+ b = String c (a +:+ b).
Proof. reflexivity. Qed.

Lemma has_char_app (p : ascii -> bool) (a b : string) :
  has_char p (a +:+ b) = has_char p a || has_char p b.
Proof.
  induction a as [| c a IH]; [reflexivity |].
  rewrite append_cons. cbn [has_char]. rewrite IH. apply orb_assoc.
Qed.

Lemma append_empty (a : string) : a +:+ "" = a.
Proof. induction a as [| c a IH]; [reflexivity |]. rewrite append_cons. now f_equal. Qed.

Lemma split_blank_cons (s : string) : exists w ws, split_blank s = w :: ws.
Proof.
  induction s as [| c s (w & ws & IH)]; [now exists "", [] |].
  cbn [split_blank]. destruct (is_blank c); [eauto |]. rewrite IH. eauto.
Qed.

Lemma split_blank_app (s1 s2 : string) (b : ascii) :
  is_blank b = true ->
  split_blank (s1 +:+ String b s2) = split_blank s1 ++ split_blank s2.
Proof.
  intros Hb. induction s1 as [| c s1 IH].
  - change ("" +:+ String b s2) with (String b s2). cbn [split_blank]. now rewrite Hb.
  - rewrite append_cons. cbn [split_blank]. rewrite IH.
    destruct (is_blank c); [reflexivity |].
    destruct (split_blank_cons s1) as (w & ws & ->). reflexivity.
Qed.

Lemma words_app (s1 s2 : string) (b : ascii) :
  is_blank b = true ->
  make_words (s1 +:+ String b s2) = make_words s1 ++ make_words s2.
Proof.
  intros Hb. unfold make_words. rewrite (split_blank_app s1 s2 b Hb).
  apply List.filter_app.
Qed.

Lemma words_blank (s : string) (b : ascii) :
  is_blank b = true -> make_words (String b s) = make_words s.
Proof. intros Hb. unfold make_words. cbn [split_blank]. now rewrite Hb. Qed.

Lemma words_space (s : string) : make_words (" " +:+ s) = make_words s.
Proof. apply (words_blank s " " eq_refl). Qed.

Lemma split_blank_free (w : string) :
  has_char is_blank w = false -> split_blank w = [w].
Proof.
  induction w as [| c w IH]; [reflexivity |].
  cbn [has_char split_blank]. intros H. apply orb_false_iff in H. destruct H as [Hc Hw].
  rewrite Hc, (IH Hw). reflexivity.
Qed.

Lemma words_word (w : string) :
  w <> "" -> has_char is_blank w = false -> make_words w = [w].
Proof.
  intros Hne Hw. unfold make_words. rewrite (split_blank_free w Hw). cbn [List.filter].
  destruct (w =? "") eqn:E; [apply String.eqb_eq in E; contradiction | reflexivity].
Qed.

Lemma split_blank_pieces (s : string) :
  Forall (fun w => has_char is_blank w = false) (split_blank s).
Proof.
  induction s as [| c s IH]; [repeat constructor |].
  cbn [split_blank]. destruct (is_blank c) eqn:Hc; [constructor; [reflexivity | exact IH] |].
  destruct (split_blank s) as [| w ws]; [repeat constructor; cbn; now rewrite Hc |].
  inversion IH as [| ? ? Hw Hws]; subst. constructor; [| exact Hws].
  cbn [has_char]. now rewrite Hc, Hw.
Qed.

Lemma words_are_words (s w : string) :
  In w (make_words s) -> w <> "" /\ has_char is_blank w = false.
Proof.
  unfold make_words. intros H. apply List.filter_In in H. destruct H as [Hin Hne].
  split.
  - intros ->. discriminate Hne.
  - pose proof (split_blank_pieces s) as Hall. rewrite List.Forall_forall in Hall. auto.
Qed.

Lemma words_concat (l : list string) :
  make_words (String.concat " " l) = flat_map make_words l.
Proof.
  induction l as [| x l IH]; [reflexivity |].
  destruct l as [| y l].
  - cbn [String.concat flat_map]. now rewrite app_nil_r.
  - change (String.concat " " (x :: y :: l))
      with (x +:+ String " " (String.concat " " (y :: l))).
    rewrite (words_app x _ " " eq_refl), IH. reflexivity.
Qed.

Lemma flat_map_in_ext {A B} (f g : A -> list B) (l : list A) :
  (forall a, In a l -> f a = g a) -> flat_map f l = flat_map g l.
Proof.
  induction l as [| a l IH]; intros H; [reflexivity |].
  cbn [flat_map]. rewrite (H a (or_introl eq_refl)), IH; [reflexivity |].
  intros b Hb. apply H. now right.
Qed.

Lemma flat_map_singletons {A B} (f : A -> B) (l : list A) :
  flat_map (fun a => [f a]) l = map f l.
Proof. induction l as [| a l IH]; [reflexivity |]. cbn. now rewrite IH. Qed.

Lemma words_foreach (list : string) (text : string -> string) :
  make_words (foreach list text)
  = flat_map (fun w => make_words (text w)) (make_words list).
Proof.
  unfold foreach. rewrite words_concat.
  induction (make_words list) as [| w ws IH]; [reflexivity |].
  cbn [map flat_map]. now rewrite IH.
Qed.

(** The words of [$(foreach arch, ..., $(foreach osversion, ..., os-$(arch)-${osversion}))]. *)
Lemma words_per_os (os archs osversions : string) :
  os <> "" -> has_char is_blank os = false ->
  make_words
    (foreach (" " +:+ archs) (fun arch =>
       " " +:+ foreach (" " +:+ osversions) (fun osversion =>
         " " +:+ os +:+ "-" +:+ arch +:+ "-" +:+ osversion)))
  = flat_map (fun arch =>
      map (fun osversion => os +:+ "-" +:+ arch +:+ "-" +:+ osversion)
        (make_words osversions))
      (make_words archs).
Proof.
  intros Hne Hos. rewrite words_foreach, words_space.
  apply flat_map_in_ext. intros arch Harch.
  destruct (words_are_words _ _ Harch) as [_ Ha].
  rewrite words_space, words_foreach, words_space.
  rewrite <- flat_map_singletons. apply flat_map_in_ext. intros osversion Hosv.
  destruct (words_are_words _ _ Hosv) as [_ Ho].
  rewrite words_space. apply words_word.
  - destruct os; [contradiction | discriminate].
  - rewrite !has_char_app, Hos, Ha, Ho. reflexivity.
Qed.

Lemma words_ALL_OS_ARCH_OSVERSION (v : variables) :
  make_words (ALL_OS_ARCH_OSVERSION v)
  = flat_map (fun os =>
      flat_map (fun arch =>
        map (fun osversion => os +:+ "-" +:+ arch +:+ "-" +:+ osversion)
          (make_words (ALL_OSVERSION v os)))
        (make_words (ALL_ARCH v os)))
      (make_words (ALL_OS v)).
Proof.
  unfold ALL_OS_ARCH_OSVERSION. rewrite words_foreach, words_space.
  apply flat_map_in_ext. intros os _. rewrite words_space.
  unfold ALL_OS_ARCH_OSVERSION_of, ALL_ARCH, ALL_OSVERSION.
  destruct (os =? "linux") eqn:El.
  - apply String.eqb_eq in El. subst os.
    apply (words_per_os "linux"); [discriminate | reflexivity].
  - destruct (os =? "windows") eqn:Ew; [| reflexivity].
    apply String.eqb_eq in Ew. subst os.
    apply (words_per_os "windows"); [discriminate | reflexivity].
Qed.

Lemma all_image_registry_words (v : variables) :
  all_image_registry v
  = map (fun w => "sub-image-" +:+ w) (make_words (ALL_OS_ARCH_OSVERSION v)).
Proof.
  unfold all_image_registry, addprefix. rewrite words_concat.
  assert (H : forall l : list string,
             flat_map make_words (map (fun name => "sub-image-" +:+ name) l)
             = flat_map (fun w => make_words ("sub-image-" +:+ w)) l).
  { induction l as [| w ws IH]; [reflexivity |]. cbn [map flat_map]. now rewrite IH. }
  rewrite H, <- flat_map_singletons. apply flat_map_in_ext. intros w Hw.
  destruct (words_are_words _ _ Hw) as [_ Hb]. apply words_word; [discriminate |].
  rewrite has_char_app, Hb. reflexivity.
Qed.

Lemma subst_hyphen_free (a s : string) :
  hyphen_free a = true ->
  subst_from "-" " " 0 (a +:+ s) = a +:+ subst_from "-" " " 0 s.
Proof.
  unfold hyphen_free. induction a as [| c a IH]; intros H; [reflexivity |].
  cbn [has_char] in H. apply negb_true_iff, orb_false_iff in H. destruct H as [Hc Ha].
  rewrite !append_cons. cbn [subst_from has_prefix]. rewrite Hc. cbn [andb].
  rewrite IH; [reflexivity | now rewrite Ha].
Qed.

Lemma subst_three (os arch osversion : string) :
  hyphen_free os = true -> hyphen_free arch = true -> hyphen_free osversion = true ->
  subst "-" " " (os +:+ "-" +:+ arch +:+ "-" +:+ osversion)
  = os +:+ " " +:+ arch +:+ " " +:+ osversion.
Proof.
  intros Hos Harch Hosv. unfold subst. cbn [String.eqb Ascii.eqb].
  change (subst_from "-" " " 0 (os +:+ String "-" (arch +:+ String "-" osversion))
          = os +:+ String " " (arch +:+ String " " osversion)).
  rewrite (subst_hyphen_free os _ Hos). f_equal.
  cbn [subst_from has_prefix Ascii.eqb Bool.eqb andb String.length Nat.sub].
  change (" " +:+ subst_from "-" " " 0 (arch +:+ String "-" osversion))
    with (String " " (subst_from "-" " " 0 (arch +:+ String "-" osversion))).
  f_equal. rewrite (subst_hyphen_free arch _ Harch). f_equal.
  cbn [subst_from has_prefix Ascii.eqb Bool.eqb andb String.length Nat.sub].
  change (" " +:+ subst_from "-" " " 0 osversion)
    with (String " " (subst_from "-" " " 0 osversion)).
  f_equal. rewrite <- (append_empty osversion) at 1.
  rewrite (subst_hyphen_free osversion "" Hosv). apply append_empty.
Qed.

Lemma words_three (os arch osversion : string) :
  os <> "" -> has_char is_blank os = false ->
  arch <> "" -> has_char is_blank arch = false ->
  osversion <> "" -> has_char is_blank osversion = false ->
  make_words (os +:+ " " +:+ arch +:+ " " +:+ osversion) = [os; arch; osversion].
Proof.
  intros H1 H2 H3 H4 H5 H6.
  change (make_words (os +:+ String " " (arch +:+ String " " osversion))
          = [os; arch; osversion]).
  rewrite (words_app os _ " " eq_refl), (words_app arch _ " " eq_refl).
  now rewrite !words_word.
Qed.

Lemma plain_has_no (d : ascii) (s : string) :
  is_plain_char d = false -> all_chars is_plain_char s = true ->
  has_char (Ascii.eqb d) s = false.
Proof.
  intros Hd. induction s as [| c s IH]; [reflexivity |].
  cbn [all_chars has_char]. intros H. apply andb_true_iff in H. destruct H as [Hc Hs].
  rewrite (IH Hs), orb_false_r. destruct (Ascii.eqb d c) eqn:E; [| reflexivity].
  apply Ascii.eqb_eq in E. subst d. congruence.
Qed.

Lemma plain_hyphen_free (s : string) :
  all_chars is_plain_char s = true -> hyphen_free s = true.
Proof.
  intros H. unfold hyphen_free. now rewrite (plain_has_no "-" s eq_refl H).
Qed.

Lemma plain_slash_free (s : string) :
  all_chars is_plain_char s = true -> slash_free s = true.
Proof.
  intros H. unfold slash_free. now rewrite (plain_has_no "/" s eq_refl H).
Qed.

Lemma no_inner_slash (s : string) : slash_free s = true -> has_inner_slash s = false.
Proof.
  unfold slash_free. induction s as [| c s IH]; [reflexivity |].
  cbn [has_char has_inner_slash]. intros H.
  apply negb_true_iff, orb_false_iff in H. destruct H as [Hc Hs].
  rewrite Ascii.eqb_sym, Hc. cbn [andb orb]. apply IH. now rewrite Hs.
Qed.

(** A target without a slash has no directory part. *)
Lemma split_dir_slash_free (s : string) : slash_free s = true -> split_dir s = ("", s).
Proof.
  intros H. destruct s as [| c s]; [reflexivity |].
  cbn [split_dir]. now rewrite (no_inner_slash _ H).
Qed.

Lemma slash_free_app (a b : string) :
  slash_free (a +:+ b) = slash_free a && slash_free b.
Proof. unfold slash_free. rewrite has_char_app. apply negb_orb. Qed.

Lemma sub_image_decodes (MAKE os arch osversion : string) :
  os <> "" -> has_char is_blank os = false -> hyphen_free os = true ->
  arch <> "" -> has_char is_blank arch = false -> hyphen_free arch = true ->
  osversion <> "" -> has_char is_blank osversion = false -> hyphen_free osversion = true ->
  slash_free os = true -> slash_free arch = true -> slash_free osversion = true ->
  sub_image MAKE ("sub-image-" +:+ os +:+ "-" +:+ arch +:+ "-" +:+ osversion)
  = Some (MAKE +:+ " OS=" +:+ os +:+ " ARCH=" +:+ arch
          +:+ " OSVERSION=" +:+ osversion +:+ " image").
Proof.
  intros H1 H2 H3 H4 H5 H6 H7 H8 H9 S1 S2 S3. unfold sub_image.
  assert (Hstem : stem ("sub-image-" +:+ os +:+ "-" +:+ arch +:+ "-" +:+ osversion)
                  = Some (os +:+ "-" +:+ arch +:+ "-" +:+ osversion)).
  { unfold stem. rewrite split_dir_slash_free.
    - destruct os as [| c os]; [contradiction | reflexivity].
    - rewrite !slash_free_app, S1, S2, S3. reflexivity. }
  rewrite Hstem. cbn [mbind option_bind]. unfold word_hyphen, word.
  rewrite (subst_three os arch osversion H3 H6 H9).
  rewrite (words_three os arch osversion H1 H2 H4 H5 H7 H8). reflexivity.
Qed.

End MakeWords.

(** The stem on a few targets, as [make] gives it for the rule
    [sub-image-%]: a slash in an architecture leaves the target without a
    rule. *)
Example stem_of_targets :
  map ImageTargets.stem
    ["sub-image-linux-amd64-al2023"; "sub-image-linux-arm/v7-al2023"; "dir/sub-image-a-b-c";
     "sub-image-x/"; "sub-image-"; "d/sub-image-"; "sub-image-a//"; "a/b/sub-image-q";
     "sub-image-linux-amd64-x/sub-image-y"]
  = [Some "linux-amd64-al2023"; None; Some "dir/a-b-c"; Some "x/"; None; Some "d/"; None;
     Some "a/b/q"; Some "sub-image-linux-amd64-x/y"].
Proof. vm_compute. reflexivity. Qed.


(** X5. As long as every OS, architecture and OS version is named with
    letters, digits, dots and underscores only (so that no name has a
    hyphen or a slash), the rule [sub-image-%] takes every prerequisite
    of [all-image-registry] apart into the components it was built from:
    the sub-make runs the target [image] with exactly that [OS], [ARCH]
    and [OSVERSION]. *)
Theorem sub_image_decodes_every_prerequisite (v : ImageTargets.variables)
    (MAKE : string) :
  ImageTargets.plain_names v ->
  Forall (fun target =>
            exists os arch osversion,
              In os (ImageTargets.make_words (ImageTargets.ALL_OS v)) /\
              In arch (ImageTargets.make_words (ImageTargets.ALL_ARCH v os)) /\
              In osversion (ImageTargets.make_words (ImageTargets.ALL_OSVERSION v os)) /\
              target = "sub-image-" +:+ os +:+ "-" +:+ arch +:+ "-" +:+ osversion /\
              ImageTargets.sub_image MAKE target
              = Some (MAKE +:+ " OS=" +:+ os +:+ " ARCH=" +:+ arch
                      +:+ " OSVERSION=" +:+ osversion +:+ " image"))
    (ImageTargets.all_image_registry v).
Proof.
  intros Hv. apply List.Forall_forall. intros target Ht.
  rewrite all_image_registry_words, words_ALL_OS_ARCH_OSVERSION in Ht.
  apply List.in_map_iff in Ht. destruct Ht as (w & <- & Hw).
  apply List.in_flat_map in Hw. destruct Hw as (os & Hos & Hw).
  apply List.in_flat_map in Hw. destruct Hw as (arch & Harch & Hw).
  apply List.in_map_iff in Hw. destruct Hw as (osversion & <- & Hosv).
  exists os, arch, osversion. repeat (split; [assumption || reflexivity |]).
  destruct (words_are_words _ _ Hos) as [Hos1 Hos2].
  destruct (words_are_words _ _ Harch) as [Ha1 Ha2].
  destruct (words_are_words _ _ Hosv) as [Ho1 Ho2].
  assert (Hplain : ImageTargets.all_chars ImageTargets.is_plain_char os = true /\
                   ImageTargets.all_chars ImageTargets.is_plain_char arch = true /\
                   ImageTargets.all_chars ImageTargets.is_plain_char osversion = true).
  { split; [apply Hv; rewrite !List.in_app_iff; auto |].
    unfold ImageTargets.ALL_ARCH, ImageTargets.ALL_OSVERSION in Harch, Hosv.
    destruct (os =? "linux") eqn:El.
    - split; apply Hv; rewrite !List.in_app_iff; auto.
    - destruct (os =? "windows") eqn:Ew; [| destruct Harch].
      split; apply Hv; rewrite !List.in_app_iff; auto 6. }
  destruct Hplain as (Hp1 & Hp2 & Hp3).
  apply sub_image_decodes;
    auto using plain_hyphen_free, plain_slash_free.
Qed.

Lemma sub_image_decodes_every_prerequisite_witness :
  Forall (fun target =>
            exists os arch osversion,
              In os (ImageTargets.make_words (ImageTargets.ALL_OS ImageTargets.defaults)) /\
              In arch (ImageTargets.make_words
                         (ImageTargets.ALL_ARCH ImageTargets.defaults os)) /\
              In osversion (ImageTargets.make_words
                              (ImageTargets.ALL_OSVERSION ImageTargets.defaults os)) /\
              target = "sub-image-" +:+ os +:+ "-" +:+ arch +:+ "-" +:+ osversion /\
              ImageTargets.sub_image "make" target
              = Some ("make" +:+ " OS=" +:+ os +:+ " ARCH=" +:+ arch
                      +:+ " OSVERSION=" +:+ osversion +:+ " image"))
    (ImageTargets.all_image_registry ImageTargets.defaults).
Proof.
  apply (sub_image_decodes_every_prerequisite ImageTargets.defaults "make").
  intros w Hw. vm_compute in Hw.
  repeat (destruct Hw as [<- | Hw]; [reflexivity |]). destruct Hw.
Defined.

(** ** The release script: what a run leaves behind *)

Section ScriptShape.
Import ReleaseScript ScriptLogic ScriptFacts.
Context (version_le : string -> string -> bool) (w : world).

Lemma same_but_tags_refl (doc : gmap string (gmap string string)) : same_but_tags doc doc.
Proof. intros key. destruct (doc !! key); auto. Qed.

Lemma same_but_tags_trans (d1 d2 d3 : gmap string (gmap string string)) :
  same_but_tags d1 d2 -> same_but_tags d2 d3 -> same_but_tags d1 d3.
Proof.
  intros H12 H23 key. specialize (H12 key). specialize (H23 key).
  destruct (d1 !! key), (d2 !! key), (d3 !! key); try tauto.
  intros field Ht Hm. rewrite H23, H12 by assumption. reflexivity.
Qed.

Lemma update_doc_shape (key : string) (doc doc' : gmap string (gmap string string)) :
  update_doc version_le w key doc = Some doc' ->
  is_Some (doc !! key) ->
  same_but_tags doc doc' /\
  exists fields, doc' !! key = Some fields /\ pinned version_le w fields /\
                 fields !! "tag" <> Some "".
Proof.
  unfold update_doc. intros Hup [fields0 Hkey].
  set (image := default "null" (doc !! key ≫= fun fs => fs !! "image")) in *.
  destruct (crane_ls w image) as [tags |] eqn:Htags; [| discriminate].
  cbn [mbind option_bind] in Hup. cbv zeta in Hup.
  destruct (latest_tag version_le tags =? "") eqn:Etag; [discriminate |].
  destruct (crane_digest w _) as [digest |] eqn:Hdigest; [| discriminate].
  cbn [mbind option_bind] in Hup.
  destruct (digest =? "") eqn:Edigest; [discriminate |]. injection Hup as <-.
  rewrite lookup_insert_eq. cbn [from_option id]. rewrite Hkey. cbn [from_option id].
  split.
  - intros k. destruct (decide (k = key)) as [-> | Hk].
    + rewrite Hkey, lookup_insert_eq. intros field Ht Hm.
      now rewrite !lookup_insert_ne by done.
    + rewrite !lookup_insert_ne by done. destruct (doc !! k); auto.
  - eexists. split; [apply lookup_insert_eq |].
    assert (Himage : default "null"
              (<["manifestDigest" := digest]>
                 (<["tag" := latest_tag version_le tags]> fields0) !! "image") = image).
    { rewrite !lookup_insert_ne by done. unfold image. now rewrite Hkey. }
    split.
    + unfold pinned. cbv zeta. rewrite Himage.
      exists tags, digest. split; [exact Htags |].
      split; [now rewrite lookup_insert_ne, lookup_insert_eq by done |].
      split; [exact Hdigest |]. apply lookup_insert_eq.
    + rewrite lookup_insert_ne, lookup_insert_eq by done. intros [= E].
      rewrite E in Etag. discriminate.
Qed.

Lemma pinned_same (doc1 doc2 : gmap string (gmap string string)) (key : string)
    (fields : gmap string string) :
  doc1 !! key = Some fields -> doc2 !! key = doc1 !! key -> doc2 !! key = Some fields.
Proof. congruence. Qed.

Lemma update_all_shape (keys : list string) (doc doc' : gmap string (gmap string string)) :
  List.NoDup keys ->
  (forall k, In k keys -> is_Some (doc !! k)) ->
  update_all version_le w keys doc = Some doc' ->
  same_but_tags doc doc' /\
  (forall k, In k keys -> exists fields, doc' !! k = Some fields /\ pinned version_le w fields /\
                                        fields !! "tag" <> Some "") /\
  (forall k, ~ In k keys -> doc' !! k = doc !! k).
Proof.
  intros Hnd. revert doc. induction Hnd as [| key keys Hnotin Hnd IH]; intros doc Hdom; simpl.
  - intros [= <-]. split; [apply same_but_tags_refl |]. split; [intros k [] | reflexivity].
  - destruct (update_doc version_le w key doc) as [doc1 |] eqn:Hup; [| discriminate].
    cbn [mbind option_bind]. intros Hall.
    destruct (update_doc_shape key doc doc1 Hup (Hdom key (or_introl eq_refl)))
      as (Hsame1 & fields & Hfields & Hpinned).
    assert (Hother : forall k, k <> key -> doc1 !! k = doc !! k).
    { intros k Hk. unfold update_doc in Hup.
      destruct (crane_ls w _); [| discriminate]. cbn [mbind option_bind] in Hup.
      cbv zeta in Hup. destruct (_ =? ""); [discriminate |].
      destruct (crane_digest w _); [| discriminate]. cbn [mbind option_bind] in Hup.
      destruct (_ =? ""); [discriminate |].
      injection Hup as <-. now rewrite !lookup_insert_ne by done. }
    assert (Hdom1 : forall k, In k keys -> is_Some (doc1 !! k)).
    { intros k Hk. rewrite Hother; [apply Hdom; now right |]. intros ->. contradiction. }
    destruct (IH doc1 Hdom1 Hall) as (Hsame & Hin & Hout).
    split; [exact (same_but_tags_trans _ _ _ Hsame1 Hsame) |]. split.
    + intros k [<- | Hk]; [| now apply Hin].
      exists fields. split; [| exact Hpinned]. now rewrite (Hout key Hnotin).
    + intros k Hk. rewrite Hout by tauto. apply Hother. intros ->. apply Hk. now left.
Qed.

(** The document a successful run leaves in the output file. *)
Lemma successful_run :
  plain_tmp w = true ->
  plain_keys w = true ->
  fst (run_script version_le w) = 0%Z ->
  exists out doc0 doc,
    template w = Some (Yaml doc0) /\
    vars (snd (run_script version_le w)) !! "OUTPUT_FILEPATH" = Some out /\
    files (snd (run_script version_le w)) !! out = Some (Yaml doc) /\
    same_but_tags doc0 doc /\
    forall key fields, doc !! key = Some fields ->
                       pinned version_le w fields /\ fields !! "tag" <> Some "".
Proof.
  pose proof (ScriptProofs.run_script_spec version_le w) as H.
  destruct (run_script version_le w) as [n s]. cbn [fst snd].
  intros Htmp Hkeys Hn.
  destruct H as (_ & _ & _ & H). destruct (H Htmp) as (_ & _ & _ & Hdone).
  destruct (Hdone Hn) as (out & doc0 & doc' & Htpl & Hall & Hout & Hf).
  unfold plain_keys in Hkeys. rewrite Htpl in Hkeys.
  rewrite (ScriptProofs.word_split_plain _ Hkeys) in Hall.
  assert (Hnd : List.NoDup (map_to_list doc0).*1).
  { apply NoDup_ListNoDup, NoDup_fst_map_to_list. }
  assert (Hkeys_in : forall k, In k (map_to_list doc0).*1 <-> is_Some (doc0 !! k)).
  { intros k. rewrite <- list_elem_of_In, list_elem_of_fmap. split.
    - intros ([k' v] & -> & Hkv). apply elem_of_map_to_list in Hkv. eauto.
    - intros [v Hv]. exists (k, v). split; [reflexivity |]. now apply elem_of_map_to_list. }
  destruct (update_all_shape _ doc0 doc' Hnd (fun k Hk => proj1 (Hkeys_in k) Hk) Hall)
    as (Hsame & Hin & Hout').
  exists out, doc0, doc'. split; [exact Htpl |]. split; [exact Hout |].
  split; [exact Hf |]. split; [exact Hsame |].
  intros key fields Hkey.
  destruct (doc0 !! key) as [fields0 |] eqn:H0.
  - destruct (Hin key) as (fields' & Hf' & Hp); [apply Hkeys_in; rewrite H0; eauto |].
    assert (fields' = fields) as -> by congruence. exact Hp.
  - specialize (Hsame key). rewrite H0, Hkey in Hsame. destruct Hsame.
Qed.

(** When nothing is left after [sed '/latest/d'], [tail -1] prints
    nothing. *)
Lemma latest_tag_without_candidate (tags : list string) :
  (forall t, In t tags -> contains "latest" t) -> latest_tag version_le tags = "".
Proof.
  intros Hall. unfold latest_tag.
  assert (Hnone : sed_delete "latest" tags = []).
  { destruct (sed_delete "latest" tags) as [| t l] eqn:E; [reflexivity |].
    assert (Hin : In t (sed_delete "latest" tags)) by (rewrite E; now left).
    apply ScriptProofs.sed_delete_In in Hin. destruct Hin as [Hin Hno].
    destruct (Hno (Hall t Hin)). }
  now rewrite Hnone.
Qed.

End ScriptShape.



(** X7. When every tag that [crane ls] lists for the image of some sidecar of
    the template contains [latest] (or none is listed), no run ends with
    status 0: the pipeline of line 63 leaves [TAG] empty, [yq] refuses
    [env(TAG)] at line 75 and [set -e] ends the script.  (The name of the
    temporary file is one word and the keys of the template are plain.) *)
Theorem no_candidate_fails_the_run (version_le : string -> string -> bool)
    (w : ReleaseScript.world) (doc0 : gmap string (gmap string string))
    (key : string) (fields0 : gmap string string) (tags : list string) :
  ScriptLogic.plain_tmp w = true ->
  ScriptLogic.plain_keys w = true ->
  ScriptLogic.template w = Some (ReleaseScript.Yaml doc0) ->
  doc0 !! key = Some fields0 ->
  ReleaseScript.crane_ls w (default "null" (fields0 !! "image")) = Some tags ->
  (forall t, In t tags -> ScriptLogic.contains "latest" t) ->
  fst (ReleaseScript.run_script version_le w) <> 0%Z.
Proof.
  intros Htmp Hkeys Htpl Hkey Htags Hall Hn.
  destruct (successful_run version_le w Htmp Hkeys Hn)
    as (out & doc0' & doc & Htpl' & Hout & Hf & Hsame & Hpinned).
  assert (doc0' = doc0) as -> by congruence.
  specialize (Hsame key). rewrite Hkey in Hsame.
  destruct (doc !! key) as [fields |] eqn:Hfields; [| destruct Hsame].
  destruct (Hpinned key fields Hfields)
    as ((tags' & digest & Htags' & Htag & _) & Hnonempty).
  cbv zeta in Htags', Htag. rewrite (Hsame "image") in Htags' by done.
  rewrite Htags in Htags'. injection Htags' as <-.
  rewrite (latest_tag_without_candidate version_le tags Hall) in Htag.
  contradiction.
Qed.

Lemma no_candidate_fails_the_run_witness :
  fst (ReleaseScript.run_script Examples.by_length EdgeWorlds.world_only_latest) <> 0%Z.
Proof.
  apply (no_candidate_fails_the_run Examples.by_length EdgeWorlds.world_only_latest
           Examples.template "attacher"
           {[ "image" := "registry.k8s.io/sig-storage/csi-attacher" ]} ["latest"]).
  - reflexivity.
  - vm_compute. reflexivity.
  - reflexivity.
  - vm_compute. reflexivity.
  - reflexivity.
  - intros t [<- | []]. exists "", "". reflexivity.
Defined.

Section MissingTool.
Import ReleaseScript ScriptLogic ScriptRules ScriptFacts ScriptProofs.
Context (version_le : string -> string -> bool) (w : world).

Lemma missing_tool_script (dir p tool : string) :
  script_dir w = Some dir ->
  mktemp w = Some p ->
  first_missing w = Some tool ->
  wp (script version_le w)
     (fun _ _ => False)
     (fun n s =>
        n = 1%Z /\
        stderr s = [date w +:+ " [INFO] - " +:+ tool +:+ " could not be found, please install it."] /\
        files s = <[p := Lines []]> (disk w) /\
        vars s !! "tmp_filename" = Some p /\
        exit_trap s = Some RmTmpTrap /\
        forallb (fun c => negb (existsb (String.eqb (c_name c)) ["cp"; "yq"; "crane"]))
          (history s) = true)
     (init w).
Proof.
  intros Hdir Hp Hmiss. unfold script, init.
  repeat (sh_step; cbv beta; status_simpl).
  rewrite Hdir. repeat (sh_step; cbv beta; status_simpl).
  rewrite Hp. repeat (sh_step; cbv beta; status_simpl).
  unfold function_call, main. repeat (sh_step; cbv beta; status_simpl).
  unfold function_call, check_dependencies. repeat (sh_step; cbv beta; status_simpl).
  unfold first_missing in Hmiss. cbn [List.find] in Hmiss.
  cbn [for_in]. repeat (sh_step; cbv beta; status_simpl).
  destruct (command_v w "yq") eqn:Hyq; cbn [negb] in *.
  2: { injection Hmiss as <-. unfold function_call, log.
       repeat (sh_step; cbv beta; status_simpl).
       repeat split; try reflexivity. lookup. }
  repeat (sh_step; cbv beta; status_simpl).
  destruct (command_v w "git") eqn:Hgit; cbn [negb] in *.
  2: { injection Hmiss as <-. unfold function_call, log.
       repeat (sh_step; cbv beta; status_simpl).
       repeat split; try reflexivity. lookup. }
  repeat (sh_step; cbv beta; status_simpl).
  destruct (command_v w "crane") eqn:Hcrane; cbn [negb] in *; [discriminate |].
  injection Hmiss as <-. unfold function_call, log.
  repeat (sh_step; cbv beta; status_simpl).
  repeat split; try reflexivity. lookup.
Qed.

End MissingTool.




(** ** The release script: files it never touches *)

Section Frame.
Import ReleaseScript ScriptLogic ScriptRules ScriptFacts ScriptProofs.
Context (version_le : string -> string -> bool) (w : world).
Context (F0 : gmap string content) (out p : string).

Local Abbreviation J := (kept F0 out p).

Ltac kept_now :=
  match goal with
  | H : kept _ _ _ _ |- _ => destruct H as [Hout Htmp Hfiles]
  end;
  constructor; state_simpl;
  [ repeat (rewrite lookup_insert_ne by done); assumption
  | repeat (rewrite lookup_insert_ne by done); assumption
  | intros q Hq1 Hq2; repeat (rewrite lookup_insert_ne by congruence); auto ].

Lemma preserves_bind {A B} (m : Sh A) (f : A -> Sh B) :
  preserves J m -> (forall a, preserves J (f a)) -> preserves J (m ≫= f).
Proof.
  intros Hm Hf s Hs. apply wp_bind.
  eapply wp_mono; [apply Hm, Hs | | auto]. intros a s' Hs'. now apply Hf.
Qed.

Lemma preserves_ret {A} (a : A) : preserves J (mret a).
Proof. intros s Hs. exact Hs. Qed.

Lemma preserves_exit {A} (n : Z) : preserves J (exit n : Sh A).
Proof. intros s Hs. exact Hs. Qed.

Lemma preserves_get : preserves J get.
Proof. intros s Hs. exact Hs. Qed.

Lemma preserves_ran line name args status : preserves J (ran line name args status).
Proof. intros s Hs. apply wp_ran. kept_now. Qed.

Lemma preserves_to_stderr msg : preserves J (to_stderr msg).
Proof. intros s Hs. apply wp_to_stderr. kept_now. Qed.

Lemma preserves_set_last_status n : preserves J (modify (set_last_status n)).
Proof. intros s Hs. apply wp_modify. kept_now. Qed.

Lemma preserves_set_bash_command c : preserves J (modify (set_bash_command c)).
Proof. intros s Hs. apply wp_modify. kept_now. Qed.

Lemma preserves_setvar (x v : string) :
  x <> "OUTPUT_FILEPATH" -> x <> "tmp_filename" -> preserves J (setvar x v).
Proof.
  intros H1 H2 s Hs. apply wp_setvar. destruct Hs as [Hout Htmp Hfiles].
  constructor; state_simpl; [now rewrite lookup_insert_ne | now rewrite lookup_insert_ne | auto].
Qed.

Lemma preserves_getvar {A} (x : string) (f : string -> Sh A) :
  (forall v, preserves J (f v)) -> preserves J (getvar x ≫= f).
Proof.
  intros Hf. apply preserves_bind; [| exact Hf].
  intros s Hs. unfold wp, getvar, mbind, Sh_bind, get. cbn.
  destruct (vars s !! x); [exact Hs |]. destruct (nounset s); exact Hs.
Qed.

Lemma preserves_getvar_out {A} (f : string -> Sh A) :
  preserves J (f out) -> preserves J (getvar "OUTPUT_FILEPATH" ≫= f).
Proof.
  intros Hf s Hs. apply wp_bind. eapply wp_getvar; [apply Hs |]. now apply Hf.
Qed.

Lemma preserves_getvar_tmp {A} (f : string -> Sh A) :
  preserves J (f p) -> preserves J (getvar "tmp_filename" ≫= f).
Proof.
  intros Hf s Hs. apply wp_bind. eapply wp_getvar; [apply Hs |]. now apply Hf.
Qed.

Lemma preserves_write_out (c : content) :
  preserves J (modify (fun s => set_files (<[out := c]> (files s)) s)).
Proof.
  intros s Hs. apply wp_modify. destruct Hs as [Hout Htmp Hfiles].
  constructor; state_simpl; [assumption | assumption |].
  intros q Hq1 Hq2. rewrite lookup_insert_ne by congruence. auto.
Qed.

Lemma preserves_write_tmp (c : content) :
  preserves J (modify (fun s => set_files (<[p := c]> (files s)) s)).
Proof.
  intros s Hs. apply wp_modify. destruct Hs as [Hout Htmp Hfiles].
  constructor; state_simpl; [assumption | assumption |].
  intros q Hq1 Hq2. rewrite lookup_insert_ne by congruence. auto.
Qed.

Lemma preserves_call_function {A} (f : Sh A) : preserves J f -> preserves J (call_function f).
Proof.
  intros Hf s Hs. apply wp_call_function.
  eapply wp_mono; [apply Hf | |].
  - destruct Hs. constructor; state_simpl; assumption.
  - intros a s' Hs'. cbv beta. destruct Hs'. constructor; state_simpl; assumption.
  - auto.
Qed.

Lemma preserves_check_status lineno st : preserves J (check_status lineno st).
Proof.
  intros s Hs.
  assert (H : forall s, J s -> J (set_last_status st s)).
  { intros s0 [? ? ?]. constructor; state_simpl; assumption. }
  unfold wp, check_status, on_ERR, call_function, error_handler, ran, to_stderr,
    modify, get, exit, mbind, mret, Sh_bind, Sh_ret.
  destruct (st =? 0)%Z; cbn; [now apply H |].
  destruct (err_trap s) as [[] |]; cbn; [destruct (err_trap_fires _); cbn |].
  - destruct Hs. constructor; state_simpl; assumption.
  - destruct (errexit s); now apply H.
  - destruct (errexit s); now apply H.
Qed.

Lemma preserves_simple_command line text (cmd : Sh Z) :
  preserves J cmd -> preserves J (simple_command line text cmd).
Proof.
  intros Hcmd. unfold simple_command.
  apply preserves_bind; [apply preserves_set_bash_command |]. intros _.
  apply preserves_bind; [exact Hcmd |]. intros st. apply preserves_check_status.
Qed.

Lemma preserves_function_call line text (f : Sh unit) :
  preserves J f -> preserves J (function_call line text f).
Proof.
  intros Hf. unfold function_call. apply preserves_simple_command.
  apply preserves_bind; [now apply preserves_call_function |]. intros _.
  apply preserves_bind; [apply preserves_get |]. intros s. apply preserves_ret.
Qed.

Lemma preserves_for_in {A} (head : string) (l : list A) (body : A -> Sh unit) :
  (forall x, preserves J (body x)) -> preserves J (for_in head l body).
Proof.
  intros Hbody. induction l as [| x l IH]; cbn [for_in]; [apply preserves_ret |].
  apply preserves_bind; [apply preserves_set_bash_command |]. intros _.
  apply preserves_bind; [apply Hbody |]. intros _. exact IH.
Qed.

(** A block of primitive steps run from a state that keeps [J]. *)
Ltac block :=
  let s := fresh "s" in
  let Hs := fresh "Hs" in
  intros s Hs; repeat (sh_step; cbv beta; state_simpl).

Ltac pres_step :=
  lazymatch goal with
  | |- preserves _ (mret _) => apply preserves_ret
  | |- preserves _ (exit _) => apply preserves_exit
  | |- preserves _ (ran _ _ _ _) => apply preserves_ran
  | |- preserves _ (to_stderr _) => apply preserves_to_stderr
  | |- preserves _ (modify (set_last_status _)) => apply preserves_set_last_status
  | |- preserves _ (modify (set_bash_command _)) => apply preserves_set_bash_command
  | |- preserves _ (setvar _ _) => apply preserves_setvar; [done | done]
  | |- preserves _ (simple_command _ _ _) => apply preserves_simple_command
  | |- preserves _ (function_call _ _ _) => apply preserves_function_call
  | |- preserves _ (call_function _) => apply preserves_call_function
  | |- preserves _ (for_in _ _ _) => apply preserves_for_in; intros ?
  | |- preserves _ (mbind _ (getvar "OUTPUT_FILEPATH")) => apply preserves_getvar_out
  | |- preserves _ (mbind _ (getvar "tmp_filename")) => apply preserves_getvar_tmp
  | |- preserves _ (mbind _ (getvar _)) => apply preserves_getvar; intros ?
  | |- preserves _ (mbind _ get) => fail
  | |- preserves _ (mbind _ _) => apply preserves_bind; [| intros ?]
  end.

Ltac pres := repeat (pres_step; cbv beta zeta).

Lemma log_keeps (msg : string) : preserves J (log w msg).
Proof. unfold log. pres. Qed.

Lemma check_dependencies_keeps : preserves J (check_dependencies w).
Proof.
  unfold check_dependencies, builtin, exit_builtin. pres.
  destruct (negb (command_v w _)); pres. apply log_keeps.
Qed.

Lemma generate_image_digests_file_keeps : preserves J generate_image_digests_file.
Proof.
  unfold generate_image_digests_file. pres.
  block. destruct (files s !! _) as [c |]; [destruct (String.eqb _ out) |];
    repeat (sh_step; cbv beta; state_simpl); kept_now.
Qed.

Lemma crane_get_latest_image_tag_keeps (image : string) :
  preserves J (crane_get_latest_image_tag version_le w image).
Proof.
  unfold crane_get_latest_image_tag, builtin. pres.
  block. kept_now.
Qed.

Lemma update_sidecar_keeps (sidecar : string) :
  preserves J (update_sidecar version_le w sidecar).
Proof.
  unfold update_sidecar, builtin. pres.
  - apply log_keeps.
  - block. destruct (yq_read _ _ _); repeat (sh_step; cbv beta; state_simpl); kept_now.
  - apply crane_get_latest_image_tag_keeps.
  - block. destruct (yq_assign _ _ _ _); repeat (sh_step; cbv beta; state_simpl); kept_now.
  - destruct (crane_digest w _); pres.
  - block. destruct (yq_assign _ _ _ _); repeat (sh_step; cbv beta; state_simpl); kept_now.
Qed.

Lemma update_sidecars_source_of_truth_keeps :
  preserves J (update_sidecars_source_of_truth version_le w).
Proof.
  unfold update_sidecars_source_of_truth. pres.
  - block. kept_now.
  - block. destruct (yq_keys _); repeat (sh_step; cbv beta; state_simpl); kept_now.
  - block. eapply wp_mono; [apply preserves_for_in | auto | auto].
    + intros sidecar. apply update_sidecar_keeps.
    + kept_now.
Qed.

Lemma main_keeps : preserves J (main version_le w).
Proof.
  unfold main. pres.
  - apply check_dependencies_keeps.
  - apply generate_image_digests_file_keeps.
  - apply update_sidecars_source_of_truth_keeps.
Qed.

End Frame.

Section FrameTop.
Import ReleaseScript ScriptLogic ScriptRules ScriptFacts ScriptProofs.
Context (version_le : string -> string -> bool) (w : world).

Lemma script_ended :
  wp (script version_le w) (fun _ s => ended w s) (fun _ s => ended w s) (init w).
Proof.
  unfold script, init, builtin. repeat (sh_step; cbv beta; status_simpl).
  destruct (script_dir w) as [dir |] eqn:Hdir; repeat (sh_step; cbv beta; status_simpl).
  2: { split; [reflexivity |]. split; [reflexivity |]. left. split; reflexivity. }
  destruct (mktemp w) as [p |] eqn:Hp; repeat (sh_step; cbv beta; status_simpl).
  2: { split; [reflexivity |]. split; [reflexivity |]. left. split; reflexivity. }
  match goal with
  | |- context [<["OUTPUT_FILEPATH" := ?v]> _] => set (out := v)
  end.
  assert (Hout : output_path w = Some out).
  { unfold output_path. rewrite Hdir. cbn [mbind option_bind]. f_equal. subst out.
    rewrite !lookup_insert_ne by done.
    destruct (env_OUTPUT_FILEPATH w) as [v |]; [now rewrite lookup_singleton_eq | reflexivity]. }
  eapply wp_mono;
    [apply (preserves_function_call (disk w) out p 89 "main" _
              (main_keeps version_le w (disk w) out p)) | |].
  - constructor; state_simpl.
    + now rewrite lookup_insert_ne, lookup_insert_eq.
    + now rewrite lookup_insert_eq.
    + intros q _ Hq. now rewrite lookup_insert_ne.
  - intros a s Hs. right. eauto.
  - intros n s Hs. right. eauto.
Qed.

Lemma check_status_same (lineno : nat) (st : Z) (s : state) :
  files (snd (check_status lineno st s)) = files s /\
  vars (snd (check_status lineno st s)) = vars s.
Proof.
  unfold check_status, on_ERR, call_function, error_handler, ran, to_stderr,
    modify, get, exit, mbind, mret, Sh_bind, Sh_ret.
  destruct (st =? 0)%Z; cbn; [auto |].
  destruct (err_trap s) as [[] |]; cbn; [destruct (err_trap_fires _); cbn |]; auto;
    destruct (errexit s); auto.
Qed.

Lemma rm_files_others (operands : list string) (fs : gmap string content) (q : string) :
  ~ In q operands -> fst (rm_files operands fs) !! q = fs !! q.
Proof.
  revert fs. induction operands as [| f rest IH]; intros fs Hq; [reflexivity |].
  cbn [rm_files]. specialize (IH (delete f fs)).
  destruct (rm_files rest (delete f fs)) as [fs' ok]. cbn [fst] in *.
  rewrite IH by (intros Hin; apply Hq; now right).
  apply lookup_delete_ne. intros ->. apply Hq. now left.
Qed.

(** The [EXIT] trap leaves the variables alone, and every file that is not
    one of the words of the temporary name. *)
Lemma rm_tmp_others (s : state) (p : string) :
  vars s !! "tmp_filename" = Some p ->
  vars (snd (rm_tmp s)) = vars s /\
  forall q, ~ In q (word_split p) -> files (snd (rm_tmp s)) !! q = files s !! q.
Proof.
  intros Hp. unfold rm_tmp, getvar, trap_command, mbind, Sh_bind, get. cbn.
  rewrite Hp. cbn. unfold rm.
  pose proof (rm_files_others (word_split p) (files s)) as Hrm.
  destruct (rm_files (word_split p) (files s)) as [fs' ok]. cbn [fst] in Hrm.
  unfold mret, Sh_ret. cbn.
  match goal with
  | |- context [check_status 1 ?st ?s0] =>
      destruct (check_status_same 1 st s0) as [Hf Hv];
      destruct (check_status 1 st s0) as [r s']
  end.
  cbn [snd] in *. state_simpl. rewrite Hv. split; [reflexivity |].
  intros q Hq. rewrite Hf. now apply Hrm.
Qed.

(** The whole run again: the files and the output variable at the end. *)
Lemma run_script_frame :
  (forall q, (forall p, mktemp w = Some p -> ~ In q (word_split p)) ->
             output_path w <> Some q -> mktemp w <> Some q ->
             files (snd (run_script version_le w)) !! q = disk w !! q) /\
  (fst (run_script version_le w) = 0%Z ->
   vars (snd (run_script version_le w)) !! "OUTPUT_FILEPATH" = output_path w).
Proof.
  pose proof script_ended as H. pose proof (ScriptProofs.script_spec version_le w) as H'.
  unfold wp in H, H'. unfold run_script.
  destruct (script version_le w (init w)) as [r s].
  assert (Hend : ended w s) by (destruct r; exact H). clear H.
  destruct Hend as [[Htrap Hfiles] | (out & p & Hout & Hp & [Hvout Hvtmp Hkept])].
  - rewrite Htrap. cbn [snd fst]. split; [intros q _ _ _; now rewrite Hfiles |].
    destruct r as [[] | n]; intros Hn.
    + destruct H' as (out & p & [] & _). congruence.
    + destruct H'. congruence.
  - destruct (rm_tmp_others s p Hvtmp) as [Hv Hf].
    destruct (exit_trap s) as [[] |]; cbn [on_EXIT].
    + destruct (rm_tmp s) as [[[] | n'] s'] eqn:Hrm; cbn [fst snd] in *.
      * split.
        -- intros q Hw Hq1 Hq2. rewrite Hf by (now apply Hw). apply Hkept; congruence.
        -- intros _. now rewrite Hv, Hvout, Hout.
      * split.
        -- intros q Hw Hq1 Hq2. rewrite Hf by (now apply Hw). apply Hkept; congruence.
        -- intros _. now rewrite Hv, Hvout, Hout.
    + cbn [fst snd]. split.
      * intros q _ Hq1 Hq2. apply Hkept; congruence.
      * intros _. now rewrite Hvout, Hout.
Qed.

End FrameTop.






(** ** How a spec of the parameter tests can be unwound *)

Section UnwindRules.
Import SpecFacts.
Context (ok : forall R : Type, apiE R -> R -> Prop) (P : verdict -> Prop).

Lemma Unwinds_bind {A B} (m : Test A) (f : A -> Test B) :
  Unwinds ok P m -> (forall a, Unwinds ok P (f a)) -> Unwinds ok P (m ≫= f).
Proof.
  intros Hm Hf. unfold mbind, Test_bind.
  induction Hm as [a | v Hv | R line e k _ IH]; simpl.
  - apply Hf.
  - now constructor.
  - constructor. exact IH.
Qed.

Lemma Unwinds_pure {A} (c : Check A) : check_ends P c -> Unwinds ok P (pure c).
Proof. destruct c; intros H; now constructor. Qed.

Lemma Unwinds_call {R} (line : nat) (e : apiE R) : Unwinds ok P (call line e).
Proof. constructor. intros r _. constructor. Qed.

Lemma Unwinds_outcome {A} (t : Test A) (h : handler) :
  Unwinds ok P t -> answers h ok -> ends_with P (outcome h t).
Proof.
  intros Ht Hh. unfold outcome.
  induction Ht as [a | v Hv | R line e k _ IH]; simpl.
  - exact I.
  - exact Hv.
  - specialize (IH (h R line e) (Hh R line e)).
    destruct (run h (k (h R line e))) as [tr out]. exact IH.
Qed.

Lemma ends_bind {A B} (m : Check A) (f : A -> Check B) :
  check_ends P m -> (forall a, check_ends P (f a)) -> check_ends P (m ≫= f).
Proof. destruct m as [a | v]; intros Hm Hf; [apply Hf | exact Hm]. Qed.

Lemma ends_range {A} (l : list A) (body : A -> Check unit) :
  (forall x, check_ends P (body x)) -> check_ends P (range l body).
Proof.
  intros Hb. induction l as [| x l IH]; [exact I |].
  cbn [range]. apply ends_bind; [apply Hb | intros _; exact IH].
Qed.

Lemma ends_range_return {A} (l : list A) (body : A -> Check flow) :
  (forall x, check_ends P (body x)) -> check_ends P (range_return l body).
Proof.
  intros Hb. induction l as [| x l IH]; [exact I |].
  cbn [range_return]. apply ends_bind; [apply Hb |]. intros [|]; [exact IH | exact I].
Qed.

Context (failures : forall line msg, P (Failed line msg)).

Lemma ends_Expect (line : nat) (b : bool) (msg : string) : check_ends P (Expect line b msg).
Proof. destruct b; [exact I | apply failures]. Qed.

(** [Expect(p).NotTo(BeNil())] before [*p]. *)
Lemma ends_guarded {A B} (line line' : nat) (msg : string) (p : option A)
    (k : A -> Check B) :
  (forall a, check_ends P (k a)) ->
  check_ends P (Expect line (negb (is_nil p)) msg ;; deref line' p ≫= k).
Proof. intros Hk. destruct p as [a |]; [apply Hk | apply failures]. Qed.

(** [Expect(l).NotTo(BeEmpty())] before [l[0]]. *)
Lemma ends_nonempty {A B} (line : nat) (msg : string) (l : list A)
    (k : A -> list A -> Check B) (none : Check B) :
  (forall a l', check_ends P (k a l')) ->
  check_ends P (Expect line (negb (BeEmpty l)) msg ;;
                match l with
                | a :: l' => k a l'
                | [] => none
                end).
Proof. intros Hk. destruct l as [| a l']; [apply failures | apply Hk]. Qed.

Lemma ends_first_container (containers : list Container.t) (name : string)
    (body : Container.t -> Check unit) (fail_line : nat) (msg : string) :
  (forall c, check_ends P (body c)) ->
  check_ends P (ParameterTests.first_container containers name body fail_line msg).
Proof.
  intros Hb. unfold ParameterTests.first_container. apply ends_bind.
  - apply ends_range_return. intros c. destruct (Container.Name c =? name); [| exact I].
    apply ends_bind; [apply Hb | intros _; exact I].
  - intros [|]; [apply failures | exact I].
Qed.

End UnwindRules.

Lemma Unwinds_Run (Q P : verdict -> Prop) (line : nat)
    (t : ParameterTests.DynamicallyProvisionedCmdVolumeTest.t) (ns : Namespace.t) :
  (forall v, Q v -> P v) ->
  SpecFacts.Unwinds (SpecFacts.run_reports Q) P (ParameterTests.Run line t ns).
Proof.
  intros HQ. unfold ParameterTests.Run, call. cbn.
  constructor. intros [v |] Hr; constructor. apply HQ. exact Hr.
Qed.

(** One step of the analysis of the assertions of a spec. *)
Ltac ends_step failures :=
  lazymatch goal with
  | |- SpecFacts.check_ends _ (mbind _ (Expect _ (negb (is_nil _)) _)) =>
      first [ apply (ends_guarded _ failures); intros ?
            | apply ends_bind; [| intros ?] ]
  | |- SpecFacts.check_ends _ (mbind _ (Expect _ (negb (BeEmpty _)) _)) =>
      first [ apply (ends_nonempty _ failures); intros ? ?
            | apply ends_bind; [| intros ?] ]
  | |- SpecFacts.check_ends _ (mbind _ _) => apply ends_bind; [| intros ?]
  | |- SpecFacts.check_ends _ (Expect _ _ _) => apply (ends_Expect _ failures)
  | |- SpecFacts.check_ends _ (Fail _ _) => apply failures
  | |- SpecFacts.check_ends _ (Ok _) => exact I
  | |- SpecFacts.check_ends _ (Stop _) => cbn; tauto
  | |- SpecFacts.check_ends _ (Skip _ _) => cbn; tauto
  | |- SpecFacts.check_ends _ (deref _ (Some _)) => exact I
  | |- SpecFacts.check_ends _ (deref _ None) => cbn; tauto
  | |- SpecFacts.check_ends _ (deref _ ?p) => destruct p
  | |- SpecFacts.check_ends _ (range _ _) => apply ends_range; intros ?
  | |- SpecFacts.check_ends _ (ParameterTests.first_container _ _ _ _ _) =>
      apply (ends_first_container _ failures); intros ?
  | |- SpecFacts.check_ends _ (match ?x with _ => _ end) => destruct x
  | |- SpecFacts.check_ends _ ?c => let hd := head_of c in unfold hd; cbv beta zeta
  end.

Ltac unwind_step failures run :=
  lazymatch goal with
  | |- SpecFacts.Unwinds _ _ (mbind _ _) => apply Unwinds_bind; [| intros ?]
  | |- SpecFacts.Unwinds _ _ (pure _) =>
      apply Unwinds_pure; cbv zeta; repeat ends_step failures
  | |- SpecFacts.Unwinds _ _ (call _ _) => apply Unwinds_call
  | |- SpecFacts.Unwinds _ _ (ParameterTests.Run _ _ _) => apply Unwinds_Run; run
  | |- SpecFacts.Unwinds _ _ (Ret _) => constructor
  | |- SpecFacts.Unwinds _ _ (match ?x with _ => _ end) => destruct x
  | |- SpecFacts.Unwinds _ _ ?t => let hd := head_of t in unfold hd; cbv beta zeta
  end.

Lemma suite_panics (ext : ParameterTests.externals) (ns : Namespace.t) :
  Forall (fun s => SpecFacts.Unwinds (SpecFacts.run_reports SpecFacts.no_panic)
                     (SpecFacts.panics_at SpecFacts.panic_sites (ParameterTests.param s))
                     (ParameterTests.body s))
    (ParameterTests.suite ext ns).
Proof.
  unfold ParameterTests.suite.
  repeat (apply List.Forall_cons;
          [cbn [ParameterTests.body ParameterTests.param ParameterTests.It] |]);
    [.. | apply List.Forall_nil];
    repeat unwind_step (fun (l : nat) (m : string) => I) ltac:(now intros []).
Qed.

Lemma suite_skips (ext : ParameterTests.externals) (ns : Namespace.t) :
  Forall (fun s => SpecFacts.Unwinds (SpecFacts.run_reports SpecFacts.no_skip)
                     (SpecFacts.skips_at SpecFacts.skip_sites (ParameterTests.param s))
                     (ParameterTests.body s))
    (ParameterTests.suite ext ns).
Proof.
  unfold ParameterTests.suite.
  repeat (apply List.Forall_cons;
          [cbn [ParameterTests.body ParameterTests.param ParameterTests.It] |]);
    [.. | apply List.Forall_nil];
    repeat unwind_step (fun (l : nat) (m : string) => I) ltac:(now intros []).
Qed.

Lemma suite_spec (ext : ParameterTests.externals) (ns : Namespace.t)
    (p : string) (s : ParameterTests.spec) :
  List.find (fun s => ParameterTests.param s =? p) (ParameterTests.suite ext ns) = Some s ->
  In s (ParameterTests.suite ext ns) /\ ParameterTests.param s = p.
Proof.
  intros H. apply find_some in H. destruct H as [Hin Hp].
  split; [exact Hin | now apply String.eqb_eq].
Qed.

Lemma answers_workloads (pods : list Pod.t) (deploy : Deployment.t) (ds : DaemonSet.t)
    (Q : verdict -> Prop) :
  SpecFacts.answers (EdgeClusters.workloads pods deploy ds) (SpecFacts.run_reports Q).
Proof. intros R line e. destruct e; exact I. Qed.

Lemma ends_with_panic {A} (sites : list (string * nat)) (p : string) (o : A + verdict)
    (line : nat) :
  SpecFacts.ends_with (SpecFacts.panics_at sites p) o ->
  o = inr (Panicked line) -> In (p, line) sites.
Proof. intros H ->. exact H. Qed.

Lemma ends_with_skip {A} (sites : list (string * nat)) (p : string) (o : A + verdict)
    (line : nat) (msg : string) :
  SpecFacts.ends_with (SpecFacts.skips_at sites p) o ->
  o = inr (Skipped line msg) -> In (p, line) sites.
Proof. intros H ->. exact H. Qed.

(** X11. Whatever the cluster answers, and as long as [test.Run] itself does
    not report a panic, a spec of the parameter tests can end in a Go
    run-time panic only at three places: the dereferences of
    [deploy.Spec.Replicas] (line 1533), of the pod security context's
    [RunAsNonRoot] (line 2008) and of the container security context's
    [ReadOnlyRootFilesystem] (line 2033), which no assertion guards.
    Each of the three is reached in some cluster. *)
Theorem specs_panic_only_at_unguarded_dereferences
    (ext : ParameterTests.externals) (ns : Namespace.t) :
  (forall h, SpecFacts.answers h (SpecFacts.run_reports SpecFacts.no_panic) ->
     Forall (fun s => forall line,
                outcome h (ParameterTests.body s) = inr (Panicked line) ->
                In (ParameterTests.param s, line) SpecFacts.panic_sites)
       (ParameterTests.suite ext ns)) /\
  Forall (fun site =>
            exists s, In s (ParameterTests.suite ext ns) /\
                      ParameterTests.param s = fst site /\
                      SpecFacts.answers (EdgeClusters.panicking (fst site))
                        (SpecFacts.run_reports SpecFacts.no_panic) /\
                      outcome (EdgeClusters.panicking (fst site)) (ParameterTests.body s)
                        = inr (Panicked (snd site)))
    SpecFacts.panic_sites.
Proof.
  split.
  - intros h Hh. eapply Forall_impl; [apply suite_panics |].
    intros s Hs line Hout. cbv beta in Hs.
    eapply ends_with_panic; [| exact Hout].
    eapply Unwinds_outcome; [exact Hs | exact Hh].
  - assert (Hsite : forall p line s,
              List.find (fun s => ParameterTests.param s =? p) (ParameterTests.suite ext ns)
                = Some s ->
              SpecFacts.answers (EdgeClusters.panicking p)
                (SpecFacts.run_reports SpecFacts.no_panic) ->
              outcome (EdgeClusters.panicking p) (ParameterTests.body s)
                = inr (Panicked line) ->
              exists s, In s (ParameterTests.suite ext ns) /\
                        ParameterTests.param s = p /\
                        SpecFacts.answers (EdgeClusters.panicking p)
                          (SpecFacts.run_reports SpecFacts.no_panic) /\
                        outcome (EdgeClusters.panicking p) (ParameterTests.body s)
                          = inr (Panicked line)).
    { intros p line s Hfind Hh Hout. destruct (suite_spec ext ns p s Hfind) as [Hin Hp].
      exists s. auto. }
    unfold SpecFacts.panic_sites.
    repeat (apply List.Forall_cons; [| ]); [.. | apply List.Forall_nil];
      cbn [fst snd];
      (eapply Hsite; [reflexivity | apply answers_workloads | reflexivity]).
Qed.

(** X12. Whatever the cluster answers, and as long as [test.Run] itself does
    not skip, a spec of the parameter tests is skipped only by the
    [Skip] of lines 831, 1227 and 1247 (the VolumeSnapshotClass spec and
    the two Prometheus-annotation specs); an API server that refuses
    every request makes each of these three specs skipped, not failed. *)
Theorem specs_skip_only_at_three_places
    (ext : ParameterTests.externals) (ns : Namespace.t) :
  (forall h, SpecFacts.answers h (SpecFacts.run_reports SpecFacts.no_skip) ->
     Forall (fun s => forall line msg,
                outcome h (ParameterTests.body s) = inr (Skipped line msg) ->
                In (ParameterTests.param s, line) SpecFacts.skip_sites)
       (ParameterTests.suite ext ns)) /\
  Forall (fun site =>
            exists s msg, In s (ParameterTests.suite ext ns) /\
                          ParameterTests.param s = fst site /\
                          outcome EdgeClusters.down (ParameterTests.body s)
                            = inr (Skipped (snd site) msg))
    SpecFacts.skip_sites.
Proof.
  split.
  - intros h Hh. eapply Forall_impl; [apply suite_skips |].
    intros s Hs line msg Hout. cbv beta in Hs.
    eapply ends_with_skip; [| exact Hout].
    eapply Unwinds_outcome; [exact Hs | exact Hh].
  - assert (Hsite : forall p line s msg,
              List.find (fun s => ParameterTests.param s =? p) (ParameterTests.suite ext ns)
                = Some s ->
              outcome EdgeClusters.down (ParameterTests.body s) = inr (Skipped line msg) ->
              exists s msg, In s (ParameterTests.suite ext ns) /\
                            ParameterTests.param s = p /\
                            outcome EdgeClusters.down (ParameterTests.body s)
                              = inr (Skipped line msg)).
    { intros p line s msg Hfind Hout. destruct (suite_spec ext ns p s Hfind) as [Hin Hp].
      exists s, msg. auto. }
    unfold SpecFacts.skip_sites.
    repeat (apply List.Forall_cons; [| ]); [.. | apply List.Forall_nil];
      cbn [fst snd];
      (eapply Hsite; [reflexivity | reflexivity]).
Qed.

(** ** Specs that look for a container by name *)

Section NamedContainers.
Import ParameterTests SpecFacts.

Lemma outcome_of_checks {A} (h : handler) (c : Check A) :
  outcome h (pure c) = match c with Ok a => inl a | Stop v => inr v end.
Proof. unfold outcome. now rewrite run_pure. Qed.

Lemma outcome_pods_spec (h : handler) (line : nat) (selector msg : string)
    (checks : list Pod.t -> Check unit) (pods : list Pod.t) :
  h _ line (kube_pods selector) = (pods, None) ->
  pods <> [] ->
  outcome h (pods_spec line selector msg checks)
  = match checks pods with Ok a => inl a | Stop v => inr v end.
Proof.
  intros Hh Hne. unfold outcome, pods_spec.
  rewrite run_bind, run_call. cbn [fst snd]. rewrite Hh.
  rewrite run_bind, run_pure. cbn [HaveOccurred negb Expect app].
  rewrite run_bind, run_pure. destruct pods as [| pod pods]; [contradiction |].
  cbn [BeEmpty negb Expect app]. rewrite run_pure. reflexivity.
Qed.

Lemma outcome_deploy_spec (h : handler) (line : nat)
    (checks : Deployment.t -> Check unit) (deploy : Deployment.t) :
  h _ line (K8sGet Deployments (Some "kube-system") "ebs-csi-controller") = (deploy, None) ->
  outcome h (deploy_spec line checks)
  = match checks deploy with Ok a => inl a | Stop v => inr v end.
Proof.
  intros Hh. unfold outcome, deploy_spec, get_deploy.
  rewrite run_bind, run_call. cbn [fst snd]. rewrite Hh.
  rewrite run_bind, run_pure. cbn [HaveOccurred negb Expect app].
  rewrite run_pure. reflexivity.
Qed.

Lemma outcome_ds_spec (h : handler) (line : nat)
    (checks : DaemonSet.t -> Check unit) (ds : DaemonSet.t) :
  h _ line (K8sGet DaemonSets (Some "kube-system") "ebs-csi-node") = (ds, None) ->
  outcome h (ds_spec line checks)
  = match checks ds with Ok a => inl a | Stop v => inr v end.
Proof.
  intros Hh. unfold outcome, ds_spec, get_ds.
  rewrite run_bind, run_call. cbn [fst snd]. rewrite Hh.
  rewrite run_bind, run_pure. cbn [HaveOccurred negb Expect app].
  rewrite run_pure. reflexivity.
Qed.

Lemma no_sidecar_name (containers : list Container.t) (name : string) (c : Container.t) :
  no_sidecar containers -> In name sidecars -> In c containers ->
  (Container.Name c =? name) = false.
Proof.
  intros Hno Hname Hc. unfold no_sidecar in Hno. rewrite List.Forall_forall in Hno.
  apply String.eqb_neq. intros E. apply (Hno c Hc). now rewrite E.
Qed.

(** A loop that asserts only about the containers called [name] asserts
    nothing when there is none. *)
Lemma named_checks_absent (pods : list Pod.t) (name : string)
    (f : Pod.t -> Container.t -> Check unit) :
  In name sidecars ->
  Forall (fun pod => no_sidecar (PodSpec.Containers (Pod.Spec pod))) pods ->
  range pods (fun pod =>
    range (PodSpec.Containers (Pod.Spec pod)) (fun c =>
      if Container.Name c =? name then f pod c else Ok tt)) = Ok tt.
Proof.
  intros Hname Hpods. rewrite List.Forall_forall in Hpods.
  apply range_ok. intros pod Hpod. apply range_ok. intros c Hc.
  now rewrite (no_sidecar_name _ name c (Hpods pod Hpod) Hname Hc).
Qed.

Lemma first_container_absent (containers : list Container.t) (name : string)
    (body : Container.t -> Check unit) (fail_line : nat) (msg : string) :
  In name sidecars -> no_sidecar containers ->
  first_container containers name body fail_line msg = Stop (Failed fail_line msg).
Proof.
  intros Hname Hno. unfold first_container.
  assert (H : range_return containers (fun c =>
                if Container.Name c =? name then body c ;; Ok Return else Ok Next)
              = Ok Next).
  { induction containers as [| c cs IH]; [reflexivity |].
    cbn [range_return]. rewrite (no_sidecar_name (c :: cs) name c Hno Hname) by now left.
    cbn. apply IH. now inversion Hno. }
  rewrite H. reflexivity.
Qed.

Lemma in_lenient (p : string) :
  In p lenient -> existsb (String.eqb p) lenient = true.
Proof. intros H. apply existsb_exists. exists p. split; [exact H | apply String.eqb_refl]. Qed.

End NamedContainers.

(** X13. The pod-listing specs that assert only inside
    [if container.Name == ...] cannot tell that the container is missing:
    in a cluster whose pod lists are non-empty and hold no container of
    the names the specs look for, all 25 of them pass. *)
Theorem specs_pass_without_their_container
    (ext : ParameterTests.externals) (ns : Namespace.t) (h : handler) :
  SpecFacts.pods_without_sidecars h ->
  Forall (fun s => In (ParameterTests.param s) SpecFacts.lenient ->
                   passes h (ParameterTests.body s))
    (ParameterTests.suite ext ns).
Proof.
  intros Hh.
  assert (Hspec : forall line selector msg checks,
             (forall pods,
                Forall (fun pod => SpecFacts.no_sidecar (PodSpec.Containers (Pod.Spec pod)))
                  pods -> checks pods = Ok tt) ->
             passes h (ParameterTests.pods_spec line selector msg checks)).
  { intros line selector msg checks Hc.
    destruct (Hh line selector) as (pods & Hl & Hne & Hpods).
    unfold passes. rewrite (outcome_pods_spec h line selector msg checks pods Hl Hne).
    now rewrite (Hc pods Hpods). }
  unfold ParameterTests.suite.
  repeat (apply List.Forall_cons;
          [cbn [ParameterTests.body ParameterTests.param ParameterTests.It]; intros Hin |]);
    [.. | apply List.Forall_nil];
    try (apply in_lenient in Hin; vm_compute in Hin; discriminate Hin);
    clear Hin.
  all: try (apply Hspec; intros pods Hpods;
            apply named_checks_absent; [simpl; tauto | exact Hpods]).
  (* selinux: the assertion of line 1113 repeats the test of its [if] *)
  apply Hspec. intros pods _. apply range_ok. intros pod _.
    assert (H : range (PodSpec.Containers (Pod.Spec pod))
                (fun container => if Container.Name container =? "ebs-plugin"
                                  then Ok tt else Ok tt) = Ok tt).
  { apply range_ok. intros c _. now destruct (Container.Name c =? "ebs-plugin"). }
  cbv zeta. rewrite H. cbn.
  destruct (PodSpec.SecurityContext (Pod.Spec pod)) as [sc |]; [| reflexivity].
  now destruct (PodSecurityContext.SELinuxOptions sc).
Qed.

Lemma specs_pass_without_their_container_witness :
  Forall (fun s => In (ParameterTests.param s) SpecFacts.lenient ->
                   passes EdgeClusters.other_pods (ParameterTests.body s))
    (ParameterTests.suite EdgeClusters.sample_externals EdgeClusters.sample_namespace).
Proof.
  apply (specs_pass_without_their_container
           EdgeClusters.sample_externals EdgeClusters.sample_namespace
           EdgeClusters.other_pods).
  intros line selector.
  exists [Examples.pod_of [Examples.container "aws-node" []]].
  split; [reflexivity |]. split; [discriminate |].
  repeat constructor. vm_compute. intuition discriminate.
Defined.

(** X14. The spec of [param:selinux] asserts nothing about SELinux: the flag
    computed from the arguments is discarded and the assertion of line
    1113 repeats the test of the [if] around it.  The spec passes exactly
    when the list of node pods succeeds and is not empty. *)
Theorem selinux_spec_checks_only_that_pods_exist (h : handler) :
  passes h ParameterTests.It_selinux <->
  exists pods,
    h _ 1090 (ParameterTests.kube_pods "app=ebs-csi-node") = (pods, None) /\ pods <> [].
Proof.
  assert (Hchecks : forall pods : list Pod.t,
    range pods (fun pod =>
      range (PodSpec.Containers (Pod.Spec pod)) (fun container =>
        if Container.Name container =? "ebs-plugin" then
          let hasSelinux :=
            existsb (fun arg => arg =? "--warn-on-invalid-tag=false")
              (Container.Args container) in
          let _ := hasSelinux in Ok tt
        else Ok tt) ;;
      match PodSpec.SecurityContext (Pod.Spec pod) with
      | Some sc =>
          if negb (is_nil (PodSecurityContext.SELinuxOptions sc))
          then Expect 1113 (negb (is_nil (PodSecurityContext.SELinuxOptions sc))) ""
          else Ok tt
      | None => Ok tt
      end) = Ok tt).
  { intros pods. apply range_ok. intros pod _.
    assert (H : range (PodSpec.Containers (Pod.Spec pod))
                  (fun container => if Container.Name container =? "ebs-plugin"
                                    then Ok tt else Ok tt) = Ok tt).
    { apply range_ok. intros c _. now destruct (Container.Name c =? "ebs-plugin"). }
    cbv zeta. rewrite H. cbn.
    destruct (PodSpec.SecurityContext (Pod.Spec pod)) as [sc |]; [| reflexivity].
    now destruct (PodSecurityContext.SELinuxOptions sc). }
  unfold passes, outcome, ParameterTests.It_selinux, ParameterTests.pods_spec.
  rewrite run_bind, run_call. cbn [fst snd].
  destruct (h _ 1090 (ParameterTests.kube_pods "app=ebs-csi-node")) as [pods err].
  rewrite run_bind, run_pure.
  destruct err as [e |]; cbn [HaveOccurred negb Expect app snd].
  - split; [discriminate | intros (pods' & [=] & _)].
  - rewrite run_bind, run_pure. destruct pods as [| pod pods];
      cbn [BeEmpty negb Expect app snd].
    + split; [discriminate | intros (pods' & [= <-] & Hne); contradiction].
    + rewrite run_pure, Hchecks. cbn [snd]. split; [| reflexivity].
      intros _. exists (pod :: pods). split; [reflexivity | discriminate].
Qed.

(** X15. When the controller Deployment and the node DaemonSet are found but
    hold no container of the name a spec looks for, each of the 18 specs
    that inspect one container of the pod template fails at its [Fail]
    line with the message that the container was not found. *)
Theorem specs_fail_without_their_container
    (ext : ParameterTests.externals) (ns : Namespace.t) (h : handler) :
  SpecFacts.workloads_without_sidecars h ->
  Forall (fun s => forall line name,
            SpecFacts.not_found_site (ParameterTests.param s) = Some (line, name) ->
            outcome h (ParameterTests.body s)
            = inr (Failed line (name +:+ " container not found")))
    (ParameterTests.suite ext ns).
Proof.
  intros [Hdeploy Hds].
  assert (Hd : forall line name body fail_line msg,
             In name SpecFacts.sidecars ->
             outcome h (ParameterTests.deploy_spec line (fun deploy =>
               ParameterTests.first_container
                 (PodSpec.Containers (ParameterTests.deploy_pod deploy)) name
                 (body deploy) fail_line msg))
             = inr (Failed fail_line msg)).
  { intros line name body fail_line msg Hname.
    destruct (Hdeploy line) as (deploy & Hget & Hno).
    rewrite (outcome_deploy_spec h line _ deploy Hget).
    now rewrite first_container_absent. }
  assert (Hn : forall line name body fail_line msg,
             In name SpecFacts.sidecars ->
             outcome h (ParameterTests.ds_spec line (fun ds =>
               ParameterTests.first_container
                 (PodSpec.Containers (ParameterTests.ds_pod ds)) name
                 (body ds) fail_line msg))
             = inr (Failed fail_line msg)).
  { intros line name body fail_line msg Hname.
    destruct (Hds line) as (ds & Hget & Hno).
    rewrite (outcome_ds_spec h line _ ds Hget).
    now rewrite first_container_absent. }
  unfold ParameterTests.suite.
  repeat (apply List.Forall_cons;
          [cbn [ParameterTests.body ParameterTests.param ParameterTests.It];
           intros line name Hsite; vm_compute in Hsite |]);
    [.. | apply List.Forall_nil];
    try discriminate Hsite;
    injection Hsite as <- <-.
  all: first
    [ apply (Hd _ _ (fun _ => _)); simpl; tauto
    | apply (Hn _ _ (fun _ => _)); simpl; tauto ].
Qed.

Lemma specs_fail_without_their_container_witness :
  Forall (fun s => forall line name,
            SpecFacts.not_found_site (ParameterTests.param s) = Some (line, name) ->
            outcome EdgeClusters.empty_workloads (ParameterTests.body s)
            = inr (Failed line (name +:+ " container not found")))
    (ParameterTests.suite EdgeClusters.sample_externals EdgeClusters.sample_namespace).
Proof.
  apply (specs_fail_without_their_container
           EdgeClusters.sample_externals EdgeClusters.sample_namespace
           EdgeClusters.empty_workloads).
  split; intros line; eexists; (split; [reflexivity | constructor]).
Defined.

(** ** No spec ignores an error *)

Section Errors.
Import ErrorFacts.

Lemma Stops_bind {A B} (m : Test A) (f : A -> Test B) : Stops m -> Stops (m ≫= f).
Proof.
  intros Hm. unfold mbind, Test_bind. induction Hm as [v | R line e k _ IH]; simpl.
  - constructor.
  - constructor. exact IH.
Qed.

Lemma Stops_outcome {A} (t : Test A) (h : handler) :
  Stops t -> exists v, outcome h t = inr v.
Proof.
  intros Ht. unfold outcome. induction Ht as [v | R line e k _ IH]; simpl.
  - eauto.
  - destruct (IH (h R line e)) as [v Hv].
    destruct (run h (k (h R line e))) as [tr out]. eauto.
Qed.

Lemma Heeds_bind {A B} (m : Test A) (f : A -> Test B) :
  Heeds m -> (forall a, Heeds (f a)) -> Heeds (m ≫= f).
Proof.
  intros Hm Hf. unfold mbind, Test_bind.
  induction Hm as [a | v | R line e k _ IH Hstop]; simpl.
  - apply Hf.
  - constructor.
  - constructor; [exact IH |]. intros r Hr. apply (Stops_bind (k r) f). now apply Hstop.
Qed.

Lemma Heeds_pure {A} (c : Check A) : Heeds (pure c).
Proof. destruct c; constructor. Qed.

Lemma Heeds_call_bind {R B} (line : nat) (e : apiE R) (f : R -> Test B) :
  (forall r, Heeds (f r)) ->
  (forall r, is_Some (answer_error e r) -> Stops (f r)) ->
  Heeds (call line e ≫= f).
Proof. intros Hf Hstop. constructor; assumption. Qed.

Lemma Heeds_trace {A} (t : Test A) (h : handler) :
  Heeds t -> Exists (errored h) (trace h t) -> exists v, outcome h t = inr v.
Proof.
  intros Ht. unfold trace, outcome.
  induction Ht as [a | v | R line e k _ IH Hstop]; simpl.
  - intros H. inversion H.
  - eauto.
  - specialize (IH (h R line e)). specialize (Hstop (h R line e)).
    pose proof (fun H => Stops_outcome (k (h R line e)) h (Hstop H)) as Hout.
    unfold outcome in Hout.
    destruct (run h (k (h R line e))) as [tr out]. simpl in *.
    intros H. inversion H as [? ? Hev | ? ? Htl]; subst; [apply Hout, Hev | apply IH, Htl].
Qed.

End Errors.

(** After an erroneous answer the next assertion (or [Skip]) unwinds. *)
Ltac stops :=
  cbn;
  lazymatch goal with
  | |- ErrorFacts.Stops (Halt _) => constructor
  end.

Ltac errored_answer r H :=
  cbn in H;
  first [ destruct r as [? [? |]]; cbn in H
        | destruct r as [? |]; cbn in H ];
  [ | exfalso; exact (is_Some_None H) ].

Ltac heeds_step :=
  lazymatch goal with
  | |- ErrorFacts.Heeds (mbind _ (call _ _)) =>
      apply Heeds_call_bind;
      [ intros ?
      | let r := fresh "r" in let H := fresh "H" in
        intros r H; errored_answer r H; stops ]
  | |- ErrorFacts.Heeds (mbind _ (pure _)) => apply Heeds_bind; [apply Heeds_pure | intros ?]
  | |- ErrorFacts.Heeds (mbind _ (Ret _)) => apply Heeds_bind; [constructor | intros ?]
  | |- ErrorFacts.Heeds (mbind _ (match ?x with _ => _ end)) => destruct x
  | |- ErrorFacts.Heeds (mbind _ (mbind _ _)) => apply Heeds_bind; [| intros ?]
  | |- ErrorFacts.Heeds (mbind ?f ?m) =>
      let hd := head_of m in unfold hd; cbv beta zeta
  | |- ErrorFacts.Heeds (pure _) => apply Heeds_pure
  | |- ErrorFacts.Heeds (Ret _) => constructor
  | |- ErrorFacts.Heeds (Halt _) => constructor
  | |- ErrorFacts.Heeds (match ?x with _ => _ end) => destruct x
  | |- ErrorFacts.Heeds ?t => let hd := head_of t in unfold hd; cbv beta zeta
  end.

Lemma suite_heeds (ext : ParameterTests.externals) (ns : Namespace.t) :
  Forall ErrorFacts.Heeds (units (ParameterTests.suite ext ns)).
Proof.
  unfold units. apply Forall_app. split.
  - apply Forall_map. unfold ParameterTests.suite.
    repeat (apply List.Forall_cons; [cbn [ParameterTests.body ParameterTests.It] |]);
      [.. | apply List.Forall_nil];
      repeat heeds_step.
  - change (omap ParameterTests.validate (ParameterTests.suite ext ns))
      with (tag_validations ns).
    unfold tag_validations.
    repeat (apply List.Forall_cons; [|]); [.. | apply List.Forall_nil];
      repeat heeds_step.
Qed.

(** X16. No spec and no validation closure of the parameter tests ignores an
    error: when any of its requests to the cluster, to EC2 or to the AWS
    configuration is answered with an error, the spec does not pass: the
    assertion or the [Skip] that follows the request unwinds it. *)
Theorem no_spec_passes_after_an_error
    (ext : ParameterTests.externals) (ns : Namespace.t) (h : handler) :
  Forall (fun t => Exists (ErrorFacts.errored h) (trace h t) -> ~ passes h t)
    (units (ParameterTests.suite ext ns)).
Proof.
  eapply Forall_impl; [apply suite_heeds |].
  intros t Ht Herr Hpass. cbv beta in Ht.
  destruct (Heeds_trace t h Ht Herr) as [v Hv].
  unfold passes in Hpass. congruence.
Qed.

(** ** The mocked methods when the controller gives no first result *)

Lemma mocks_base_method_stops (m : Mock.MockKubernetesClient) (name : string)
    (I : Mock.iface) :
  (Mock.Call (Mock.ctrl m) name [] = Mock.Returned [] ->
   Mock.mocks_base_method m name I = Mock.Panic "index out of range") /\
  (forall msg, Mock.Call (Mock.ctrl m) name [] = Mock.Panic msg ->
               Mock.mocks_base_method m name I = Mock.Panic msg) /\
  (Mock.Call (Mock.ctrl m) name [] = Mock.Goexit ->
   Mock.mocks_base_method m name I = Mock.Goexit).
Proof.
  unfold Mock.mocks_base_method. repeat split.
  - intros ->. reflexivity.
  - intros msg ->. reflexivity.
  - intros ->. reflexivity.
Qed.

(** X17. Each of the 54 mocked methods indexes the results of the controller
    without checking their number: when the recorded call returns no
    value the method panics with an index out of range; when the
    controller itself panics or ends the goroutine (an unexpected call
    reported through [t.Fatalf]) the method ends in the same way and
    returns nothing. *)
Theorem mocked_methods_need_a_first_result
    (name : string) (I : Mock.iface) (method : Mock.MockKubernetesClient -> Mock.go Mock.any)
    (m : Mock.MockKubernetesClient) :
  In (name, I, method) Mock.methods ->
  (Mock.Call (Mock.ctrl m) name [] = Mock.Returned [] ->
   method m = Mock.Panic "index out of range") /\
  (forall msg, Mock.Call (Mock.ctrl m) name [] = Mock.Panic msg ->
               method m = Mock.Panic msg) /\
  (Mock.Call (Mock.ctrl m) name [] = Mock.Goexit -> method m = Mock.Goexit).
Proof.
  intros Hin. unfold Mock.methods in Hin. simpl in Hin.
  repeat (destruct Hin as [[= <- <- <-] | Hin]; [apply mocks_base_method_stops |]).
  destruct Hin.
Qed.

Lemma mocked_methods_need_a_first_result_witness :
  Mock.CoreV1 (Mock.NewMockKubernetesClient EdgeControllers.returning_nothing)
  = Mock.Panic "index out of range".
Proof.
  apply (proj1 (mocked_methods_need_a_first_result "CoreV1" Mock.CoreV1Interface Mock.CoreV1
                  (Mock.NewMockKubernetesClient EdgeControllers.returning_nothing)
                  ltac:(unfold Mock.methods; simpl; tauto))).
  reflexivity.
Defined.
